(** * xss-scanner: the detection and correlation engine, embedded and verified

    A shallow embedding of the Python modules
      - [modules/script_analyzer.py]   (module [ScriptAnalyzer])
      - [modules/html_parser.py]       (module [HTMLParser])
      - [modules/visual_analyzer.py]   (module [VisualAnalyzer])
      - [modules/xss_detector.py]      (module [XSSDetector])
      - [utils/report_generator.py]    (modules [ReportGenerator] and
                                        [ReportPreparation])
      - [utils/report_templates.py]    (module [ReportTemplates])
      - [modules/web_crawler.py]       (module [WebCrawler])
      - [index.py]                     (module [Index])
    followed by the properties of the design document that concern them,
    and by further properties of the code.

    Conventions.  A Python [str] is a [string] whose characters are code
    points below 256 (the Latin-1 range); every literal of the sources lies
    in that range.  A Python [dict] with a fixed set of keys is a record; a
    key that may be absent is an [option] field, [d['k']] on an absent key
    raises [KeyError] and [d.get('k', v)] yields [v].  Dicts that are
    iterated are association lists in insertion order.  Code that can raise
    lives in the error monad [result]. *)

From stdpp Require Import gmap strings list.
From Stdlib Require Import ZArith Ascii String DecimalString Lia.
From Stdlib Require Import DecimalZ DecimalPos.

Open Scope string_scope.
Open Scope list_scope.

(* ===================================================================== *)
(** ** Python strings *)
(* ===================================================================== *)

Module PyStr.

(** Source literals are written in UTF-8; [py] turns the two-byte
    sequences of code points 128..255 into the single code point. *)
Fixpoint py (s : string) : string :=
  match s with
  | EmptyString => EmptyString
  | String c1 t =>
      match t with
      | String c2 rest =>
          if ((N_of_ascii c1 =? 194) || (N_of_ascii c1 =? 195))%N
          then String (ascii_of_N (N.land (N_of_ascii c1) 3 * 64
                                   + N.land (N_of_ascii c2) 63)) (py rest)
          else String c1 (py t)
      | EmptyString => String c1 EmptyString
      end
  end.

Definition in_range (lo hi : N) (c : ascii) : bool :=
  ((lo <=? N_of_ascii c) && (N_of_ascii c <=? hi))%N.

(** [str.lower()] on one code point of the Latin-1 range: [A-Z] and the
    accented capitals U+00C0..U+00DE (U+00D7, the multiplication sign,
    has no case). *)
Definition lower_char (c : ascii) : ascii :=
  if in_range 65 90 c || in_range 192 214 c || in_range 216 222 c
  then ascii_of_N (N_of_ascii c + 32)
  else c.

Fixpoint lower (s : string) : string :=
  match s with
  | EmptyString => EmptyString
  | String c t => String (lower_char c) (lower t)
  end.

(** [s.startswith(p)] *)
Fixpoint startswith (p s : string) : bool :=
  match p, s with
  | EmptyString, _ => true
  | String a p', String b s' => Ascii.eqb a b && startswith p' s'
  | String _ _, EmptyString => false
  end.

(** [needle in hay] *)
Fixpoint contains (needle hay : string) : bool :=
  startswith needle hay ||
  match hay with
  | EmptyString => false
  | String _ t => contains needle t
  end.

(** [s[:n]] *)
Fixpoint take (n : nat) (s : string) : string :=
  match n, s with
  | S k, String c t => String c (take k t)
  | _, _ => EmptyString
  end.

(** [str(n)] of an [int], as an f-string renders it *)
Definition str_of_Z (z : Z) : string := NilZero.string_of_int (Z.to_int z).

Definition str_of_nat (n : nat) : string := str_of_Z (Z.of_nat n).

(** [c.isspace()], also the class [\s] of a [str] pattern, on the
    Latin-1 range *)
Definition isspace (c : ascii) : bool :=
  in_range 9 13 c || in_range 28 32 c
  || (N_of_ascii c =? 133)%N || (N_of_ascii c =? 160)%N.

Fixpoint lstrip (s : string) : string :=
  match s with
  | String c t => if isspace c then lstrip t else s
  | EmptyString => EmptyString
  end.

Fixpoint rstrip (s : string) : string :=
  match s with
  | String c t =>
      match rstrip t with
      | EmptyString => if isspace c then EmptyString else String c EmptyString
      | r => String c r
      end
  | EmptyString => EmptyString
  end.

(** [s.strip()] *)
Definition strip (s : string) : string := rstrip (lstrip s).

(** [sep.join(l)] *)
Fixpoint join (sep : string) (l : list string) : string :=
  match l with
  | [] => EmptyString
  | [x] => x
  | x :: rest => x +:+ sep +:+ join sep rest
  end.

(** truthiness of a [str] *)
Definition nonempty (s : string) : bool :=
  match s with EmptyString => false | String _ _ => true end.

(** [c in s] for one character *)
Fixpoint has (c : ascii) (s : string) : bool :=
  match s with
  | EmptyString => false
  | String a t => Ascii.eqb a c || has c t
  end.

(** [x in l] for a list of strings *)
Definition mem (x : string) (l : list string) : bool :=
  existsb (String.eqb x) l.

End PyStr.

(* ===================================================================== *)
(** ** Exceptions *)
(* ===================================================================== *)

Inductive exn : Type :=
| KeyError (key : string).

Inductive result (A : Type) : Type :=
| Ok (a : A)
| Raise (e : exn).

Arguments Ok {A} a.
Arguments Raise {A} e.

Definition bind {A B : Type} (m : result A) (k : A -> result B) : result B :=
  match m with
  | Ok a => k a
  | Raise e => Raise e
  end.

Notation "'let*' x ':=' m 'in' k" := (bind m (fun x => k))
  (at level 10, x name, m at level 200, k at level 200).

(** [d['k']] on a key that may be absent *)
Definition getitem {A : Type} (key : string) (field : option A) : result A :=
  match field with
  | Some a => Ok a
  | None => Raise (KeyError key)
  end.

(** [d.get('k', default)] *)
Definition get {A : Type} (field : option A) (default : A) : A :=
  match field with
  | Some a => a
  | None => default
  end.

(** a [for] loop whose body can raise: the first exception leaves the loop *)
Fixpoint for_each {A S : Type} (l : list A) (body : S -> A -> result S) (s : S)
  : result S :=
  match l with
  | [] => Ok s
  | x :: l' => let* s' := body s x in for_each l' body s'
  end.

(* ===================================================================== *)
(** ** The regular expressions of the pattern library

    The signatures of [script_analyzer.py] are sequences of: a literal
    character, a character class, a greedy starred class ([\s*], and the
    tail of [[^\1]+]), a one-character capturing group, and a
    back-reference.  [match_here] is the backtracking matcher of Python's
    [re] on that fragment: it returns the text of the first match in
    priority order that starts at the head of the subject. *)
(* ===================================================================== *)

Module Re.

Inductive atom : Type :=
| Lit (c : ascii)
| Class (p : ascii -> bool)
| Star (p : ascii -> bool)
| Capture (n : nat) (p : ascii -> bool)
| Backref (n : nat).

Definition groups := list (nat * ascii).

Fixpoint group (n : nat) (g : groups) : option ascii :=
  match g with
  | [] => None
  | (k, c) :: g' => if Nat.eqb k n then Some c else group n g'
  end.

Definition cons_match (a : ascii) (m : option string) : option string :=
  match m with
  | Some t => Some (String a t)
  | None => None
  end.

(** greedy [p*] followed by the rest of the pattern [k]: take as many
    characters as possible, give them back one at a time *)
Fixpoint star_loop (p : ascii -> bool) (k : string -> option string)
  (s : string) : option string :=
  match s with
  | String a s' =>
      if p a then
        match star_loop p k s' with
        | Some m => Some (String a m)
        | None => k s
        end
      else k s
  | EmptyString => k s
  end.

Definition one (ok : ascii -> bool) (k : ascii -> string -> option string)
  (s : string) : option string :=
  match s with
  | String a s' => if ok a then cons_match a (k a s') else None
  | EmptyString => None
  end.

Fixpoint match_here (pat : list atom) (g : groups) (s : string)
  {struct pat} : option string :=
  match pat with
  | [] => Some EmptyString
  | Lit c :: pat' => one (Ascii.eqb c) (fun _ => match_here pat' g) s
  | Class p :: pat' => one p (fun _ => match_here pat' g) s
  | Star p :: pat' => star_loop p (match_here pat' g) s
  | Capture n p :: pat' => one p (fun a => match_here pat' ((n, a) :: g)) s
  | Backref n :: pat' =>
      match group n g with
      | Some c => one (Ascii.eqb c) (fun _ => match_here pat' g) s
      | None => None
      end
  end.

(** [re.search(pattern, s)] as a truth value *)
Fixpoint search (pat : list atom) (s : string) : bool :=
  match match_here pat [] s with
  | Some _ => true
  | None =>
      match s with
      | String _ s' => search pat s'
      | EmptyString => false
      end
  end.

(** [[m.group() for m in re.finditer(pattern, s)]]: the matches from left
    to right, each search resuming where the previous match ended
    ([skip] counts the characters of the current match still to pass;
    an empty match resumes one character further). *)
Fixpoint finditer_from (pat : list atom) (skip : nat) (s : string)
  : list string :=
  match skip with
  | S k =>
      match s with
      | String _ s' => finditer_from pat k s'
      | EmptyString => []
      end
  | O =>
      match match_here pat [] s with
      | Some m =>
          m :: match s with
               | String _ s' => finditer_from pat (Nat.pred (String.length m)) s'
               | EmptyString => []
               end
      | None =>
          match s with
          | String _ s' => finditer_from pat 0 s'
          | EmptyString => []
          end
      end
  end.

Definition finditer (pat : list atom) (s : string) : list string :=
  finditer_from pat 0 s.

(** a run of literal characters *)
Fixpoint lit (s : string) : list atom :=
  match s with
  | EmptyString => []
  | String c t => Lit c :: lit t
  end.

(** [\s] on a [str] pattern *)
Definition space : ascii -> bool := PyStr.isspace.

(** the class of the three quote characters: quote, double quote,
    backquote *)
Definition quote (c : ascii) : bool :=
  (N_of_ascii c =? 39)%N || (N_of_ascii c =? 34)%N || (N_of_ascii c =? 96)%N.

(** [[^\1]], [[^\2]]: inside a class [\1] is the octal escape of the
    character with that code *)
Definition not_code (n : N) (c : ascii) : bool := negb (N_of_ascii c =? n)%N.

(** the double quote, for pattern texts *)
Definition dq : string := String (ascii_of_N 34) EmptyString.

(** a signature: the pattern text of the source and its atoms *)
Record pattern : Type := mk_pattern { source : string; atoms : list atom }.

(** *** What the matcher computes

    [matches pat g m]: the text [m] matches the pattern [pat], the groups
    matched so far being [g]. *)
Inductive matches : list atom -> groups -> string -> Prop :=
| matches_nil g : matches [] g EmptyString
| matches_lit c pat g m :
    matches pat g m -> matches (Lit c :: pat) g (String c m)
| matches_class p a pat g m :
    p a = true -> matches pat g m -> matches (Class p :: pat) g (String a m)
| matches_star_done p pat g m :
    matches pat g m -> matches (Star p :: pat) g m
| matches_star_more p a pat g m :
    p a = true -> matches (Star p :: pat) g m ->
    matches (Star p :: pat) g (String a m)
| matches_capture n p a pat g m :
    p a = true -> matches pat ((n, a) :: g) m ->
    matches (Capture n p :: pat) g (String a m)
| matches_backref n c pat g m :
    group n g = Some c -> matches pat g m ->
    matches (Backref n :: pat) g (String c m).

(** [m] occurs in [s] *)
Definition occurs (m s : string) : Prop :=
  exists pre post, s = pre +:+ (m +:+ post).

End Re.

(* ===================================================================== *)
(** ** modules/script_analyzer.py *)
(* ===================================================================== *)

Module ScriptAnalyzer.
Import Re.

(** an element of [page_data['scripts']], as the crawler builds it *)
Record script : Type := mk_script {
  script_type : option string;
  script_src : option string;
  script_content : option string
}.

(** an element of [result['dangerous_functions']]; the analyzer builds it
    with the keys [pattern], [match] and [risk] only *)
Record dangerous_function : Type := mk_dangerous_function {
  df_pattern : string;
  df_match : string;
  df_risk : string;
  df_context : option string
}.

(** keys read by the detector that this analyzer never sets *)
Record input_handling : Type := mk_input_handling {
  ih_context : option string;
  ih_dangerous_usage : option bool;
  ih_sanitization_detected : option bool;
  ih_source : option string
}.

Record code_segment : Type := mk_code_segment {
  seg_match : option string;
  seg_function : option string;
  seg_type : option string
}.

Record script_result : Type := mk_script_result {
  id : string;
  risk_level : string;
  risk_score : Z;
  dangerous_functions : list dangerous_function;
  obfuscation_detected : bool;
  user_input_handling : option (list input_handling);
  suspicious_code_segments : option (list code_segment)
}.

Record results : Type := mk_results {
  scripts_analyzed : nat;
  high_risk_scripts : nat;
  medium_risk_scripts : nat;
  script_analysis : list script_result
}.

Definition high_risk : list pattern := [
  (* r'eval\s*\(' *)
  mk_pattern "eval\s*\(" (lit "eval" ++ [Star space; Lit "("]);
  (* r'document\.write\s*\(' *)
  mk_pattern "document\.write\s*\(" (lit "document.write" ++ [Star space; Lit "("]);
  (* r'innerHTML\s*=' *)
  mk_pattern "innerHTML\s*=" (lit "innerHTML" ++ [Star space; Lit "="]);
  (* r'outerHTML\s*=' *)
  mk_pattern "outerHTML\s*=" (lit "outerHTML" ++ [Star space; Lit "="]);
  (* setTimeout\s*\(\s*[ quote, double quote, backquote ] *)
  mk_pattern ("setTimeout\s*\(\s*[\'" +:+ dq +:+ "`]")
    (lit "setTimeout" ++ [Star space; Lit "("; Star space; Class quote]);
  (* setInterval\s*\(\s*[ quote, double quote, backquote ] *)
  mk_pattern ("setInterval\s*\(\s*[\'" +:+ dq +:+ "`]")
    (lit "setInterval" ++ [Star space; Lit "("; Star space; Class quote]);
  (* r'location\.href\s*=' *)
  mk_pattern "location\.href\s*=" (lit "location.href" ++ [Star space; Lit "="]);
  (* r'document\.cookie\s*=' *)
  mk_pattern "document\.cookie\s*=" (lit "document.cookie" ++ [Star space; Lit "="])
].

Definition medium_risk : list pattern := [
  (* r'\.ajax\s*\(' *)
  mk_pattern "\.ajax\s*\(" (lit ".ajax" ++ [Star space; Lit "("]);
  (* r'fetch\s*\(' *)
  mk_pattern "fetch\s*\(" (lit "fetch" ++ [Star space; Lit "("]);
  (* r'XMLHttpRequest' *)
  mk_pattern "XMLHttpRequest" (lit "XMLHttpRequest");
  (* r'\.src\s*=' *)
  mk_pattern "\.src\s*=" (lit ".src" ++ [Star space; Lit "="]);
  (* r'document\.createElement\s*\(' *)
  mk_pattern "document\.createElement\s*\("
    (lit "document.createElement" ++ [Star space; Lit "("])
].


Definition obfuscation_patterns : list pattern := [
  (* r'String\.fromCharCode' *)
  mk_pattern "String\.fromCharCode" (lit "String.fromCharCode");
  (* r'atob\s*\(' *)
  mk_pattern "atob\s*\(" (lit "atob" ++ [Star space; Lit "("]);
  (* \[\s*([QUOTES])[^\1]+\1\s*\+\s*([QUOTES])[^\2]+\2\s*\]  where QUOTES
     stands for the three quote characters *)
  mk_pattern ("\[\s*([\'" +:+ dq +:+ "`])[^\1]+\1\s*\+\s*([\'" +:+ dq
              +:+ "`])[^\2]+\2\s*\]")
    [Lit "["; Star space;
     Capture 1 quote; Class (not_code 1); Star (not_code 1); Backref 1;
     Star space; Lit "+"; Star space;
     Capture 2 quote; Class (not_code 2); Star (not_code 2); Backref 2;
     Star space; Lit "]"]
].

(** steps 1 and 2 of [_analyze_script_simplified]: one entry per
    signature with at least one match, carrying the first match *)
Fixpoint scan (risk : string) (patterns : list pattern) (content : string)
  : list dangerous_function :=
  match patterns with
  | [] => []
  | p :: rest =>
      match finditer (atoms p) content with
      | m :: _ => mk_dangerous_function (source p) m risk None
                  :: scan risk rest content
      | [] => scan risk rest content
      end
  end.

(** [high_risk_matches]: all the matches of all the high-risk signatures *)
Definition high_risk_matches (content : string) : list string :=
  List.concat (map (fun p => finditer (atoms p) content) high_risk).

(** step 3: [any(re.search(p, content) for p in obfuscation_patterns)] *)
Definition detect_obfuscation (content : string) : bool :=
  existsb (fun p => search (atoms p) content) obfuscation_patterns.

Definition count_risk (risk : string) (l : list dangerous_function) : Z :=
  Z.of_nat (List.length (filter (fun f => df_risk f = risk) l)).

Definition level_of (risk_score : Z) : string :=
  if (70 <=? risk_score)%Z then "high"
  else if (40 <=? risk_score)%Z then "medium"
  else if (10 <=? risk_score)%Z then "low"
  else "safe".

Definition _analyze_script_simplified (script_content : string) (script_id : nat)
  : script_result :=
  let high := scan "high" high_risk script_content in
  let dangerous :=
    match high_risk_matches script_content with
    | [] => high ++ scan "medium" medium_risk script_content
    | _ :: _ => high
    end in
  let obfuscated := detect_obfuscation script_content in
  let high_risk_count := count_risk "high" dangerous in
  let medium_risk_count := count_risk "medium" dangerous in
  let risk_score := (high_risk_count * 25 + medium_risk_count * 10)%Z in
  let risk_score := if obfuscated then (risk_score + 20)%Z else risk_score in
  {| id := "script_" +:+ PyStr.str_of_nat script_id;
     risk_level := level_of risk_score;
     risk_score := Z.min 100 risk_score;
     dangerous_functions := dangerous;
     obfuscation_detected := obfuscated;
     user_input_handling := None;
     suspicious_code_segments := None |}.

(** the loop of [analyze]: scripts without content are passed over, the
    index [i] of [enumerate] still advances *)
Fixpoint analyze_from (i : nat) (scripts : list script) : list script_result :=
  match scripts with
  | [] => []
  | s :: rest =>
      match script_content s with
      | Some content =>
          if PyStr.nonempty content
          then _analyze_script_simplified content i :: analyze_from (S i) rest
          else analyze_from (S i) rest
      | None => analyze_from (S i) rest
      end
  end.

Definition count_level (level : string) (l : list script_result) : nat :=
  List.length (filter (fun r => risk_level r = level) l).

Definition analyze (scripts : list script) : results :=
  let analysis := analyze_from 0 scripts in
  {| scripts_analyzed := List.length scripts;
     high_risk_scripts := count_level "high" analysis;
     medium_risk_scripts := count_level "medium" analysis;
     script_analysis := analysis |}.

End ScriptAnalyzer.

(* ===================================================================== *)
(** ** modules/html_parser.py *)
(* ===================================================================== *)

Module HTMLParser.

(** *** The parsed document, as BeautifulSoup presents it *)

(** an attribute value: a [str], or a list of [str] for the multi-valued
    attributes ([class], [rel], ...) *)
Inductive attr_value : Type :=
| AttrStr (s : string)
| AttrList (l : list string).

(** [tag.attrs]: a dict, iterated in the order of the markup *)
Definition attrs_t := list (string * attr_value).

#[warnings="-register-all"] Inductive node : Type :=
| Element (name : string) (attrs : attrs_t) (children : list node)
| Text (s : string).

(** a tag reached by [find_all], with the names of its ancestors, nearest
    first ([tag.parent.name] is the head) *)
Record tag : Type := mk_tag {
  tag_name : string;
  tag_attrs : attrs_t;
  tag_contents : list node;
  tag_ancestors : list string
}.

Definition document : string := "[document]".

(** the descendants of a node in document order *)
Fixpoint descendants (ancestors : list string) (n : node) : list tag :=
  match n with
  | Text _ => []
  | Element name attrs children =>
      mk_tag name attrs children ancestors
      :: (fix over (l : list node) : list tag :=
            match l with
            | [] => []
            | c :: l' => descendants (name :: ancestors) c ++ over l'
            end) children
  end.

(** [soup.find_all()]: every tag under the document *)
Definition all_tags (soup : list node) : list tag :=
  List.concat (map (descendants [document]) soup).

(** [tag.find_all()]: every tag under [t] *)
Definition tags_under (t : tag) : list tag :=
  List.concat (map (descendants (tag_name t :: tag_ancestors t)) (tag_contents t)).

Definition named (name : string) (l : list tag) : list tag :=
  filter (fun t => tag_name t = name) l.

Fixpoint lookup_attr (key : string) (attrs : attrs_t) : option attr_value :=
  match attrs with
  | [] => None
  | (k, v) :: rest => if String.eqb k key then Some v else lookup_attr key rest
  end.

(** the text of a value that is used as a [str]; BeautifulSoup never
    yields a list for [type], [name], [id], [value] or [href] *)
Definition as_str (v : attr_value) : string :=
  match v with
  | AttrStr s => s
  | AttrList l => PyStr.join " " l
  end.

(** [tag.get(key, default)] for those attributes *)
Definition tag_get (t : tag) (key default : string) : string :=
  match lookup_attr key (tag_attrs t) with
  | Some v => as_str v
  | None => default
  end.

(** [{value}] in an f-string; for a list the items are shown quoted
    between brackets (the escapes of [repr] are not needed: an event
    attribute is never multi-valued) *)
Definition format_value (v : attr_value) : string :=
  match v with
  | AttrStr s => s
  | AttrList l => "[" +:+ PyStr.join ", " (map (fun x => "'" +:+ x +:+ "'") l) +:+ "]"
  end.

(** [tag.string]: the single string under the tag, if there is one *)
Fixpoint node_string (n : node) : option string :=
  match n with
  | Text s => Some s
  | Element _ _ [c] => node_string c
  | Element _ _ _ => None
  end.

Definition tag_string (t : tag) : option string :=
  match tag_contents t with
  | [c] => node_string c
  | _ => None
  end.

(** [tag.string or ''] *)
Definition string_or_empty (t : tag) : string :=
  match tag_string t with
  | Some s => s
  | None => EmptyString
  end.

(** [tag.get_text(strip=True)]: the stripped, non-empty strings under the
    tag, concatenated *)
Fixpoint stripped_strings (n : node) : list string :=
  match n with
  | Text s =>
      match PyStr.strip s with
      | EmptyString => []
      | s' => [s']
      end
  | Element _ _ children =>
      (fix over (l : list node) : list string :=
         match l with
         | [] => []
         | c :: l' => stripped_strings c ++ over l'
         end) children
  end.

Definition get_text_strip (t : tag) : string :=
  PyStr.join EmptyString (List.concat (map stripped_strings (tag_contents t))).

(** [tag.parent.name == 'form' or tag.find_parent('form') is not None] *)
Definition in_form (t : tag) : bool :=
  match tag_ancestors t with
  | parent :: _ => String.eqb parent "form" || PyStr.mem "form" (tag_ancestors t)
  | [] => false
  end.

(** *** The pattern library *)

Definition event_attributes : list string := [
  "onload"; "onerror"; "onclick"; "onmouseover"; "onmouseout";
  "onkeypress"; "onkeydown"; "onkeyup"; "onchange"; "onfocus";
  "onblur"; "onsubmit"; "onreset"; "ondblclick"; "oncontextmenu";
  "ondrag"; "ondrop"; "onmousedown"; "onmouseup"; "onpaste";
  "oncut"; "oncopy"; "onselect"; "onready"; "onunload"
].

(** *** The findings *)

Record option_info : Type := mk_option_info {
  opt_value : string;
  opt_text : string;
  opt_selected : bool
}.

(** an element of [results['inputs']]; [in_type] is set for [input] only,
    [in_value] for [input] and [textarea], [in_options] for [select];
    [in_xss_vector] is set together with [in_suspicious] *)
Record input_info : Type := mk_input_info {
  in_tag : string;
  in_type : option string;
  in_name : string;
  in_id : string;
  in_value : option string;
  in_options : option (list option_info);
  in_attributes : attrs_t;
  in_suspicious : bool;
  in_xss_vector : option string;
  in_parent_form : bool
}.

(** the part of an input record that the attribute loops assign *)
Record scan_state : Type := mk_scan_state {
  st_attributes : attrs_t;
  st_suspicious : bool;
  st_xss_vector : option string
}.

Definition initial : scan_state := mk_scan_state [] false None.

(** [attributes[attr] = value] on a dict in insertion order *)
Fixpoint dict_set {V : Type} (key : string) (v : V) (d : list (string * V))
  : list (string * V) :=
  match d with
  | [] => [(key, v)]
  | (k, w) :: rest =>
      if String.eqb k key then (k, v) :: rest else (k, w) :: dict_set key v rest
  end.

Definition keep_attribute (own : list string) (attr : string) (value : attr_value)
  (st : scan_state) : scan_state :=
  if PyStr.mem attr own then st
  else mk_scan_state (dict_set attr value (st_attributes st))
                     (st_suspicious st) (st_xss_vector st).

Definition flag (vector : string) (st : scan_state) : scan_state :=
  mk_scan_state (st_attributes st) true (Some vector).

(** [if attr in self.event_attributes: ...] *)
Definition check_event (attr : string) (value : attr_value) (st : scan_state)
  : scan_state :=
  if PyStr.mem attr event_attributes
  then flag ("Event handler: " +:+ attr +:+ "=" +:+ format_value value) st
  else st.

(** [isinstance(value, str) and 'javascript:' in value.lower()] *)
Definition javascript_value (value : attr_value) : bool :=
  match value with
  | AttrStr s => PyStr.contains "javascript:" (PyStr.lower s)
  | AttrList _ => false
  end.

Definition check_javascript (attr : string) (value : attr_value) (st : scan_state)
  : scan_state :=
  if javascript_value value
  then flag ("JavaScript in attribute: " +:+ attr +:+ "=" +:+ format_value value) st
  else st.

(** the body of [for attr, value in tag.attrs.items()] for an [input] *)
Definition input_step (st : scan_state) (a : string * attr_value) : scan_state :=
  let '(attr, value) := a in
  check_javascript attr value
    (check_event attr value
       (keep_attribute ["type"; "name"; "id"; "value"] attr value st)).

(** the same body for a [textarea] and for a [select] *)
Definition other_step (st : scan_state) (a : string * attr_value) : scan_state :=
  let '(attr, value) := a in
  check_event attr value (keep_attribute ["name"; "id"] attr value st).

Definition analyze_input_tag (t : tag) : input_info :=
  let st := fold_left input_step (tag_attrs t) initial in
  {| in_tag := "input";
     in_type := Some (tag_get t "type" "text");
     in_name := tag_get t "name" EmptyString;
     in_id := tag_get t "id" EmptyString;
     in_value := Some (tag_get t "value" EmptyString);
     in_options := None;
     in_attributes := st_attributes st;
     in_suspicious := st_suspicious st;
     in_xss_vector := st_xss_vector st;
     in_parent_form := in_form t |}.

Definition analyze_textarea_tag (t : tag) : input_info :=
  let st := fold_left other_step (tag_attrs t) initial in
  {| in_tag := "textarea";
     in_type := None;
     in_name := tag_get t "name" EmptyString;
     in_id := tag_get t "id" EmptyString;
     in_value := Some (string_or_empty t);
     in_options := None;
     in_attributes := st_attributes st;
     in_suspicious := st_suspicious st;
     in_xss_vector := st_xss_vector st;
     in_parent_form := in_form t |}.

Definition option_of (o : tag) : option_info :=
  {| opt_value := tag_get o "value" EmptyString;
     opt_text := string_or_empty o;
     opt_selected := match lookup_attr "selected" (tag_attrs o) with
                     | Some _ => true
                     | None => false
                     end |}.

(** the body of [for option in tag.find_all('option')] *)
Definition option_step (st : scan_state) (o : option_info) : scan_state :=
  if PyStr.contains "javascript:" (PyStr.lower (opt_value o))
  then flag ("JavaScript in option value: " +:+ opt_value o) st
  else st.

Definition analyze_select_tag (t : tag) : input_info :=
  let options := map option_of (named "option" (tags_under t)) in
  let st := fold_left other_step (tag_attrs t)
              (fold_left option_step options initial) in
  {| in_tag := "select";
     in_type := None;
     in_name := tag_get t "name" EmptyString;
     in_id := tag_get t "id" EmptyString;
     in_value := None;
     in_options := Some options;
     in_attributes := st_attributes st;
     in_suspicious := st_suspicious st;
     in_xss_vector := st_xss_vector st;
     in_parent_form := in_form t |}.

Definition _analyze_inputs (soup : list node) : list input_info :=
  map analyze_input_tag (named "input" (all_tags soup))
  ++ map analyze_textarea_tag (named "textarea" (all_tags soup))
  ++ map analyze_select_tag (named "select" (all_tags soup)).


(** *** Links *)

(** an element of [results['links']]; [ln_has_parameters] and
    [ln_parameters] are keys that only some branches set *)
Record link_info : Type := mk_link_info {
  ln_href : string;
  ln_text : string;
  ln_suspicious : bool;
  ln_xss_vector : option string;
  ln_has_parameters : option bool;
  ln_parameters : option (list (string * string))
}.

Definition flag_link (vector : string) (l : link_info) : link_info :=
  mk_link_info (ln_href l) (ln_text l) true (Some vector)
               (ln_has_parameters l) (ln_parameters l).

Definition suspicious_parameter_markers : list string :=
  ["<script"; "javascript:"; "onerror="; "onload="].

(** [any(p in value.lower() for p in [...])] *)
Definition suspicious_parameter (value : string) : bool :=
  existsb (fun p => PyStr.contains p (PyStr.lower value))
          suspicious_parameter_markers.

(** the body of [for param, value in link_info['parameters'].items()] *)
Definition parameter_step (l : link_info) (kv : string * string) : link_info :=
  let '(param, value) := kv in
  if suspicious_parameter value
  then flag_link ("Suspicious parameter: " +:+ param +:+ "="
                  +:+ PyStr.take 100 value) l
  else l.

(** [{k: v[0] if v else '' for k, v in query_params.items()}] *)
Definition first_values (query_params : list (string * list string))
  : list (string * string) :=
  map (fun kv => (fst kv, match snd kv with
                          | v :: _ => v
                          | [] => EmptyString
                          end)) query_params.

(** the body of [for attr in tag.attrs] at the end of the link loop *)
Definition link_event_step (l : link_info) (a : string * attr_value) : link_info :=
  let '(attr, value) := a in
  if PyStr.mem (PyStr.lower attr) event_attributes
  then flag_link ("Event handler in link: " +:+ attr +:+ "=" +:+ format_value value) l
  else l.

Definition absolute_scheme (href : string) : bool :=
  existsb (fun p => PyStr.startswith p (PyStr.lower href))
          ["http:"; "https:"; "ftp:"].

Section Links.

(** [urllib.parse.parse_qs(urllib.parse.urlparse(href).query)]: the
    dict of the decoded parameters, each with the list of its values,
    or [None] when one of the two calls raises *)
Variable parse_query : string -> option (list (string * list string)).

(** the [if]/[elif]/[elif] chain on the href *)
Definition classify_href (l : link_info) : link_info :=
  let href := ln_href l in
  if PyStr.startswith "javascript:" (PyStr.lower href) then
    flag_link ("JavaScript URI: " +:+ PyStr.take 100 href) l
  else if PyStr.contains "?" href && negb (absolute_scheme href) then
    mk_link_info href (ln_text l) (ln_suspicious l) (ln_xss_vector l)
                 (Some true) (ln_parameters l)
  else if PyStr.contains "?" href then
    match parse_query href with
    | Some query_params =>
        let parameters := first_values query_params in
        fold_left parameter_step parameters
          (mk_link_info href (ln_text l) (ln_suspicious l) (ln_xss_vector l)
                        (Some true) (Some parameters))
    | None => l
    end
  else l.

Definition analyze_link_tag (t : tag) : link_info :=
  let link_info :=
    {| ln_href := tag_get t "href" EmptyString;
       ln_text := PyStr.take 50 (get_text_strip t);
       ln_suspicious := false;
       ln_xss_vector := None;
       ln_has_parameters := None;
       ln_parameters := None |} in
  fold_left link_event_step (tag_attrs t) (classify_href link_info).

(** [link_info['suspicious'] or ('has_parameters' in link_info and
    link_info['has_parameters'])] *)
Definition retained (l : link_info) : bool :=
  ln_suspicious l || get (ln_has_parameters l) false.

(** [soup.find_all('a', href=True)] *)
Definition anchors (soup : list node) : list tag :=
  filter (fun t => is_Some (lookup_attr "href" (tag_attrs t)))
         (named "a" (all_tags soup)).

Definition _analyze_links (soup : list node) : list link_info :=
  List.filter retained (map analyze_link_tag (anchors soup)).

End Links.

(** *** The other findings of [parse], as the detector reads them *)

(** an element of [results['event_handlers']] *)
Record event_handler : Type := mk_event_handler {
  eh_tag_name : string;
  eh_id : string;
  eh_class : string;
  eh_handlers : list (string * string);
  eh_content_preview : string
}.

(** the items that [' '.join] sees in a [str] *)
Fixpoint chars (s : string) : list string :=
  match s with
  | EmptyString => []
  | String c t => String c EmptyString :: chars t
  end.

(** [' '.join(tag.get('class', []))] *)
Definition class_text (t : tag) : string :=
  match lookup_attr "class" (tag_attrs t) with
  | Some (AttrList l) => PyStr.join " " l
  | Some (AttrStr s) => PyStr.join " " (chars s)
  | None => EmptyString
  end.

(** the body of [for attr in tag.attrs] in [_analyze_event_handlers] *)
Definition handler_step (handlers : list (string * string))
  (a : string * attr_value) : list (string * string) :=
  let '(attr, value) := a in
  if PyStr.mem (PyStr.lower attr) event_attributes
  then dict_set attr (as_str value) handlers
  else handlers.

(** one binding per tag that has an event attribute *)
Definition event_binding (t : tag) : option event_handler :=
  match fold_left handler_step (tag_attrs t) [] with
  | [] => None
  | handlers =>
      Some {| eh_tag_name := tag_name t;
              eh_id := tag_get t "id" EmptyString;
              eh_class := class_text t;
              eh_handlers := handlers;
              eh_content_preview := PyStr.take 50 (string_or_empty t) |}
  end.

Definition _analyze_event_handlers (soup : list node) : list event_handler :=
  omap event_binding (all_tags soup).

(** an element of [results['inline_scripts']] *)
Record inline_script : Type := mk_inline_script {
  is_id : string;
  is_content : string;
  is_attributes : attrs_t;
  is_suspicious : bool;
  is_suspicious_patterns : list string
}.

(** an element of [results['suspicious_patterns']] *)
Record pattern_match : Type := mk_pattern_match {
  pm_pattern : string;
  pm_match : string;
  pm_position : nat * nat;
  pm_context : string
}.

(** the dict returned by [parse] *)
Record html_analysis : Type := mk_html_analysis {
  inputs : list input_info;
  event_handlers : list event_handler;
  inline_scripts : list inline_script;
  suspicious_patterns : list pattern_match;
  links : list link_info;
  base_url : option string
}.

End HTMLParser.

(* ===================================================================== *)
(** ** modules/visual_analyzer.py *)
(* ===================================================================== *)

Module VisualAnalyzer.

(** an element of [results['input_fields']] *)
Record input_field : Type := mk_input_field {
  field_id : string;
  field_x : Z;
  field_y : Z;
  field_width : Z;
  field_height : Z;
  field_type : string
}.

Record visual_analysis : Type := mk_visual_analysis {
  input_fields : list input_field;
  image_dimensions : Z * Z
}.

Section Imaging.

(** a decoded image *)
Variable image : Type.

(** [os.path.exists] *)
Variable path_exists : string -> bool.

(** [cv2.imread]: the image, or [None] when the file cannot be read as
    one *)
Variable imread : string -> option image.

(** [image.shape[:2]] as (width, height) *)
Variable dimensions : image -> Z * Z.

(** [_detect_input_fields]: the contour heuristics of OpenCV; [None]
    stands for an exception raised inside it *)
Variable _detect_input_fields : image -> option (list input_field).

Definition analyze (screenshot_path : string) : option visual_analysis :=
  if negb (path_exists screenshot_path) then None
  else
    match imread screenshot_path with
    | None => None
    | Some img =>
        match _detect_input_fields img with
        | Some fields =>
            Some {| input_fields := fields; image_dimensions := dimensions img |}
        | None => None
        end
    end.

End Imaging.

End VisualAnalyzer.

(* ===================================================================== *)
(** ** modules/xss_detector.py *)
(* ===================================================================== *)

Module XSSDetector.
Import PyStr.
Import HTMLParser.
Import VisualAnalyzer.
Import ScriptAnalyzer.

(** the [evidence] dict of a [script_xss] record *)
Record script_evidence : Type := mk_script_evidence {
  ev_risk_level : string;
  ev_risk_score : Z;
  ev_dangerous_functions_count : nat;
  ev_user_input_handling_count : nat;
  ev_suspicious_segments_count : option nat;
  ev_obfuscated : option bool
}.

(** the keys that depend on the kind of finding *)
Inductive details : Type :=
| InputFinding (element_type element_id element_name : string)
    (evidence : input_info)
| VisualInputFinding (element_type element_id element_name : string)
    (visual_position : Z * Z * Z * Z) (html_evidence : input_info)
    (script_evidence : option input_handling)
| EventFinding (element_type element_id element_class : string)
    (handlers : list (string * string)) (evidence : event_handler)
| HighScriptFinding (script_id : string) (risk_score : Z)
    (key_issues : list string) (evidence : script_evidence)
| MediumScriptFinding (script_id : string) (risk_score : Z)
    (evidence : script_evidence)
| InlineScriptFinding (script_id : string) (patterns : list string)
    (evidence : inline_script)
| LinkFinding (link_url link_text : string) (evidence : link_info)
| PatternFinding (pattern match_ context : string) (evidence : pattern_match).

(** a vulnerability dict: the keys every finding has, and its details;
    [vulnerability] is the key of that name, [vtype] the key [type] *)
Record vulnerability_record : Type := mk_vulnerability {
  vtype : string;
  subtype : string;
  url : string;
  vulnerability : string;
  severity : string;
  screenshot : option string;
  description : string;
  recommendation : string;
  finding : details
}.

Definition Alto : string := "Alto".
Definition Medio : string := py "Médio".

(** *** Category 1: input fields *)

Definition html_only_input (url : string) (screenshot_path : option string)
  (input_elem : input_info) : vulnerability_record :=
  {| vtype := "input_xss";
     subtype := "suspicious_attribute";
     url := url;
     vulnerability := get (in_xss_vector input_elem) "Atributo suspeito";
     severity := Medio;
     screenshot := screenshot_path;
     description :=
       "Campo de entrada com potencial vulnerabilidade XSS: "
       +:+ get (in_xss_vector input_elem) "Atributo suspeito";
     recommendation :=
       py "Implementar validação de entrada e sanitização dos dados do usuário";
     finding := InputFinding (in_tag input_elem) (in_id input_elem)
                  (in_name input_elem) input_elem |}.

(** [_find_matching_html_elements] *)
Definition _find_matching_html_elements (visual_element : input_field)
  (html_elements : list input_info) : list input_info :=
  if String.eqb (field_type visual_element) "text_input" then
    List.filter
      (fun html_elem =>
         (String.eqb (in_tag html_elem) "input"
          && mem (get (in_type html_elem) "text")
               ["text"; "password"; "email"; "search"])
         || String.eqb (in_tag html_elem) "textarea")
      html_elements
  else html_elements.

(** the inner loop over [script_result['user_input_handling']]: the first
    handling that names the field and is a dangerous usage ends it *)
Fixpoint first_dangerous_usage (input_id input_name : string)
  (handlings : list input_handling) : option input_handling :=
  match handlings with
  | [] => None
  | input_handling :: rest =>
      let context := get (ih_context input_handling) EmptyString in
      if nonempty input_id && contains input_id context then
        if get (ih_dangerous_usage input_handling) false
        then Some input_handling
        else first_dangerous_usage input_id input_name rest
      else if nonempty input_name && contains input_name context then
        if get (ih_dangerous_usage input_handling) false
        then Some input_handling
        else first_dangerous_usage input_id input_name rest
      else first_dangerous_usage input_id input_name rest
  end.

(** the outer loop over the script results: [script_evidence] is the one
    found in the last script that has one; [dangerous_usage] is whether
    it is set *)
Definition dangerous_usage_of (input_id input_name : string)
  (script_results : list script_result) : option input_handling :=
  fold_left
    (fun script_evidence script_result =>
       match user_input_handling script_result with
       | Some handlings =>
           match first_dangerous_usage input_id input_name handlings with
           | Some e => Some e
           | None => script_evidence
           end
       | None => script_evidence
       end)
    script_results None.

Definition correlated_input (url : string) (screenshot_path : option string)
  (script_results : list script_result) (visual_input : input_field)
  (html_input : input_info) : list vulnerability_record :=
  let script_evidence :=
    dangerous_usage_of (in_id html_input) (in_name html_input) script_results in
  let dangerous_usage := bool_decide (is_Some script_evidence) in
  if in_suspicious html_input || dangerous_usage then
    [ {| vtype := "input_xss";
         subtype := if dangerous_usage then "input_with_dangerous_usage"
                    else "suspicious_input";
         url := url;
         vulnerability :=
           if in_suspicious html_input
           then get (in_xss_vector html_input) (py "Manipulação insegura de entrada")
           else "Uso perigoso em script";
         severity := if dangerous_usage then Alto else Medio;
         screenshot := screenshot_path;
         description :=
           "Campo de entrada com potencial vulnerabilidade XSS. "
           +:+ (if in_suspicious html_input
                then "Encontrado: " +:+ get (in_xss_vector html_input) EmptyString
                else py "Entrada usada em contexto perigoso sem sanitização adequada.");
         recommendation :=
           py "Implementar validação de entrada e sanitização dos dados do usuário. Utilizar funções seguras para manipulação do DOM.";
         finding :=
           VisualInputFinding (in_tag html_input) (in_id html_input)
             (in_name html_input)
             (field_x visual_input, field_y visual_input,
              field_width visual_input, field_height visual_input)
             html_input script_evidence |} ]
  else [].

Definition _find_input_vulnerabilities (url : string)
  (visual_analysis : option visual_analysis) (html_analysis : html_analysis)
  (script_analysis : results) (screenshot_path : option string)
  : list vulnerability_record :=
  match visual_analysis with
  | None =>
      map (html_only_input url screenshot_path)
          (List.filter in_suspicious (inputs html_analysis))
  | Some visual =>
      List.concat
        (map (fun visual_input =>
                List.concat
                  (map (correlated_input url screenshot_path
                          (script_analysis.(ScriptAnalyzer.script_analysis))
                          visual_input)
                       (_find_matching_html_elements visual_input
                          (inputs html_analysis))))
             (input_fields visual))
  end.

(** *** Category 2: event handlers *)

Definition high_risk_events : list string :=
  ["onclick"; "onkeypress"; "onkeyup"; "onkeydown"; "onchange"; "onsubmit";
   "onload"; "onerror"].

Definition dangers : list string :=
  ["eval("; "function("; "document.write"; "innerHTML"; "location"].

(** the two nested tests of the loop over [handler['handlers'].items()] *)
Definition critical (h : string * string) : bool :=
  let '(event, code) := h in
  mem (lower event) high_risk_events
  && existsb (fun danger => contains danger (lower code)) dangers.

(** [critical_reason] of the first critical handler, where the loop breaks *)
Definition critical_reason (handlers : list (string * string)) : option string :=
  match List.find critical handlers with
  | Some (event, code) =>
      Some ("Manipulador de evento " +:+ event +:+ py " contém código perigoso: "
            +:+ take 50 code +:+ "...")
  | None => None
  end.

Definition event_vulnerability (url : string) (screenshot_path : option string)
  (handler : event_handler) : vulnerability_record :=
  let reason := critical_reason (eh_handlers handler) in
  let critical_handlers := bool_decide (is_Some reason) in
  {| vtype := "event_handler_xss";
     subtype := if critical_handlers then "critical_handler"
                else "suspicious_handler";
     url := url;
     vulnerability := get reason "Manipulador de evento pode permitir XSS";
     severity := if critical_handlers then Alto else Medio;
     screenshot := screenshot_path;
     description :=
       get reason
         (py "Manipulador de evento que pode permitir a execução de código malicioso");
     recommendation :=
       py "Evitar código JavaScript inline em atributos de eventos. Implementar validação e sanitização.";
     finding := EventFinding (eh_tag_name handler) (eh_id handler)
                  (eh_class handler) (eh_handlers handler) handler |}.

Definition _find_event_vulnerabilities (url : string)
  (html_analysis : html_analysis) (script_analysis : results)
  (screenshot_path : option string) : list vulnerability_record :=
  map (event_vulnerability url screenshot_path) (event_handlers html_analysis).


(** *** Category 3: scripts *)

(** [for func in script.get('dangerous_functions', [])[:3]] *)
Definition function_issue (key_issues : list string) (func : dangerous_function)
  : result (list string) :=
  if String.eqb (df_risk func) "high" then
    let* context := getitem "context" (df_context func) in
    Ok (key_issues
        ++ [py "Função perigosa: " +:+ df_match func +:+ " em contexto: "
            +:+ context])
  else Ok key_issues.

(** [for input_handler in script.get('user_input_handling', [])[:3]] *)
Definition handling_issue (key_issues : list string)
  (input_handler : input_handling) : result (list string) :=
  if get (ih_dangerous_usage input_handler) false
     && negb (get (ih_sanitization_detected input_handler) false) then
    let* source := getitem "source" (ih_source input_handler) in
    Ok (key_issues ++ [py "Manipulação insegura de entrada: " +:+ source])
  else Ok key_issues.

(** [for segment in script.get('suspicious_code_segments', [])[:3]] *)
Definition segment_issue (key_issues : list string) (segment : code_segment)
  : result (list string) :=
  let* shown :=
    match seg_match segment with
    | Some m => Ok m
    | None => getitem "function" (seg_function segment)
    end in
  Ok (key_issues ++ [py "Código suspeito: " +:+ shown]).

Definition key_issues_of (script : script_result) : result (list string) :=
  let* k1 := for_each (List.firstn 3 (dangerous_functions script))
               function_issue [] in
  let* k2 := for_each (List.firstn 3 (get (user_input_handling script) []))
               handling_issue k1 in
  for_each (List.firstn 3 (get (suspicious_code_segments script) []))
    segment_issue k2.

Definition subtype_of (script : script_result) : string :=
  if obfuscation_detected script then "obfuscated_script"
  else if existsb
            (fun segment =>
               contains "user_input_with_dangerous_function"
                 (get (seg_type segment) EmptyString))
            (get (suspicious_code_segments script) [])
  then "unsafe_input_handling"
  else "high_risk_script".

Definition high_risk_script (url : string) (screenshot_path : option string)
  (script : script_result) : result vulnerability_record :=
  let* key_issues := key_issues_of script in
  let functions := List.length (dangerous_functions script) in
  let handlings := List.length (get (user_input_handling script) []) in
  let segments := List.length (get (suspicious_code_segments script) []) in
  Ok {| vtype := "script_xss";
        subtype := subtype_of script;
        url := url;
        vulnerability := py "Script contém código que pode permitir ataques XSS";
        severity := Alto;
        screenshot := screenshot_path;
        description :=
          py "Script de alto risco com pontuação "
          +:+ str_of_Z (risk_score script) +:+ "/100. "
          +:+ py "Contém " +:+ str_of_nat functions +:+ py " funções perigosas, "
          +:+ str_of_nat handlings
          +:+ py " manipulações de entrada de usuário, e "
          +:+ str_of_nat segments +:+ py " segmentos de código suspeitos.";
        recommendation :=
          py "Revisar o código JavaScript, implementar sanitização adequada para entradas de usuário, e evitar funções perigosas como eval(), document.write(), e atribuições diretas a innerHTML.";
        finding :=
          HighScriptFinding (id script) (risk_score script) key_issues
            {| ev_risk_level := risk_level script;
               ev_risk_score := risk_score script;
               ev_dangerous_functions_count := functions;
               ev_user_input_handling_count := handlings;
               ev_suspicious_segments_count := Some segments;
               ev_obfuscated := Some (obfuscation_detected script) |} |}.

Definition medium_risk_script (url : string) (screenshot_path : option string)
  (script : script_result) : vulnerability_record :=
  {| vtype := "script_xss";
     subtype := "medium_risk_script";
     url := url;
     vulnerability := py "Script contém código potencialmente inseguro";
     severity := Medio;
     screenshot := screenshot_path;
     description :=
       py "Script de médio risco com pontuação "
       +:+ str_of_Z (risk_score script)
       +:+ "/100 que pode conter vulnerabilidades.";
     recommendation :=
       py "Revisar o código JavaScript e implementar sanitização adequada para entradas de usuário.";
     finding :=
       MediumScriptFinding (id script) (risk_score script)
         {| ev_risk_level := risk_level script;
            ev_risk_score := risk_score script;
            ev_dangerous_functions_count := List.length (dangerous_functions script);
            ev_user_input_handling_count :=
              List.length (get (user_input_handling script) []);
            ev_suspicious_segments_count := None;
            ev_obfuscated := None |} |}.

(** the body of [for script in script_analysis['script_analysis']] *)
Definition script_step (url : string) (screenshot_path : option string)
  (vulnerabilities : list vulnerability_record) (script : script_result)
  : result (list vulnerability_record) :=
  if String.eqb (risk_level script) "high" then
    let* v := high_risk_script url screenshot_path script in
    Ok (vulnerabilities ++ [v])
  else if String.eqb (risk_level script) "medium" && (60 <=? risk_score script)%Z
  then Ok (vulnerabilities ++ [medium_risk_script url screenshot_path script])
  else Ok vulnerabilities.

Definition inline_script_vulnerability (url : string)
  (screenshot_path : option string) (script : inline_script)
  : vulnerability_record :=
  let patterns := is_suspicious_patterns script in
  {| vtype := "inline_script_xss";
     subtype := "suspicious_inline_script";
     url := url;
     vulnerability := py "Script inline contém padrões suspeitos";
     severity := Medio;
     screenshot := screenshot_path;
     description :=
       "Script inline com " +:+ str_of_nat (List.length patterns)
       +:+ py " padrões suspeitos que podem indicar vulnerabilidades XSS.";
     recommendation :=
       py "Revisar script inline. Considerar mover para arquivo externo e implementar validação adequada.";
     finding := InlineScriptFinding (is_id script) (List.firstn 5 patterns) script |}.

Definition _find_script_vulnerabilities (url : string)
  (html_analysis : html_analysis) (script_analysis : results)
  (screenshot_path : option string) : result (list vulnerability_record) :=
  let* from_scripts :=
    for_each (script_analysis.(ScriptAnalyzer.script_analysis))
      (script_step url screenshot_path) [] in
  Ok (from_scripts
      ++ map (inline_script_vulnerability url screenshot_path)
           (List.filter is_suspicious (inline_scripts html_analysis))).

(** *** Category 4: URLs *)

Definition link_vulnerability (url : string) (screenshot_path : option string)
  (link : link_info) : vulnerability_record :=
  {| vtype := "url_xss";
     subtype := "suspicious_link";
     url := url;
     vulnerability := get (ln_xss_vector link) "Link suspeito";
     severity := Medio;
     screenshot := screenshot_path;
     description :=
       py "Link contém potencial vetor de XSS: "
       +:+ get (ln_xss_vector link) "Link suspeito";
     recommendation := "Validar e sanitizar URLs antes de renderizar links.";
     finding := LinkFinding (ln_href link) (ln_text link) link |}.

Definition pattern_vulnerability (url : string) (screenshot_path : option string)
  (pattern : pattern_match) : vulnerability_record :=
  {| vtype := "pattern_xss";
     subtype := "suspicious_html_pattern";
     url := url;
     vulnerability := py "Padrão de código suspeito encontrado";
     severity := Medio;
     screenshot := screenshot_path;
     description :=
       py "Padrão de código suspeito que pode indicar vulnerabilidade XSS: "
       +:+ pm_match pattern;
     recommendation :=
       py "Revisar o código HTML e implementar sanitização adequada.";
     finding := PatternFinding (pm_pattern pattern) (pm_match pattern)
                  (pm_context pattern) pattern |}.

Definition _find_url_vulnerabilities (url : string)
  (html_analysis : html_analysis) (script_analysis : results)
  (screenshot_path : option string) : list vulnerability_record :=
  map (link_vulnerability url screenshot_path)
      (List.filter ln_suspicious (links html_analysis))
  ++ map (pattern_vulnerability url screenshot_path)
       (suspicious_patterns html_analysis).

(** *** The synthesizer and the facade *)

(** the findings a pass has produced when it ends: none if it raised *)
Definition produced {A : Type} (r : result (list A)) : list A :=
  match r with
  | Ok l => l
  | Raise _ => []
  end.

Definition _correlate_analyses (url : string)
  (visual_analysis : option visual_analysis) (html_analysis : html_analysis)
  (script_analysis : results) (screenshot_path : option string)
  : result (list vulnerability_record) :=
  let input_vulnerabilities :=
    _find_input_vulnerabilities url visual_analysis html_analysis
      script_analysis screenshot_path in
  let event_vulnerabilities :=
    _find_event_vulnerabilities url html_analysis script_analysis
      screenshot_path in
  let* script_vulnerabilities :=
    _find_script_vulnerabilities url html_analysis script_analysis
      screenshot_path in
  let url_vulnerabilities :=
    _find_url_vulnerabilities url html_analysis script_analysis
      screenshot_path in
  Ok (input_vulnerabilities ++ event_vulnerabilities
      ++ script_vulnerabilities ++ url_vulnerabilities).

(** what the crawler hands over for one page *)
Record page_data : Type := mk_page_data {
  page_url : string;
  page_html : string;
  page_scripts : list script;
  page_screenshot_path : option string
}.

Section Facade.

Variable image : Type.
Variable path_exists : string -> bool.
Variable imread : string -> option image.
Variable dimensions : image -> Z * Z.
Variable _detect_input_fields : image -> option (list input_field).

(** [HTMLParser.parse(html, url)]: BeautifulSoup's parse of the markup
    followed by the analyses of [HTMLParser]; it catches its own
    exceptions and always returns a findings dict *)
Variable parse : string -> string -> html_analysis.

(** step 1 of [analyze] *)
Definition visual_of (screenshot_path : option string)
  : option visual_analysis :=
  match screenshot_path with
  | Some path =>
      if nonempty path && path_exists path
      then VisualAnalyzer.analyze image path_exists imread dimensions
             _detect_input_fields path
      else None
  | None => None
  end.

Definition analyze (page : page_data) : list vulnerability_record :=
  let visual_analysis := visual_of (page_screenshot_path page) in
  let html_analysis := parse (page_html page) (page_url page) in
  let script_analysis := ScriptAnalyzer.analyze (page_scripts page) in
  produced
    (_correlate_analyses (page_url page) visual_analysis html_analysis
       script_analysis (page_screenshot_path page)).

End Facade.

(** *** The standalone report *)

(** [d[k] += 1], the key being created at 0 when it is new *)
Fixpoint count_up (k : string) (d : list (string * nat)) : list (string * nat) :=
  match d with
  | [] => [(k, 1)]
  | (k', n) :: rest =>
      if String.eqb k' k then (k', S n) :: rest else (k', n) :: count_up k rest
  end.

(** the trimmed copy of a finding *)
Record report_entry : Type := mk_report_entry {
  re_type : string;
  re_subtype : string;
  re_url : string;
  re_severity : string;
  re_description : string;
  re_recommendation : string
}.

Record report_data : Type := mk_report_data {
  timestamp : string;
  total_vulnerabilities : nat;
  vulnerabilities_by_type : list (string * nat);
  vulnerabilities_by_severity : list (string * nat);
  vulnerabilities : list report_entry
}.

Definition report_step (r : report_data) (vuln : vulnerability_record)
  : report_data :=
  {| timestamp := timestamp r;
     total_vulnerabilities := total_vulnerabilities r;
     vulnerabilities_by_type := count_up (vtype vuln) (vulnerabilities_by_type r);
     vulnerabilities_by_severity :=
       count_up (severity vuln) (vulnerabilities_by_severity r);
     vulnerabilities :=
       vulnerabilities r
       ++ [ {| re_type := vtype vuln;
               re_subtype := subtype vuln;
               re_url := url vuln;
               re_severity := severity vuln;
               re_description := description vuln;
               re_recommendation := recommendation vuln |} ] |}.

(** [os.path.dirname] *)
Fixpoint upto_last_slash (p : string) : string :=
  match p with
  | EmptyString => EmptyString
  | String c t =>
      if Ascii.eqb c "/" || contains "/" t
      then String c (upto_last_slash t)
      else EmptyString
  end.

Fixpoint rstrip_slashes (p : string) : string :=
  match p with
  | EmptyString => EmptyString
  | String c t =>
      match rstrip_slashes t with
      | EmptyString => if Ascii.eqb c "/" then EmptyString else String c EmptyString
      | r => String c r
      end
  end.

Definition dirname (p : string) : string :=
  let head := upto_last_slash p in
  match rstrip_slashes head with
  | EmptyString => head
  | stripped => stripped
  end.

Section Report.

(** the state of the file system, and the two operations on it that
    [generate_report] performs *)
Variable world : Type.
(** [os.makedirs(path, exist_ok=True)] *)
Variable makedirs : string -> world -> world.
(** [with open(path, 'w') as f: f.write(text)] *)
Variable write_file : string -> string -> world -> world.
(** [json.dumps(report_data, indent=2)] *)
Variable json_dumps : report_data -> string.

(** [now] is [datetime.now().strftime(...)] at the time of the call *)
Definition generate_report (now : string)
  (vulnerabilities : list vulnerability_record) (output_path : string)
  (w : world) : world * option string :=
  match vulnerabilities with
  | [] => (w, None)
  | _ :: _ =>
      let w1 :=
        makedirs (if nonempty (dirname output_path)
                  then dirname output_path else "reports") w in
      let report :=
        fold_left report_step vulnerabilities
          {| timestamp := now;
             total_vulnerabilities := List.length vulnerabilities;
             vulnerabilities_by_type := [];
             vulnerabilities_by_severity := [];
             vulnerabilities := [] |} in
      (write_file output_path (json_dumps report) w1, Some output_path)
  end.

End Report.

End XSSDetector.

(* ===================================================================== *)
(** ** utils/report_generator.py *)
(* ===================================================================== *)

Module ReportGenerator.
Import XSSDetector.

(** [(vuln.get('url', ''), vuln.get('type', ''), vuln.get('description', ''))] *)
Definition key (vuln : vulnerability_record) : string * string * string :=
  (url vuln, vtype vuln, description vuln).

(** the loop of [_deduplicate_vulnerabilities], from a given [seen] *)
Fixpoint dedup_loop (seen : gset (string * string * string))
  (vulnerabilities : list vulnerability_record) : list vulnerability_record :=
  match vulnerabilities with
  | [] => []
  | vuln :: rest =>
      if decide (key vuln ∈ seen)
      then dedup_loop seen rest
      else vuln :: dedup_loop ({[ key vuln ]} ∪ seen) rest
  end.

Definition _deduplicate_vulnerabilities
  (vulnerabilities : list vulnerability_record) : list vulnerability_record :=
  dedup_loop ∅ vulnerabilities.

End ReportGenerator.

(* ===================================================================== *)
(** ** The scoring rule of the design document

    Section 4.2, steps 4 and 5, written from the document's words, to be
    compared with [ScriptAnalyzer._analyze_script_simplified]. *)
(* ===================================================================== *)

Module ScoringRule.
Import Re ScriptAnalyzer.

(** a signature is matched when it occurs somewhere in the content *)
Definition matched (content : string) (p : pattern) : bool :=
  search (atoms p) content.

(** the number of distinct signatures of a set that are matched *)
Definition signatures_matched (set : list pattern) (content : string) : Z :=
  Z.of_nat (List.length (List.filter (matched content) set)).

Definition score (content : string) : Z :=
  let high := signatures_matched high_risk content in
  let medium :=
    if (high =? 0)%Z then signatures_matched medium_risk content else 0%Z in
  let bonus := if detect_obfuscation content then 20%Z else 0%Z in
  Z.min 100 (25 * high + 10 * medium + bonus).

(** the same sum before the clamp *)
Definition raw_score (content : string) : Z :=
  let high := signatures_matched high_risk content in
  let medium :=
    if (high =? 0)%Z then signatures_matched medium_risk content else 0%Z in
  (25 * high + 10 * medium + if detect_obfuscation content then 20 else 0)%Z.

Definition level (score : Z) : string :=
  if (70 <=? score)%Z then "high"
  else if (40 <=? score)%Z then "medium"
  else if (10 <=? score)%Z then "low"
  else "safe".

End ScoringRule.

(* ===================================================================== *)
(** ** Vocabulary of the properties *)
(* ===================================================================== *)

Module Vocabulary.
Import PyStr HTMLParser XSSDetector.

(** an attribute whose name, compared without regard to case, is an
    event attribute *)
Definition event_named (a : string * attr_value) : bool :=
  mem (lower (fst a)) event_attributes.

(** an attribute name as the parser delivers it: in lower case *)
Definition lowercase_name (a : string * attr_value) : Prop :=
  lower (fst a) = fst a.

(** an attribute that makes an [input] suspicious, and the vector
    recorded for it: the [javascript:] test comes last in the loop body *)
Definition offends_input (a : string * attr_value) : bool :=
  event_named a || javascript_value (snd a).

Definition input_vector (a : string * attr_value) : string :=
  if javascript_value (snd a)
  then "JavaScript in attribute: " +:+ fst a +:+ "=" +:+ format_value (snd a)
  else "Event handler: " +:+ fst a +:+ "=" +:+ format_value (snd a).

Definition event_vector (a : string * attr_value) : string :=
  "Event handler: " +:+ fst a +:+ "=" +:+ format_value (snd a).

(** an option of a [select] that makes it suspicious, and its vector *)
Definition offends_option (o : option_info) : bool :=
  contains "javascript:" (lower (opt_value o)).

Definition option_vector (o : option_info) : string :=
  "JavaScript in option value: " +:+ opt_value o.

(** a page analysis without suspicious inputs, event handlers, suspicious
    inline scripts, raw matches or suspicious links *)
Definition quiet (h : html_analysis) : Prop :=
  Forall (fun i => in_suspicious i = false) (inputs h)
  /\ event_handlers h = []
  /\ Forall (fun s => is_suspicious s = false) (inline_scripts h)
  /\ suspicious_patterns h = []
  /\ Forall (fun l => ln_suspicious l = false) (links h).

(** a verdict that the script pass does not report and that names no
    input field *)
Definition unflagged (r : ScriptAnalyzer.script_result) : Prop :=
  ScriptAnalyzer.risk_level r <> "high"
  /\ (ScriptAnalyzer.risk_level r = "medium"
      -> (ScriptAnalyzer.risk_score r < 60)%Z)
  /\ ScriptAnalyzer.user_input_handling r = None.

(** a decoded parameter whose value holds one of the four markers *)
Definition offends_parameter (kv : string * string) : bool :=
  suspicious_parameter (snd kv).

(** a record graded on the part of the severity scale that is in use *)
Definition graded (v : vulnerability_record) : Prop :=
  (severity v = Alto \/ severity v = Medio)
  /\ severity v <> "Baixo" /\ severity v <> "Informativo".

(** the markers of [dangers] that are written in lower case *)
Definition effective_dangers : list string :=
  ["eval("; "function("; "document.write"; "location"].

End Vocabulary.

(* ===================================================================== *)
(** ** More of Python's [str] *)
(* ===================================================================== *)

Module PySlice.

(** [len(s)] *)
Definition len (s : string) : Z := Z.of_nat (String.length s).

Fixpoint drop (n : nat) (s : string) : string :=
  match n, s with
  | S k, String _ t => drop k t
  | _, _ => s
  end.

(** an index of a slice brought into [0, len]: a negative one counts from
    the end *)
Definition clamp (i n : Z) : Z :=
  if (i <? 0)%Z then Z.max 0 (i + n) else Z.min i n.

(** [s[a:b]] *)
Definition slice (a b : Z) (s : string) : string :=
  let lo := clamp a (len s) in
  let hi := clamp b (len s) in
  PyStr.take (Z.to_nat (hi - lo)) (drop (Z.to_nat lo) s).

(** [s.replace(c, by)] for a one-character [c] *)
Fixpoint replace_char (c : ascii) (by_ : string) (s : string) : string :=
  match s with
  | EmptyString => EmptyString
  | String a t =>
      if Ascii.eqb a c then by_ +:+ replace_char c by_ t
      else String a (replace_char c by_ t)
  end.

End PySlice.

(* ===================================================================== *)
(** ** modules/html_parser.py: raw matches, inline scripts, forms *)
(* ===================================================================== *)

Module MarkupScan.
Import PyStr PySlice HTMLParser.

(** [_get_context(text, position, context_size)] *)
Definition _get_context (text : string) (position context_size : Z) : string :=
  let start := Z.max 0 (position - context_size) in
  let end_ := Z.min (len text) (position + context_size) in
  let prefix := if (0 <? start)%Z then "..." else EmptyString in
  let suffix := if (end_ <? len text)%Z then "..." else EmptyString in
  prefix +:+ slice start position text +:+ "<HERE>"
  +:+ slice position end_ text +:+ suffix.

(** [self.xss_patterns] *)
Definition xss_patterns : list string := [
  "<script[^>]*>.*?</script>";
  "javascript:.*?[\'" +:+ Re.dq +:+ "\s>]";
  "on\w+\s*=\s*([" +:+ Re.dq +:+ "\']).*?\1";
  "data:.*?base64";
  "src\s*=\s*([" +:+ Re.dq +:+ "\'])[^" +:+ Re.dq +:+ "\']*?javascript:.*?\1";
  "href\s*=\s*([" +:+ Re.dq +:+ "\'])[^" +:+ Re.dq +:+ "\']*?javascript:.*?\1";
  "style\s*=\s*([" +:+ Re.dq +:+ "\'])[^" +:+ Re.dq
    +:+ "\']*?expression\s*\(.*?\1";
  "<\w+[^>]*\sformaction\s*=";
  "<meta[^>]*\scontent\s*=\s*([" +:+ Re.dq +:+ "\'])[^" +:+ Re.dq
    +:+ "\']*?url\s*=\s*javascript:.*?\1"
].

(** [match.group(0)[:100] + ('...' if len(match.group(0)) > 100 else '')] *)
Definition excerpt (group : string) : string :=
  take 100 group +:+ (if (100 <? len group)%Z then "..." else EmptyString).

Section RawMatches.

(** [re.finditer(pattern, html, re.IGNORECASE | re.DOTALL)]: for each
    match its text and its span *)
Variable finditer : string -> string -> list (string * (nat * nat)).

Definition matches_of (html pattern : string) : list pattern_match :=
  map (fun m =>
         {| pm_pattern := pattern;
            pm_match := excerpt (fst m);
            pm_position := snd m;
            pm_context := _get_context html (Z.of_nat (fst (snd m))) 30 |})
      (finditer pattern html).

Definition _find_suspicious_patterns (html : string) : list pattern_match :=
  List.concat (map (matches_of html) xss_patterns).

End RawMatches.

(** *** Inline scripts *)

(** the letters that [re.IGNORECASE] takes for [c] *)
Definition same_letter (c a : ascii) : bool :=
  Ascii.eqb (lower_char a) (lower_char c).

(** a pattern of the fragment under [re.IGNORECASE]: the literals match
    in either case (the classes in use hold no letter) *)
Definition ignorecase (pat : list Re.atom) : list Re.atom :=
  map (fun a => match a with
                | Re.Lit c => Re.Class (same_letter c)
                | other => other
                end) pat.

(** [js_danger_patterns]: the pattern text, its atoms before the flag,
    and the description *)
Definition js_danger_patterns : list (Re.pattern * string) :=
  let sp := Re.Star Re.space in
  [ (Re.mk_pattern "document\.write\s*\(" (Re.lit "document.write" ++ [sp; Re.Lit "("]),
     "document.write()");
    (Re.mk_pattern "eval\s*\(" (Re.lit "eval" ++ [sp; Re.Lit "("]), "eval()");
    (Re.mk_pattern "setTimeout\s*\(" (Re.lit "setTimeout" ++ [sp; Re.Lit "("]),
     "setTimeout()");
    (Re.mk_pattern "setInterval\s*\(" (Re.lit "setInterval" ++ [sp; Re.Lit "("]),
     "setInterval()");
    (Re.mk_pattern "new\s+Function\s*\("
       (Re.lit "new" ++ [Re.Class Re.space; sp] ++ Re.lit "Function"
        ++ [sp; Re.Lit "("]),
     "new Function()");
    (Re.mk_pattern "innerHTML\s*=" (Re.lit "innerHTML" ++ [sp; Re.Lit "="]),
     "innerHTML assignment");
    (Re.mk_pattern "outerHTML\s*=" (Re.lit "outerHTML" ++ [sp; Re.Lit "="]),
     "outerHTML assignment");
    (Re.mk_pattern "document\.cookie" (Re.lit "document.cookie"),
     "Cookie access/manipulation");
    (Re.mk_pattern "document\.domain\s*=" (Re.lit "document.domain" ++ [sp; Re.Lit "="]),
     "document.domain assignment");
    (Re.mk_pattern "document\.location\s*="
       (Re.lit "document.location" ++ [sp; Re.Lit "="]),
     "document.location assignment");
    (Re.mk_pattern "window\.location\s*="
       (Re.lit "window.location" ++ [sp; Re.Lit "="]),
     "window.location assignment");
    (Re.mk_pattern "location\.href\s*=" (Re.lit "location.href" ++ [sp; Re.Lit "="]),
     "location.href assignment");
    (Re.mk_pattern "location\.replace\s*\("
       (Re.lit "location.replace" ++ [sp; Re.Lit "("]),
     "location.replace()");
    (Re.mk_pattern "parent\." (Re.lit "parent."), "Parent frame access");
    (Re.mk_pattern "top\." (Re.lit "top."), "Top frame access");
    (Re.mk_pattern "fromCharCode" (Re.lit "fromCharCode"),
     "String.fromCharCode (possible obfuscation)");
    (Re.mk_pattern "decodeURI\(" (Re.lit "decodeURI("),
     "decodeURI (possible obfuscation)");
    (Re.mk_pattern "atob\(" (Re.lit "atob("), "atob (possible obfuscation)");
    (Re.mk_pattern "execScript\(" (Re.lit "execScript("),
     "execScript (possible dangerous execution)") ].

(** the findings of one pattern: one per match *)
Definition js_findings (js_content : string) (p : Re.pattern * string)
  : list string :=
  map (fun m => "Suspicious JS pattern (" +:+ snd p +:+ "): " +:+ m)
      (Re.finditer (ignorecase (Re.atoms (fst p))) js_content).

Definition _find_suspicious_js_patterns (js_content : string) : list string :=
  List.concat (map (js_findings js_content) js_danger_patterns).

(** the body of [for attr, value in tag.attrs.items()] on a script tag
    (the tag has no [src] here, so the outer test always holds) *)
Definition script_attr_step (s : inline_script) (a : string * attr_value)
  : inline_script :=
  let '(attr, value) := a in
  if String.eqb attr "src" then s
  else
    let kept := dict_set attr value (is_attributes s) in
    if mem attr event_attributes
    then mk_inline_script (is_id s) (is_content s) kept true
           (is_suspicious_patterns s
            ++ ["Event handler in script tag: " +:+ attr +:+ "="
                +:+ format_value value])
    else mk_inline_script (is_id s) (is_content s) kept (is_suspicious s)
           (is_suspicious_patterns s).

Definition has_attr (key : string) (t : tag) : bool :=
  match lookup_attr key (tag_attrs t) with
  | Some _ => true
  | None => false
  end.

Definition analyze_script_tag (i : nat) (t : tag) : inline_script :=
  let script_content := string_or_empty t in
  let s := fold_left script_attr_step (tag_attrs t)
             (mk_inline_script ("inline_script_" +:+ str_of_nat i)
                script_content [] false []) in
  match _find_suspicious_js_patterns script_content with
  | [] => s
  | suspicious_patterns =>
      mk_inline_script (is_id s) (is_content s) (is_attributes s) true
        (is_suspicious_patterns s ++ suspicious_patterns)
  end.

(** the loop over [enumerate(soup.find_all('script'))]: a tag with a
    [src] is passed over, its index is used up *)
Fixpoint scripts_from (i : nat) (tags : list tag) : list inline_script :=
  match tags with
  | [] => []
  | t :: rest =>
      if has_attr "src" t then scripts_from (S i) rest
      else analyze_script_tag i t :: scripts_from (S i) rest
  end.

Definition _analyze_inline_scripts (soup : list node) : list inline_script :=
  scripts_from 0 (named "script" (all_tags soup)).

(** the flag of an inline script is set exactly when a pattern is
    listed *)
Definition flag_agrees (s : inline_script) : Prop :=
  is_suspicious s = true <-> is_suspicious_patterns s <> [].

(** an attribute as [_analyze_event_handlers] records it in
    [handlers]: [handlers[attr] = tag[attr]] *)
Definition handler_of (a : string * attr_value) : string * string :=
  (fst a, as_str (snd a)).

(** the flag and the vector of a scan go together *)
Definition agrees (st : scan_state) : Prop :=
  st_suspicious st = true <-> is_Some (st_xss_vector st).

Definition link_agrees (l : link_info) : Prop :=
  ln_suspicious l = true <-> is_Some (ln_xss_vector l).

(** an attribute that has no key of its own in the record *)
Definition other_than (own : list string) (a : string * attr_value) : bool :=
  negb (mem (fst a) own).

(** *** Forms *)

(** an element of [form_info['inputs']] or [form_info['submit_buttons']] *)
Record control : Type := mk_control {
  ct_type : string;
  ct_name : string;
  ct_id : string;
  ct_value : string
}.

Record form_info : Type := mk_form_info {
  fm_action : string;
  fm_method : string;
  fm_id : string;
  fm_name : string;
  fm_attributes : attrs_t;
  fm_inputs : list control;
  fm_submit_buttons : list control;
  fm_suspicious : bool;
  fm_xss_vector : option string
}.

(** [tag.find_all(['input', 'textarea', 'select'])] *)
Definition controls_under (t : tag) : list tag :=
  List.filter (fun c => mem (tag_name c) ["input"; "textarea"; "select"])
              (tags_under t).

Definition input_type (c : tag) : string :=
  if mem (tag_name c) ["textarea"; "select"] then tag_name c
  else tag_get c "type" "text".

Definition is_submit (c : tag) : bool :=
  String.eqb (tag_name c) "input"
  && mem (input_type c) ["submit"; "image"; "button"].

Definition submit_of (c : tag) : control :=
  {| ct_type := input_type c;
     ct_value := tag_get c "value" EmptyString;
     ct_name := tag_get c "name" EmptyString;
     ct_id := tag_get c "id" EmptyString |}.

Definition field_of (c : tag) : control :=
  {| ct_type := input_type c;
     ct_name := tag_get c "name" EmptyString;
     ct_id := tag_get c "id" EmptyString;
     ct_value := if String.eqb (tag_name c) "textarea"
                 then string_or_empty c
                 else tag_get c "value" EmptyString |}.

Definition button_of (b : tag) : control :=
  {| ct_type := tag_get b "type" "submit";
     ct_value := string_or_empty b;
     ct_name := tag_get b "name" EmptyString;
     ct_id := tag_get b "id" EmptyString |}.

(** the body of [for input_tag in tag.find_all([...])]: the state is the
    pair of [form_info['inputs']] and [form_info['submit_buttons']] *)
Definition control_step (st : list control * list control) (c : tag)
  : list control * list control :=
  if is_submit c then (fst st, snd st ++ [submit_of c])
  else (fst st ++ [field_of c], snd st).

(** the body of [for button_tag in tag.find_all('button')] *)
Definition button_step (st : list control * list control) (b : tag)
  : list control * list control :=
  (fst st, snd st ++ [button_of b]).

(** the body of [for attr, value in tag.attrs.items()] on a form: the
    state is that of the input loops *)
Definition form_step (st : scan_state) (a : string * attr_value) : scan_state :=
  let '(attr, value) := a in
  check_event attr value
    (keep_attribute ["action"; "method"; "id"; "name"] attr value st).

Section Forms.

(** [str.upper] *)
Variable upper : string -> string.

Definition analyze_form_tag (t : tag) : form_info :=
  let action_attr := tag_get t "action" EmptyString in
  let action := lower action_attr in
  let st0 :=
    if contains "javascript:" action
    then flag ("JavaScript in action: " +:+ action) initial
    else initial in
  let controls :=
    fold_left button_step (named "button" (tags_under t))
      (fold_left control_step (controls_under t) ([], [])) in
  let st := fold_left form_step (tag_attrs t) st0 in
  {| fm_action := action_attr;
     fm_method := upper (tag_get t "method" "get");
     fm_id := tag_get t "id" EmptyString;
     fm_name := tag_get t "name" EmptyString;
     fm_attributes := st_attributes st;
     fm_inputs := fst controls;
     fm_submit_buttons := snd controls;
     fm_suspicious := st_suspicious st;
     fm_xss_vector := st_xss_vector st |}.

Definition _analyze_forms (soup : list node) : list form_info :=
  map analyze_form_tag (named "form" (all_tags soup)).

End Forms.

End MarkupScan.

(* ===================================================================== *)
(** ** Reading a dict of counters *)
(* ===================================================================== *)

Module Counters.

(** [d.get(k, 0)] on a dict of counters *)
Fixpoint count_of (k : string) (d : list (string * nat)) : nat :=
  match d with
  | [] => 0
  | (k', n) :: rest => if String.eqb k' k then n else count_of k rest
  end.


(** the number of the items of a list that have the key [k] *)
Definition occurrences {A : Type} (key : A -> string) (k : string) (l : list A)
  : nat :=
  List.length (List.filter (fun a => String.eqb (key a) k) l).

End Counters.

Module Described.
Import XSSDetector.

(** a record with a description and a recommendation *)
Definition described (v : vulnerability_record) : Prop :=
  PyStr.nonempty (description v) = true
  /\ PyStr.nonempty (recommendation v) = true.

End Described.

(* ===================================================================== *)
(** ** utils/report_generator.py: the data of the HTML report *)
(* ===================================================================== *)

Module ReportPreparation.
Import PyStr XSSDetector.

(** the [clean_vuln] dict *)
Record clean_vuln : Type := mk_clean_vuln {
  cv_id : string;
  cv_type : string;
  cv_subtype : string;
  cv_url : string;
  cv_severity : string;
  cv_description : string;
  cv_recommendation : string;
  cv_screenshot : option string
}.

(** the [report_data] dict; [urls_analyzed] is a set while the loop runs,
    and the list made of it at the end has the elements of the set in an
    order that the language leaves open *)
Record report_data : Type := mk_report_data {
  rd_timestamp : string;
  rd_total_vulnerabilities : nat;
  rd_urls_analyzed : gset string;
  rd_vulnerabilities_by_type : list (string * nat);
  rd_vulnerabilities_by_severity : list (string * nat);
  rd_vulnerabilities_by_url : list (string * list vulnerability_record);
  rd_vulnerabilities : list clean_vuln
}.

(** [if url not in d: d[url] = []] and then [d[url].append(vuln)] *)
Fixpoint group_append (k : string) (vuln : vulnerability_record)
  (d : list (string * list vulnerability_record))
  : list (string * list vulnerability_record) :=
  match d with
  | [] => [(k, [vuln])]
  | (k', l) :: rest =>
      if String.eqb k' k then (k', l ++ [vuln]) :: rest
      else (k', l) :: group_append k vuln rest
  end.

(** [enumerate(l)] *)
Definition enumerate {A : Type} (l : list A) : list (nat * A) :=
  combine (seq 0 (List.length l)) l.

(** the body of the loop; a finding of the detector has every key, so
    the defaults of [vuln.get] are not used *)
Definition prepare_step (r : report_data) (iv : nat * vulnerability_record)
  : report_data :=
  let '(index, vuln) := iv in
  let vuln_id := "vuln_" +:+ str_of_nat (index + 1) in
  let vuln_type := vtype vuln in
  let severity := severity vuln in
  let url := url vuln in
  {| rd_timestamp := rd_timestamp r;
     rd_total_vulnerabilities := rd_total_vulnerabilities r;
     rd_urls_analyzed := {[ url ]} ∪ rd_urls_analyzed r;
     rd_vulnerabilities_by_type :=
       count_up vuln_type (rd_vulnerabilities_by_type r);
     rd_vulnerabilities_by_severity :=
       count_up severity (rd_vulnerabilities_by_severity r);
     rd_vulnerabilities_by_url :=
       group_append url vuln (rd_vulnerabilities_by_url r);
     rd_vulnerabilities :=
       rd_vulnerabilities r
       ++ [ {| cv_id := vuln_id;
               cv_type := vuln_type;
               cv_subtype := subtype vuln;
               cv_url := url;
               cv_severity := severity;
               cv_description := description vuln;
               cv_recommendation := recommendation vuln;
               cv_screenshot := screenshot vuln |} ] |}.

(** [now] is [datetime.now().strftime(...)] at the time of the call *)
Definition _prepare_report_data (now : string)
  (vulnerabilities : list vulnerability_record) : report_data :=
  fold_left prepare_step (enumerate vulnerabilities)
    {| rd_timestamp := now;
       rd_total_vulnerabilities := List.length vulnerabilities;
       rd_urls_analyzed := ∅;
       rd_vulnerabilities_by_type := [];
       rd_vulnerabilities_by_severity := [];
       rd_vulnerabilities_by_url := [];
       rd_vulnerabilities := [] |}.

(** [d.get(k, [])] on the dict of groups *)
Fixpoint group_of (k : string) (d : list (string * list vulnerability_record))
  : list vulnerability_record :=
  match d with
  | [] => []
  | (k', l) :: rest => if String.eqb k' k then l else group_of k rest
  end.

(** the clean copy of a finding, apart from its identifier *)
Definition copied (c : clean_vuln) (vuln : vulnerability_record) : Prop :=
  cv_type c = vtype vuln /\ cv_subtype c = subtype vuln
  /\ cv_url c = url vuln /\ cv_severity c = severity vuln
  /\ cv_description c = description vuln
  /\ cv_recommendation c = recommendation vuln
  /\ cv_screenshot c = screenshot vuln.

End ReportPreparation.

(* ===================================================================== *)
(** ** utils/report_templates.py: escaping *)
(* ===================================================================== *)

Module ReportTemplates.
Import PyStr PySlice.

(** the double quote and the single quote *)
Definition quot : ascii := ascii_of_N 34.
Definition apos : ascii := ascii_of_N 39.

(** [_sanitize_html] *)
Definition _sanitize_html (text : string) : string :=
  if negb (nonempty text) then EmptyString
  else
    let text :=
      if (5000 <? len text)%Z
      then take (Z.to_nat 5000) text +:+ "... (texto truncado)"
      else text in
    let text := replace_char "&" "&amp;" text in
    let text := replace_char "<" "&lt;" text in
    let text := replace_char ">" "&gt;" text in
    let text := replace_char quot "&quot;" text in
    let text := replace_char apos "&#39;" text in
    text.

(** *** Escaping in one pass, to compare with *)

(** the text that stands for one character *)
Definition escape_char (c : ascii) : string :=
  if Ascii.eqb c "&" then "&amp;"
  else if Ascii.eqb c "<" then "&lt;"
  else if Ascii.eqb c ">" then "&gt;"
  else if Ascii.eqb c quot then "&quot;"
  else if Ascii.eqb c apos then "&#39;"
  else String c EmptyString.

Fixpoint escape (s : string) : string :=
  match s with
  | EmptyString => EmptyString
  | String c t => escape_char c +:+ escape t
  end.

(** the text cut at 5000 characters, with the note that it was cut *)
Definition limited (text : string) : string :=
  if (5000 <? len text)%Z
  then take (Z.to_nat 5000) text +:+ "... (texto truncado)"
  else text.

(** the characters that end or open markup *)
Definition markup_chars : list ascii := ["<"%char; ">"%char; quot; apos].

End ReportTemplates.

(* ===================================================================== *)
(** ** modules/web_crawler.py

    The browser behind the Selenium driver is a parameter: its state is a
    [world], and what [_get_page_data] reads of a page is given by [load].
    An exception that leaves a function is a value [Raised]; the ones
    that can leave the crawl are those of [urlparse] and of the start and
    the end of the driver. *)
(* ===================================================================== *)

Module WebCrawler.
Import PyStr ScriptAnalyzer.

Inductive error : Type :=
| ValueError
| WebDriverException.

Inductive try (A : Type) : Type :=
| Fine (a : A)
| Raised (e : error).

Arguments Fine {A} a.
Arguments Raised {A} e.

(** the sum of the powers of ten below [10 ^ depth] *)
Fixpoint page_bound (depth : nat) : nat :=
  match depth with
  | 0 => 0
  | S d => 1 + 10 * page_bound d
  end.

Section Crawl.

Variable world : Type.
(** a float, as [time.time()] returns it *)
Variable time : Type.

(** the dict that [_get_page_data] returns *)
Record page_data : Type := mk_page_data {
  pd_url : string;
  pd_html : string;
  pd_scripts : list script;
  pd_links : list string;
  pd_screenshot_path : option string;
  pd_timestamp : time
}.

(** the body of the [try] of [_get_page_data]: the page is opened, the
    screenshot saved, and source, scripts, links and time are read;
    [None] when one of these raised.  Before the [try] a missing driver
    is started; inside a crawl this start does not raise, since
    [crawl] has started the driver, or has left [use_firefox] set, with
    which [_init_driver] catches what the start raises *)
Variable load :
  string -> world ->
  world * option (string * list script * list string * option string * time).
(** [urlparse(u).netloc] *)
Variable netloc : string -> try string.
Variable _init_driver : world -> world * try unit.
Variable _close_driver : world -> world * try unit.

Definition _get_page_data (url : string) (w : world)
  : world * option page_data :=
  match load url w with
  | (w', Some (html, scripts, links, screenshot_path, timestamp)) =>
      (w', Some {| pd_url := url;
                   pd_html := html;
                   pd_scripts := scripts;
                   pd_links := links;
                   pd_screenshot_path := screenshot_path;
                   pd_timestamp := timestamp |})
  | (w', None) => (w', None)
  end.

(** the crawler object, with the list [pages_data] that the recursion
    fills *)
Record state : Type := mk_state {
  visited_urls : gset string;
  pages_data : list page_data;
  driver : world
}.

(** the loop that keeps the links of the same domain that are not yet
    visited *)
Fixpoint same_domain (base_domain : string) (visited : gset string)
  (links : list string) : try (list string) :=
  match links with
  | [] => Fine []
  | link :: rest =>
      match netloc link with
      | Raised e => Raised e
      | Fine domain =>
          match same_domain base_domain visited rest with
          | Raised e => Raised e
          | Fine same_domain_links =>
              Fine (if String.eqb domain base_domain
                       && bool_decide (link ∉ visited)
                    then link :: same_domain_links
                    else same_domain_links)
          end
      end
  end.

(** what a crawl adds to a state: the pages [new], at most [bound] of
    them, of URLs that were not visited before and are visited
    afterwards, no URL twice, all of one domain *)
Definition extends_by (new : list page_data) (bound : nat)
  (domain : try string) (s s' : state) : Prop :=
  visited_urls s ⊆ visited_urls s'
  /\ pages_data s' = pages_data s ++ new
  /\ List.length new <= bound
  /\ NoDup (map pd_url new)
  /\ forall p, p ∈ new ->
               (pd_url p ∉ visited_urls s)
               /\ (pd_url p ∈ visited_urls s')
               /\ netloc (pd_url p) = domain.

(** [for link in same_domain_links: self._crawl_recursive(link, ...)] *)
Fixpoint visit_each (visit : string -> state -> state * try unit)
  (links : list string) (s : state) : state * try unit :=
  match links with
  | [] => (s, Fine tt)
  | link :: rest =>
      match visit link s with
      | (s', Fine _) => visit_each visit rest s'
      | (s', Raised e) => (s', Raised e)
      end
  end.

(** [_crawl_recursive], by the number of levels that are left: [depth]
    when it is positive, and none otherwise *)
Fixpoint crawl_levels (levels : nat) (url : string) (s : state)
  : state * try unit :=
  match levels with
  | 0 => (s, Fine tt)
  | S below =>
      if bool_decide (url ∈ visited_urls s) then (s, Fine tt)
      else
        let visited := {[ url ]} ∪ visited_urls s in
        match _get_page_data url (driver s) with
        | (w, None) =>
            ({| visited_urls := visited;
                pages_data := pages_data s;
                driver := w |}, Fine tt)
        | (w, Some page) =>
            let s1 := {| visited_urls := visited;
                         pages_data := pages_data s ++ [page];
                         driver := w |} in
            match netloc url with
            | Raised e => (s1, Raised e)
            | Fine base_domain =>
                match same_domain base_domain visited (pd_links page) with
                | Raised e => (s1, Raised e)
                | Fine same_domain_links =>
                    visit_each (crawl_levels below)
                      (firstn 10 same_domain_links) s1
                end
            end
        end
  end.

Definition _crawl_recursive (url : string) (depth : Z) (s : state)
  : state * try unit :=
  crawl_levels (Z.to_nat depth) url s.

(** [crawl], from the visited URLs and the browser that the object
    has; it returns what the object has afterwards, and the pages *)
Definition crawl (start_url : string) (depth : Z)
  (visited : gset string) (w : world)
  : (gset string * world) * try (list page_data) :=
  match _init_driver w with
  | (w0, Raised e) => ((visited, w0), Raised e)
  | (w0, Fine _) =>
      let '(s, r) :=
        _crawl_recursive start_url depth
          {| visited_urls := ∅; pages_data := []; driver := w0 |} in
      (* [finally]: an exception of [_close_driver] replaces the
         outcome of the [try] *)
      match _close_driver (driver s) with
      | (w1, Raised e) => ((visited_urls s, w1), Raised e)
      | (w1, Fine _) =>
          ((visited_urls s, w1),
           match r with
           | Fine _ => Fine (pages_data s)
           | Raised e => Raised e
           end)
      end
  end.

End Crawl.

Arguments extends_by {world time} netloc new bound domain s s'.
Arguments pd_url {time} _.
Arguments pd_links {time} _.
Arguments pd_scripts {time} _.
Arguments pd_html {time} _.
Arguments pd_screenshot_path {time} _.
Arguments visited_urls {world time} _.
Arguments pages_data {world time} _.
Arguments driver {world time} _.

End WebCrawler.

(* ===================================================================== *)
(** ** index.py and [ReportGenerator.generate]: the way of the findings

    Of [main] the loop that collects the findings of the pages, and of
    [generate] the two steps that make the data of the report of a list
    of findings that is not empty. *)
(* ===================================================================== *)

Module Index.
Import XSSDetector ReportGenerator ReportPreparation.

(** the dict of the crawler, as the detector reads it *)
Definition page_of {time : Type} (page_data : WebCrawler.page_data time)
  : XSSDetector.page_data :=
  {| page_url := WebCrawler.pd_url page_data;
     page_html := WebCrawler.pd_html page_data;
     page_scripts := WebCrawler.pd_scripts page_data;
     page_screenshot_path := WebCrawler.pd_screenshot_path page_data |}.

Section Main.

Variable page : Type.
(** [detector.analyze] *)
Variable analyze : page -> list vulnerability_record.

(** [for page_data in pages_data: ...] of [main] *)
Definition results_of (pages_data : list page) : list vulnerability_record :=
  fold_left
    (fun results page_data =>
       let vulnerabilities := analyze page_data in
       match vulnerabilities with
       | [] => results
       | _ :: _ => results ++ vulnerabilities
       end)
    pages_data [].

End Main.

(** [unique_vulns] and [report_data] of [generate] *)
Definition report_data_of (now : string)
  (vulnerabilities : list vulnerability_record) : report_data :=
  let unique_vulns := _deduplicate_vulnerabilities vulnerabilities in
  _prepare_report_data now unique_vulns.

(** the key of deduplication, read from a clean copy *)
Definition clean_key (c : clean_vuln) : string * string * string :=
  (cv_url c, cv_type c, cv_description c).

End Index.

(* ===================================================================== *)
(** * Properties *)
(* ===================================================================== *)

Module ReProps.
Import Re.
#[local] Arguments String.append !_ _ / : simpl nomatch.

Lemma append_nil_r (s : string) : s +:+ EmptyString = s.
Proof. induction s as [|c s IH]; simpl; [reflexivity | now rewrite IH]. Qed.

Lemma append_assoc (a b c : string) : (a +:+ b) +:+ c = a +:+ (b +:+ c).
Proof. induction a as [|x a IH]; simpl; [reflexivity | now rewrite IH]. Qed.

Lemma one_some ok k s m :
  one ok k s = Some m ->
  exists a s' m', s = String a s' /\ ok a = true /\ k a s' = Some m'
                  /\ m = String a m'.
Proof.
  destruct s as [|a s']; simpl; [discriminate|].
  destruct (ok a) eqn:E; [|discriminate].
  destruct (k a s') as [m'|] eqn:K; simpl; [|discriminate].
  intros [= <-]. now exists a, s', m'.
Qed.

Lemma star_loop_some p k s m :
  star_loop p k s = Some m ->
  exists w s' m', s = w +:+ s' /\ k s' = Some m' /\ m = w +:+ m'
                  /\ (forall pat g, (forall x, k s' = Some x -> matches pat g x) ->
                                    matches (Star p :: pat) g m).
Proof.
  revert m. induction s as [|a s IH]; intros m; simpl.
  - intros H. exists EmptyString, EmptyString, m. repeat split; auto.
    intros pat g Hk. apply matches_star_done. now apply Hk.
  - destruct (p a) eqn:E.
    + destruct (star_loop p k s) as [m1|] eqn:L.
      * intros [= <-]. destruct (IH m1 eq_refl) as (w & s' & m' & -> & Hk & -> & Hm).
        exists (String a w), s', m'. repeat split; auto.
        intros pat g Hx. simpl. apply matches_star_more; [exact E|]. now apply Hm.
      * intros H. exists EmptyString, (String a s), m. repeat split; auto.
        intros pat g Hk. apply matches_star_done. now apply Hk.
    + intros H. exists EmptyString, (String a s), m. repeat split; auto.
      intros pat g Hk. apply matches_star_done. now apply Hk.
Qed.

(** the matcher only returns texts that match, and that begin the subject *)
Lemma match_here_sound pat : forall g s m,
  match_here pat g s = Some m ->
  matches pat g m /\ exists t, s = m +:+ t.
Proof.
  induction pat as [|a pat IH]; intros g s m; simpl.
  - intros [= <-]. split; [constructor | now exists s].
  - destruct a as [c|p|p|n p|n].
    + intros H. apply one_some in H as (a & s' & m' & -> & Hc & Hk & ->).
      apply Ascii.eqb_eq in Hc as <-.
      destruct (IH _ _ _ Hk) as [Hm [t ->]].
      split; [now constructor | now exists t].
    + intros H. apply one_some in H as (a & s' & m' & -> & Hc & Hk & ->).
      destruct (IH _ _ _ Hk) as [Hm [t ->]].
      split; [now constructor | now exists t].
    + intros H. apply star_loop_some in H as (w & s' & m' & -> & Hk & -> & Hm).
      destruct (IH _ _ _ Hk) as [Hm' [t ->]].
      split.
      * apply Hm. intros x Hx. now apply IH in Hx as [? _].
      * exists t. now rewrite append_assoc.
    + intros H. apply one_some in H as (a & s' & m' & -> & Hc & Hk & ->).
      destruct (IH _ _ _ Hk) as [Hm [t ->]].
      split; [now constructor | now exists t].
    + destruct (group n g) as [c|] eqn:G; [|discriminate].
      intros H. apply one_some in H as (a & s' & m' & -> & Hc & Hk & ->).
      apply Ascii.eqb_eq in Hc as <-.
      destruct (IH _ _ _ Hk) as [Hm [t ->]].
      split; [now constructor | now exists t].
Qed.

Lemma star_loop_is_some p k s : is_Some (k s) -> is_Some (star_loop p k s).
Proof.
  intros H. destruct s as [|a s]; simpl; [exact H|].
  destruct (p a); [|exact H].
  destruct (star_loop p k s); [eauto | exact H].
Qed.

(** backtracking is exhaustive: whenever some text matching the pattern
    begins the subject, the matcher finds a match *)
Lemma match_here_complete pat g m :
  matches pat g m -> forall t, is_Some (match_here pat g (m +:+ t)).
Proof.
  induction 1 as [g|c pat g m _ IH|p a pat g m Hp _ IH|p pat g m _ IH
                 |p a pat g m Hp _ IH|n p a pat g m Hp _ IH|n c pat g m Hg _ IH];
    intros t; simpl.
  - eauto.
  - rewrite Ascii.eqb_refl. destruct (IH t) as [x ->]. simpl. eauto.
  - rewrite Hp. destruct (IH t) as [x ->]. simpl. eauto.
  - apply star_loop_is_some, IH.
  - rewrite Hp. specialize (IH t). simpl in IH. destruct IH as [x ->]. eauto.
  - rewrite Hp. destruct (IH t) as [x ->]. simpl. eauto.
  - rewrite Hg. simpl. rewrite Ascii.eqb_refl. destruct (IH t) as [x ->]. simpl. eauto.
Qed.

(** [re.search] succeeds exactly when a matching text occurs in the
    subject *)
Lemma search_occurs pat s :
  search pat s = true <-> exists m, matches pat [] m /\ occurs m s.
Proof.
  split.
  - induction s as [|c s IH]; simpl.
    + destruct (match_here pat [] EmptyString) as [m|] eqn:E; [|discriminate].
      intros _. apply match_here_sound in E as [Hm [t Ht]].
      exists m. split; [exact Hm|]. now exists EmptyString, t.
    + destruct (match_here pat [] (String c s)) as [m|] eqn:E.
      * intros _. apply match_here_sound in E as [Hm [t Ht]].
        exists m. split; [exact Hm|]. now exists EmptyString, t.
      * intros H. destruct (IH H) as (m & Hm & pre & post & ->).
        exists m. split; [exact Hm|]. now exists (String c pre), post.
  - intros (m & Hm & pre & post & ->).
    induction pre as [|c pre IH]; simpl.
    + pose proof (match_here_complete _ _ _ Hm post) as [x Hx].
      destruct (m +:+ post); simpl in *; now rewrite Hx.
    + destruct (match_here pat [] (String c (pre +:+ (m +:+ post)))); auto.
Qed.

(** text added around a subject loses no match *)
Lemma search_extend pat pre s post :
  search pat s = true -> search pat (pre +:+ (s +:+ post)) = true.
Proof.
  rewrite !search_occurs. intros (m & Hm & a & b & ->).
  exists m. split; [exact Hm|].
  exists (pre +:+ a), (b +:+ post). now rewrite !append_assoc.
Qed.

End ReProps.
(** ** The script risk scorer *)

Module ScriptAnalyzerProps.
Import Re ScriptAnalyzer ScoringRule.

Lemma finditer_from_nil pat s :
  finditer_from pat 0 s = [] <-> search pat s = false.
Proof.
  induction s as [|c s IH]; simpl.
  - destruct (match_here pat [] EmptyString); split; congruence.
  - destruct (match_here pat [] (String c s)); [split; congruence | exact IH].
Qed.

Lemma finditer_nil pat s : finditer pat s = [] <-> search pat s = false.
Proof. apply finditer_from_nil. Qed.

(** [scan] keeps one entry per matched signature, in the order of the set *)
Lemma scan_length risk set content :
  List.length (scan risk set content)
  = List.length (List.filter (matched content) set).
Proof.
  induction set as [|p set IH]; simpl; [reflexivity|].
  unfold matched at 1.
  destruct (finditer (atoms p) content) eqn:E.
  - apply finditer_nil in E. rewrite E. exact IH.
  - destruct (search (atoms p) content) eqn:S.
    + simpl. now rewrite IH.
    + apply finditer_nil in S. congruence.
Qed.

Lemma scan_risk risk set content :
  Forall (fun f => df_risk f = risk) (scan risk set content).
Proof.
  induction set as [|p set IH]; simpl; [constructor|].
  destruct (finditer (atoms p) content); [exact IH|].
  constructor; [reflexivity | exact IH].
Qed.

Lemma count_risk_same risk l :
  Forall (fun f => df_risk f = risk) l ->
  count_risk risk l = Z.of_nat (List.length l).
Proof.
  intros H. unfold count_risk. f_equal.
  induction H as [|f l Hf _ IH]; [reflexivity|].
  rewrite filter_cons_True by exact Hf. simpl. now rewrite IH.
Qed.

Lemma count_risk_other risk risk' l :
  risk <> risk' ->
  Forall (fun f => df_risk f = risk) l ->
  count_risk risk' l = 0%Z.
Proof.
  intros Hne H. unfold count_risk.
  induction H as [|f l Hf _ IH]; [reflexivity|].
  rewrite filter_cons_False by congruence. exact IH.
Qed.

Lemma count_risk_app risk l1 l2 :
  count_risk risk (l1 ++ l2) = (count_risk risk l1 + count_risk risk l2)%Z.
Proof.
  unfold count_risk. rewrite filter_app, length_app. lia.
Qed.

(** [high_risk_matches] is empty exactly when no high-risk signature is
    matched *)
Lemma concat_finditer_nil set content :
  List.concat (map (fun p => finditer (atoms p) content) set) = []
  <-> List.filter (matched content) set = [].
Proof.
  induction set as [|p set IH]; simpl; [tauto|].
  unfold matched at 1.
  destruct (finditer (atoms p) content) eqn:E; simpl.
  - apply finditer_nil in E. rewrite E. exact IH.
  - destruct (search (atoms p) content) eqn:S.
    + split; discriminate.
    + apply finditer_nil in S. congruence.
Qed.

Lemma high_risk_matches_nil content :
  high_risk_matches content = []
  <-> signatures_matched high_risk content = 0%Z.
Proof.
  unfold high_risk_matches, signatures_matched.
  rewrite concat_finditer_nil.
  destruct (List.filter (matched content) high_risk); simpl; split;
    try reflexivity; try discriminate; lia.
Qed.

Lemma level_of_clamp s : level_of (Z.min 100 s) = level_of s.
Proof.
  unfold level_of.
  destruct (Z.leb_spec 70 s), (Z.leb_spec 70 (Z.min 100 s)); try lia; auto.
  destruct (Z.leb_spec 40 s), (Z.leb_spec 40 (Z.min 100 s)); try lia; auto.
  destruct (Z.leb_spec 10 s), (Z.leb_spec 10 (Z.min 100 s)); try lia; auto.
Qed.

Lemma analyze_script_raw content i :
  risk_score (_analyze_script_simplified content i) = Z.min 100 (raw_score content)
  /\ risk_level (_analyze_script_simplified content i) = level_of (raw_score content).
Proof.
  assert (Hh : count_risk "high" (scan "high" high_risk content)
               = signatures_matched high_risk content).
  { rewrite count_risk_same by apply scan_risk.
    unfold signatures_matched. now rewrite scan_length. }
  assert (Hm : count_risk "medium" (scan "high" high_risk content) = 0%Z).
  { apply (count_risk_other "high"); [discriminate | apply scan_risk]. }
  assert (Hmm : count_risk "medium" (scan "medium" medium_risk content)
                = signatures_matched medium_risk content).
  { rewrite count_risk_same by apply scan_risk.
    unfold signatures_matched. now rewrite scan_length. }
  assert (Hhm : count_risk "high" (scan "medium" medium_risk content) = 0%Z).
  { apply (count_risk_other "medium"); [discriminate | apply scan_risk]. }
  unfold _analyze_script_simplified, raw_score; cbn [risk_score risk_level].
  destruct (high_risk_matches content) eqn:E.
  - apply high_risk_matches_nil in E.
    rewrite !count_risk_app, Hh, Hm, Hmm, Hhm, E. simpl (0 =? 0)%Z. cbv iota.
    destruct (detect_obfuscation content); split; f_equal; lia.
  - assert (Hn : signatures_matched high_risk content <> 0%Z).
    { intros H0. apply high_risk_matches_nil in H0. congruence. }
    rewrite Hh, Hm.
    destruct (Z.eqb_spec (signatures_matched high_risk content) 0); [contradiction|].
    destruct (detect_obfuscation content); split; f_equal; lia.
Qed.

Lemma analyze_from_lookup scripts : forall k i s content,
  scripts !! i = Some s ->
  script_content s = Some content ->
  content <> EmptyString ->
  _analyze_script_simplified content (k + i) ∈ analyze_from k scripts.
Proof.
  induction scripts as [|s0 scripts IH]; intros k i s content Hi Hc Hne.
  - discriminate.
  - destruct i as [|i]; simpl in Hi.
    + injection Hi as ->. simpl. rewrite Hc.
      destruct content; [congruence|]. simpl.
      rewrite Nat.add_0_r. apply list_elem_of_here.
    + specialize (IH (S k) i s content Hi Hc Hne).
      replace (k + S i) with (S k + i) by lia.
      simpl. destruct (script_content s0) as [c0|]; [|exact IH].
      destruct (PyStr.nonempty c0); [|exact IH].
      now apply list_elem_of_further.
Qed.

(** C2. Every script of the list handed to the scorer that has a
    non-empty content gets a verdict, and the verdict's [risk_score] is
    the score of the scoring rule: the minimum of 100 and 25 per matched
    high-risk signature, plus 10 per matched medium-risk signature when
    no high-risk signature is matched, plus 20 when an obfuscation
    signature is matched; its [risk_level] is read off that score with
    the thresholds 70, 40 and 10.  The content [eval(userInput)] scores
    25 at level [low]. *)
Theorem risk_score_follows_scoring_rule :
  (forall (scripts : list script) (i : nat) (s : script) (content : string),
      scripts !! i = Some s ->
      script_content s = Some content ->
      content <> EmptyString ->
      let verdict := _analyze_script_simplified content i in
      verdict ∈ script_analysis (analyze scripts)
      /\ risk_score verdict = score content
      /\ risk_level verdict = level (risk_score verdict))
  /\ (exists verdict,
         script_analysis
           (analyze [mk_script (Some "inline") None (Some "eval(userInput)")])
         = [verdict]
         /\ risk_score verdict = 25%Z /\ risk_level verdict = "low").
Proof.
  split.
  - intros scripts i s content Hi Hc Hne verdict. subst verdict.
    destruct (analyze_script_raw content i) as [Hs Hl].
    split; [|split].
    + apply (analyze_from_lookup scripts 0 i s content Hi Hc Hne).
    + exact Hs.
    + rewrite Hl, Hs. symmetry. apply level_of_clamp.
  - eexists. split; [reflexivity|]. split; reflexivity.
Qed.

Lemma risk_score_follows_scoring_rule_witness :
  let scripts := [mk_script (Some "external") (Some "http://h/a.js") None;
                  mk_script (Some "inline") None
                    (Some "fetch(u); x.src = u; atob(v)")] in
  let verdict := _analyze_script_simplified "fetch(u); x.src = u; atob(v)" 1 in
  verdict ∈ script_analysis (analyze scripts)
  /\ risk_score verdict = score "fetch(u); x.src = u; atob(v)"
  /\ risk_level verdict = level (risk_score verdict).
Proof.
  intros scripts verdict.
  apply (proj1 risk_score_follows_scoring_rule scripts 1
           (mk_script (Some "inline") None (Some "fetch(u); x.src = u; atob(v)")));
    [reflexivity | reflexivity | discriminate].
Defined.

(** *** Bounds and monotonicity *)

Lemma filter_length_le {A : Type} (f g : A -> bool) (l : list A) :
  (forall x, f x = true -> g x = true) ->
  List.length (List.filter f l) <= List.length (List.filter g l).
Proof.
  intros H. induction l as [|x l IH]; simpl; [lia|].
  destruct (f x) eqn:F.
  - rewrite (H x F). simpl. lia.
  - destruct (g x); simpl; lia.
Qed.

Lemma signatures_matched_extend set pre content post :
  (signatures_matched set content
   <= signatures_matched set (pre +:+ (content +:+ post)))%Z.
Proof.
  unfold signatures_matched. apply Nat2Z.inj_le, filter_length_le.
  intros p. unfold matched. apply ReProps.search_extend.
Qed.

Lemma detect_obfuscation_extend pre content post :
  detect_obfuscation content = true ->
  detect_obfuscation (pre +:+ (content +:+ post)) = true.
Proof.
  unfold detect_obfuscation. rewrite !existsb_exists.
  intros (p & Hin & Hp). exists p. split; [exact Hin|].
  now apply ReProps.search_extend.
Qed.

Lemma signatures_matched_nonneg set content :
  (0 <= signatures_matched set content)%Z.
Proof. unfold signatures_matched. lia. Qed.

Lemma raw_score_nonneg content : (0 <= raw_score content)%Z.
Proof.
  unfold raw_score.
  pose proof (signatures_matched_nonneg high_risk content).
  pose proof (signatures_matched_nonneg medium_risk content).
  destruct (signatures_matched high_risk content =? 0)%Z,
           (detect_obfuscation content); lia.
Qed.

Lemma raw_score_extend pre content post :
  signatures_matched high_risk content <> 0%Z
  \/ (signatures_matched medium_risk content <= 2)%Z ->
  (raw_score content <= raw_score (pre +:+ (content +:+ post)))%Z.
Proof.
  intros Hpre. unfold raw_score.
  pose proof (signatures_matched_extend high_risk pre content post) as Hh.
  pose proof (signatures_matched_extend medium_risk pre content post) as Hm.
  pose proof (signatures_matched_nonneg high_risk content) as Hh0.
  pose proof (signatures_matched_nonneg medium_risk content) as Hm0.
  pose proof (detect_obfuscation_extend pre content post) as Ho.
  set (ext := pre +:+ (content +:+ post)) in *.
  destruct (Z.eqb_spec (signatures_matched high_risk content) 0) as [E|E];
    destruct (Z.eqb_spec (signatures_matched high_risk ext) 0) as [E'|E'];
    destruct (detect_obfuscation content);
    try (rewrite (Ho eq_refl));
    try destruct (detect_obfuscation ext);
    lia.
Qed.

(** C6 (amended). The [risk_score] of every script content lies between
    0 and 100; and for a content that already matches a high-risk
    signature, or that matches at most two medium-risk signatures, no
    text added before or after it (in particular text that makes one
    more high-risk signature match) decreases the [risk_score]. *)
Theorem risk_score_bounded_and_monotone :
  (forall (content : string) (i : nat),
      (0 <= risk_score (_analyze_script_simplified content i) <= 100)%Z)
  /\ (forall (pre content post : string) (i j : nat),
         signatures_matched high_risk content <> 0%Z
         \/ (signatures_matched medium_risk content <= 2)%Z ->
         (risk_score (_analyze_script_simplified content i)
          <= risk_score
               (_analyze_script_simplified (pre +:+ (content +:+ post)) j))%Z).
Proof.
  split.
  - intros content i.
    destruct (analyze_script_raw content i) as [-> _].
    pose proof (raw_score_nonneg content). lia.
  - intros pre content post i j Hpre.
    destruct (analyze_script_raw content i) as [-> _].
    destruct (analyze_script_raw (pre +:+ (content +:+ post)) j) as [-> _].
    pose proof (raw_score_extend pre content post Hpre). lia.
Qed.

Lemma risk_score_bounded_and_monotone_witness :
  (risk_score (_analyze_script_simplified "eval(a)" 0)
   <= risk_score
        (_analyze_script_simplified
           ("var b; " +:+ ("eval(a)" +:+ "; document.write(b)")) 0))%Z.
Proof.
  apply (proj2 risk_score_bounded_and_monotone).
  left. vm_compute. discriminate.
Defined.

(** C6 as stated fails: three medium-risk signatures score 30, and once
    the content is extended so that [eval(] matches as well, the
    medium-risk signatures are no longer counted and the score is 25. *)
Lemma risk_score_not_monotone :
  let content := "fetch(a); x.src = b; document.createElement(c)" in
  let extended := content +:+ "; eval(d)" in
  signatures_matched high_risk extended
  = (signatures_matched high_risk content + 1)%Z
  /\ risk_score (_analyze_script_simplified content 0) = 30%Z
  /\ risk_score (_analyze_script_simplified extended 0) = 25%Z.
Proof. vm_compute. repeat split. Qed.

End ScriptAnalyzerProps.

(** ** The HTML structural analyzer *)

Module HTMLParserProps.
Import PyStr HTMLParser Vocabulary.

(** *** Input elements *)

Lemma event_named_lowercase a :
  lowercase_name a -> event_named a = mem (fst a) event_attributes.
Proof. unfold lowercase_name, event_named. now intros ->. Qed.

(** one turn of the loop on an offending attribute records its vector *)
Lemma input_step_offending st a :
  lowercase_name a -> offends_input a = true ->
  st_suspicious (input_step st a) = true
  /\ st_xss_vector (input_step st a) = Some (input_vector a).
Proof.
  intros Hl Ho. unfold offends_input in Ho. rewrite (event_named_lowercase a Hl) in Ho.
  destruct a as [attr value]. unfold input_step, input_vector, check_javascript,
    check_event. cbn [fst snd] in *.
  destruct (javascript_value value); [now split|].
  rewrite orb_false_r in Ho. rewrite Ho. now split.
Qed.

Lemma input_step_clean st a :
  lowercase_name a -> offends_input a = false ->
  st_suspicious (input_step st a) = st_suspicious st
  /\ st_xss_vector (input_step st a) = st_xss_vector st.
Proof.
  intros Hl Ho. unfold offends_input in Ho. rewrite (event_named_lowercase a Hl) in Ho.
  apply orb_false_iff in Ho as [He Hj].
  destruct a as [attr value]. unfold input_step, check_javascript, check_event,
    keep_attribute. cbn [fst snd] in *. rewrite He, Hj.
  destruct (mem attr [_; _; _; _]); now split.
Qed.

Lemma other_step_offending st a :
  lowercase_name a -> event_named a = true ->
  st_suspicious (other_step st a) = true
  /\ st_xss_vector (other_step st a) = Some (event_vector a).
Proof.
  intros Hl Ho. rewrite (event_named_lowercase a Hl) in Ho.
  destruct a as [attr value]. unfold other_step, event_vector, check_event.
  cbn [fst snd] in *. rewrite Ho. now split.
Qed.

Lemma other_step_clean st a :
  lowercase_name a -> event_named a = false ->
  st_suspicious (other_step st a) = st_suspicious st
  /\ st_xss_vector (other_step st a) = st_xss_vector st.
Proof.
  intros Hl Ho. rewrite (event_named_lowercase a Hl) in Ho.
  destruct a as [attr value]. unfold other_step, check_event, keep_attribute.
  cbn [fst snd] in *. rewrite Ho. destruct (mem attr [_; _]); now split.
Qed.

Lemma option_step_offending st o :
  offends_option o = true ->
  st_suspicious (option_step st o) = true
  /\ st_xss_vector (option_step st o) = Some (option_vector o).
Proof. unfold offends_option, option_step. intros ->. now split. Qed.

Lemma option_step_clean st o :
  offends_option o = false -> option_step st o = st.
Proof. unfold offends_option, option_step. now intros ->. Qed.

(** a loop whose turns leave the two fields alone leaves them alone *)
Lemma fold_clean {A : Type} (step : scan_state -> A -> scan_state)
  (clean : A -> Prop) (l : list A) :
  (forall st a, clean a ->
     st_suspicious (step st a) = st_suspicious st
     /\ st_xss_vector (step st a) = st_xss_vector st) ->
  Forall clean l ->
  forall st,
    st_suspicious (fold_left step l st) = st_suspicious st
    /\ st_xss_vector (fold_left step l st) = st_xss_vector st.
Proof.
  intros Hstep Hl. induction Hl as [|a l Ha _ IH]; intros st; simpl; [now split|].
  destruct (IH (step st a)) as [-> ->]. now apply Hstep.
Qed.

(** the last offending element of the loop decides both fields *)
Lemma fold_last {A : Type} (step : scan_state -> A -> scan_state)
  (clean : A -> Prop) (vector : A -> string) (before after : list A) (a : A) :
  (forall st b, clean b ->
     st_suspicious (step st b) = st_suspicious st
     /\ st_xss_vector (step st b) = st_xss_vector st) ->
  (forall st, st_suspicious (step st a) = true
              /\ st_xss_vector (step st a) = Some (vector a)) ->
  Forall clean after ->
  forall st,
    st_suspicious (fold_left step (before ++ a :: after) st) = true
    /\ st_xss_vector (fold_left step (before ++ a :: after) st)
       = Some (vector a).
Proof.
  intros Hclean Ha Hafter st. rewrite fold_left_app. simpl.
  destruct (fold_clean step clean after Hclean Hafter
              (step (fold_left step before st) a)) as [-> ->].
  apply Ha.
Qed.


Lemma Forall_lowercase_split (before after : attrs_t) a :
  Forall lowercase_name (before ++ a :: after) ->
  lowercase_name a /\ Forall lowercase_name after.
Proof.
  intros H. apply Forall_app in H as [_ H]. now apply Forall_cons in H.
Qed.

Lemma clean_and_lowercase (clean : string * attr_value -> bool) (l : attrs_t) :
  Forall lowercase_name l ->
  Forall (fun b => clean b = false) l ->
  Forall (fun b => lowercase_name b /\ clean b = false) l.
Proof.
  intros Hl Hc. apply Forall_forall. intros b Hb. split.
  - eapply Forall_forall in Hl; eauto.
  - eapply (proj1 (Forall_forall (fun b => clean b = false) l)) in Hc; eauto.
Qed.

Lemma input_tag_last_offending t before a after :
  Forall lowercase_name (tag_attrs t) ->
  tag_attrs t = before ++ a :: after ->
  offends_input a = true ->
  Forall (fun b => offends_input b = false) after ->
  in_suspicious (analyze_input_tag t) = true
  /\ in_xss_vector (analyze_input_tag t) = Some (input_vector a).
Proof.
  intros Hl Ht Ha Hafter. unfold analyze_input_tag; cbn [in_suspicious in_xss_vector].
  rewrite Ht in *. apply Forall_lowercase_split in Hl as [Hla Hlafter].
  apply (fold_last input_step
           (fun b => lowercase_name b /\ offends_input b = false) input_vector).
  - intros st b [Hb Hc]. now apply input_step_clean.
  - intros st. now apply input_step_offending.
  - now apply clean_and_lowercase.
Qed.

Lemma other_fold_last t before a after st :
  Forall lowercase_name (tag_attrs t) ->
  tag_attrs t = before ++ a :: after ->
  event_named a = true ->
  Forall (fun b => event_named b = false) after ->
  st_suspicious (fold_left other_step (tag_attrs t) st) = true
  /\ st_xss_vector (fold_left other_step (tag_attrs t) st)
     = Some (event_vector a).
Proof.
  intros Hl Ht Ha Hafter.
  rewrite Ht in *. apply Forall_lowercase_split in Hl as [Hla Hlafter].
  apply (fold_last other_step
           (fun b => lowercase_name b /\ event_named b = false) event_vector).
  - intros st' b [Hb Hc]. now apply other_step_clean.
  - intros st'. now apply other_step_offending.
  - now apply clean_and_lowercase.
Qed.

Lemma named_elem name t (l : list tag) :
  t ∈ l -> tag_name t = name -> t ∈ named name l.
Proof. intros Hin Hn. unfold named. apply list_elem_of_filter. now split. Qed.

Lemma analyze_inputs_has_input soup t :
  t ∈ all_tags soup -> tag_name t = "input" ->
  analyze_input_tag t ∈ _analyze_inputs soup.
Proof.
  intros Hin Hn. unfold _analyze_inputs. apply elem_of_app. left.
  apply list_elem_of_fmap_2. now apply named_elem.
Qed.

Lemma analyze_inputs_has_textarea soup t :
  t ∈ all_tags soup -> tag_name t = "textarea" ->
  analyze_textarea_tag t ∈ _analyze_inputs soup.
Proof.
  intros Hin Hn. unfold _analyze_inputs. apply elem_of_app. right.
  apply elem_of_app. left.
  apply list_elem_of_fmap_2. now apply named_elem.
Qed.

Lemma analyze_inputs_has_select soup t :
  t ∈ all_tags soup -> tag_name t = "select" ->
  analyze_select_tag t ∈ _analyze_inputs soup.
Proof.
  intros Hin Hn. unfold _analyze_inputs. apply elem_of_app. right.
  apply elem_of_app. right.
  apply list_elem_of_fmap_2. now apply named_elem.
Qed.

(** C4 (amended). For an element of the document whose attribute names
    are in lower case, as the parser delivers them: an [input] is marked
    suspicious when one of its attributes is named like an event
    attribute or has a [str] value that holds [javascript:] in any case;
    a [textarea] and a [select] are marked suspicious when one of their
    attributes is named like an event attribute; and when several
    attributes offend, [xss_vector] records the last of them in the order
    of the attribute map. *)
Theorem xss_vector_records_last_offending_attribute :
  forall (soup : list node) (t : tag) (before after : attrs_t)
    (a : string * attr_value),
    t ∈ all_tags soup ->
    Forall lowercase_name (tag_attrs t) ->
    tag_attrs t = before ++ a :: after ->
    (tag_name t = "input" ->
     offends_input a = true ->
     Forall (fun b => offends_input b = false) after ->
     analyze_input_tag t ∈ _analyze_inputs soup
     /\ in_suspicious (analyze_input_tag t) = true
     /\ in_xss_vector (analyze_input_tag t) = Some (input_vector a))
    /\ (tag_name t = "textarea" ->
        event_named a = true ->
        Forall (fun b => event_named b = false) after ->
        analyze_textarea_tag t ∈ _analyze_inputs soup
        /\ in_suspicious (analyze_textarea_tag t) = true
        /\ in_xss_vector (analyze_textarea_tag t) = Some (event_vector a))
    /\ (tag_name t = "select" ->
        event_named a = true ->
        Forall (fun b => event_named b = false) after ->
        analyze_select_tag t ∈ _analyze_inputs soup
        /\ in_suspicious (analyze_select_tag t) = true
        /\ in_xss_vector (analyze_select_tag t) = Some (event_vector a)).
Proof.
  intros soup t before after a Hin Hl Ht. split; [|split].
  - intros Hn Ha Hafter. split; [now apply analyze_inputs_has_input|].
    now apply (input_tag_last_offending t before a after).
  - intros Hn Ha Hafter. split; [now apply analyze_inputs_has_textarea|].
    unfold analyze_textarea_tag; cbn [in_suspicious in_xss_vector].
    now apply (other_fold_last t before a after).
  - intros Hn Ha Hafter. split; [now apply analyze_inputs_has_select|].
    unfold analyze_select_tag; cbn [in_suspicious in_xss_vector].
    now apply (other_fold_last t before a after).
Qed.

Lemma xss_vector_records_last_offending_attribute_witness :
  let attrs := [("type", AttrStr "text"); ("onclick", AttrStr "a()");
                ("onload", AttrStr "b()"); ("class", AttrList ["wide"])] in
  let t := mk_tag "input" attrs [] [document] in
  analyze_input_tag t ∈ _analyze_inputs [Element "input" attrs []]
  /\ in_suspicious (analyze_input_tag t) = true
  /\ in_xss_vector (analyze_input_tag t) = Some "Event handler: onload=b()".
Proof.
  intros attrs t.
  refine (proj1
    (xss_vector_records_last_offending_attribute
       [Element "input" attrs []] t
       [("type", AttrStr "text"); ("onclick", AttrStr "a()")]
       [("class", AttrList ["wide"])] ("onload", AttrStr "b()") _ _ eq_refl)
    eq_refl eq_refl _).
  - vm_compute. apply list_elem_of_here.
  - repeat constructor.
  - repeat constructor.
Defined.

(** C4 as stated fails on the recorded vector: of two offending
    attributes it is the second, not the first, that [xss_vector] names. *)
Lemma xss_vector_is_not_the_first_offending_attribute :
  let attrs := [("onclick", AttrStr "a()"); ("onload", AttrStr "b()")] in
  exists info,
    _analyze_inputs [Element "input" attrs []] = [info]
    /\ offends_input ("onclick", AttrStr "a()") = true
    /\ offends_input ("onload", AttrStr "b()") = true
    /\ in_xss_vector info = Some "Event handler: onload=b()"
    /\ in_xss_vector info <> Some (input_vector ("onclick", AttrStr "a()")).
Proof.
  intros attrs. eexists. split; [reflexivity|].
  repeat split. discriminate.
Qed.

(** the [javascript:] test on attribute values is made for [input]
    only: a [textarea] with such a value is not marked *)
Example textarea_javascript_value_not_marked :
  let attrs := [("name", AttrStr "c");
                ("placeholder", AttrStr "javascript:alert(1)")] in
  exists info,
    _analyze_inputs [Element "textarea" attrs []] = [info]
    /\ in_suspicious info = false /\ in_xss_vector info = None.
Proof. eexists. repeat split. Qed.

(** the options of a [select] are looked at before its attributes *)
Lemma select_option_vector t before o after :
  map option_of (named "option" (tags_under t)) = before ++ o :: after ->
  offends_option o = true ->
  Forall (fun b => offends_option b = false) after ->
  Forall lowercase_name (tag_attrs t) ->
  Forall (fun b => event_named b = false) (tag_attrs t) ->
  in_suspicious (analyze_select_tag t) = true
  /\ in_xss_vector (analyze_select_tag t) = Some (option_vector o).
Proof.
  intros Ho Hoff Hafter Hl Hclean.
  unfold analyze_select_tag; cbn [in_suspicious in_xss_vector].
  rewrite Ho.
  destruct (fold_clean other_step
              (fun b => lowercase_name b /\ event_named b = false)
              (tag_attrs t)
              (fun st b H => other_step_clean st b (proj1 H) (proj2 H))
              (clean_and_lowercase _ _ Hl Hclean)
              (fold_left option_step (before ++ o :: after) initial))
    as [-> ->].
  apply (fold_last option_step (fun b => offends_option b = false) option_vector).
  - intros st b Hb. now rewrite option_step_clean.
  - intros st. now apply option_step_offending.
  - exact Hafter.
Qed.

(** the scenario of the design document: one input with an [onload]
    handler, no visual data *)
Example onload_input_scenario :
  let soup := [Element "input" [("type", AttrStr "text");
                                ("onload", AttrStr "eval(x)")] []] in
  let html_analysis :=
    {| inputs := _analyze_inputs soup; event_handlers := [];
       inline_scripts := []; suspicious_patterns := []; links := [];
       base_url := None |} in
  map (fun v => (XSSDetector.vtype v, XSSDetector.severity v,
                 XSSDetector.vulnerability v))
    (XSSDetector._find_input_vulnerabilities "http://h/" None html_analysis
       (ScriptAnalyzer.analyze []) None)
  = [("input_xss", XSSDetector.Medio, "Event handler: onload=eval(x)")].
Proof. reflexivity. Qed.


(** *** Links *)

Lemma fold_link_events attrs : forall l,
  let l' := fold_left link_event_step attrs l in
  ln_suspicious l' = ln_suspicious l || existsb event_named attrs
  /\ ln_has_parameters l' = ln_has_parameters l
  /\ ln_parameters l' = ln_parameters l
  /\ ln_href l' = ln_href l.
Proof.
  induction attrs as [|[attr value] attrs IH]; intros l; cbv zeta;
    cbn [fold_left existsb].
  - now rewrite orb_false_r.
  - destruct (IH (link_event_step l (attr, value))) as (-> & -> & -> & ->).
    unfold link_event_step, event_named. cbn [fst].
    destruct (mem (lower attr) event_attributes); simpl; [|now repeat split].
    now rewrite orb_true_r.
Qed.

Lemma fold_parameters params : forall l,
  let l' := fold_left parameter_step params l in
  ln_suspicious l' = ln_suspicious l || existsb offends_parameter params
  /\ ln_has_parameters l' = ln_has_parameters l
  /\ ln_parameters l' = ln_parameters l.
Proof.
  induction params as [|[param value] params IH]; intros l; cbv zeta;
    cbn [fold_left existsb].
  - now rewrite orb_false_r.
  - destruct (IH (parameter_step l (param, value))) as (-> & -> & ->).
    unfold parameter_step, offends_parameter. cbn [snd].
    destruct (suspicious_parameter value); simpl; [|now repeat split].
    now rewrite orb_true_r.
Qed.

(** the three outcomes of the chain on the href, for a link not yet
    flagged *)
Lemma classify_href_cases parse_query href text :
  let l := classify_href parse_query
             (mk_link_info href text false None None None) in
  let js := startswith "javascript:" (lower href) in
  let query := contains "?" href in
  let absolute := absolute_scheme href in
  ln_suspicious l
  = js || (negb js && query && absolute
           && match parse_query href with
              | Some params => existsb offends_parameter (first_values params)
              | None => false
              end)
  /\ ln_has_parameters l
     = (if js then None
        else if query && negb absolute then Some true
        else if query then
          match parse_query href with
          | Some _ => Some true
          | None => None
          end
        else None)
  /\ ln_parameters l
     = (if js then None
        else if query && negb absolute then None
        else if query then option_map first_values (parse_query href)
        else None).
Proof.
  unfold classify_href; cbn [ln_href ln_text ln_suspicious ln_xss_vector
                             ln_parameters ln_has_parameters].
  destruct (startswith "javascript:" (lower href)); [now repeat split|].
  destruct (contains "?" href); [|now repeat split].
  destruct (absolute_scheme href); simpl; [|now repeat split].
  destruct (parse_query href) as [params|]; [|now repeat split].
  destruct (fold_parameters (first_values params)
              (mk_link_info href text false None (Some true)
                 (Some (first_values params)))) as (-> & -> & ->).
  now repeat split.
Qed.

Lemma existsb_In {A : Type} (f : A -> bool) (l : list A) :
  existsb f l = true <-> exists a, In a l /\ f a = true.
Proof. apply existsb_exists. Qed.

Lemma analyze_links_retained parse_query soup l :
  l ∈ _analyze_links parse_query soup
  <-> (exists t, t ∈ anchors soup /\ l = analyze_link_tag parse_query t)
      /\ (ln_suspicious l = true \/ ln_has_parameters l = Some true).
Proof.
  unfold _analyze_links. rewrite list_elem_of_In, filter_In, <- list_elem_of_In.
  rewrite list_elem_of_fmap. unfold retained.
  rewrite orb_true_iff.
  assert (Hp : get (ln_has_parameters l) false = true
               <-> ln_has_parameters l = Some true).
  { destruct (ln_has_parameters l) as [[]|]; simpl; split; congruence. }
  rewrite Hp. split.
  - intros [(t & -> & Ht) H]. split; [eauto | exact H].
  - intros [(t & Ht & ->) H]. split; [eauto | exact H].
Qed.

(** C5 (amended). An anchor is flagged suspicious exactly when its href
    starts with [javascript:] in any case, or, the href not being such,
    holding a [?] and starting with [http:], [https:] or [ftp:] in any
    case, the first decoded value of one of its parameters holds one of
    the four markers in any case, or the anchor has an event attribute.
    An href with a [?] and none of the three schemes is recorded as
    parameter-bearing, its parameters neither decoded nor examined.  An
    href that cannot be parsed is recorded without parameters.  The links
    output holds the anchors that are suspicious or parameter-bearing,
    and no other. *)
Theorem link_flagging_rule :
  forall (parse_query : string -> option (list (string * list string)))
    (soup : list node) (t : tag),
    let l := analyze_link_tag parse_query t in
    let href := tag_get t "href" EmptyString in
    let js := startswith "javascript:" (lower href) in
    (ln_suspicious l = true
     <-> js = true
         \/ (js = false /\ contains "?" href = true
             /\ absolute_scheme href = true
             /\ exists params kv,
                  parse_query href = Some params
                  /\ In kv (first_values params)
                  /\ offends_parameter kv = true)
         \/ (exists a, In a (tag_attrs t) /\ event_named a = true))
    /\ (js = false -> contains "?" href = true ->
        absolute_scheme href = false ->
        ln_has_parameters l = Some true /\ ln_parameters l = None)
    /\ (js = false -> contains "?" href = true ->
        absolute_scheme href = true -> parse_query href = None ->
        ln_has_parameters l = None /\ ln_parameters l = None)
    /\ (forall l',
          l' ∈ _analyze_links parse_query soup
          <-> (exists t', t' ∈ anchors soup
                          /\ l' = analyze_link_tag parse_query t')
              /\ (ln_suspicious l' = true
                  \/ ln_has_parameters l' = Some true)).
Proof.
  intros parse_query soup t l href js. subst l js.
  unfold analyze_link_tag. fold href.
  pose proof (classify_href_cases parse_query href
                (take 50 (get_text_strip t))) as (Hs & Hh & Hp).
  pose proof (fold_link_events (tag_attrs t)
                (classify_href parse_query
                   (mk_link_info href (take 50 (get_text_strip t)) false None
                      None None))) as (Ls & Lh & Lp & _).
  cbv zeta in Hs, Hh, Hp, Ls, Lh, Lp.
  set (js := startswith "javascript:" (lower href)) in *.
  split; [|split; [|split]].
  - rewrite Ls, Hs, !orb_true_iff, !andb_true_iff, negb_true_iff.
    rewrite existsb_In. split.
    + intros [[Hjs|[[[Hjs Hq] Ha] He]]|He].
      * now left.
      * right; left. destruct (parse_query href) as [params|]; [|discriminate].
        apply existsb_In in He as (kv & Hin & Hkv).
        repeat split; auto. now exists params, kv.
      * now right; right.
    + intros [Hjs|[(Hjs & Hq & Ha & params & kv & Hparse & Hin & Hkv)|He]].
      * now left; left.
      * left; right. rewrite Hparse. repeat split; auto.
        apply existsb_In. now exists kv.
      * now right.
  - intros Hjs Hq Ha. rewrite Lh, Lp, Hh, Hp, Hjs, Hq, Ha. now split.
  - intros Hjs Hq Ha Hparse.
    rewrite Lh, Lp, Hh, Hp, Hjs, Hq, Ha, Hparse. now split.
  - intros l'. apply analyze_links_retained.
Qed.

(** C5 as stated fails on a relative href: its query holds a parameter
    whose decoded value contains [<script], yet the link is not flagged
    and its parameters are not decoded ([parse_query] is what [urllib]
    returns for this href). *)
Lemma relative_link_parameters_not_examined :
  let href := "/search?q=<script>alert(1)</script>" in
  let decoded := [("q", ["<script>alert(1)</script>"])] in
  let parse_query := fun h : string =>
    if String.eqb h href then Some decoded else None in
  let anchor := Element "a" [("href", AttrStr href)] [Text "search"] in
  exists l,
    _analyze_links parse_query [anchor] = [l]
    /\ startswith "javascript:" (lower href) = false
    /\ parse_query href = Some decoded
    /\ existsb offends_parameter (first_values decoded) = true
    /\ ln_suspicious l = false
    /\ ln_has_parameters l = Some true
    /\ ln_parameters l = None.
Proof. eexists. repeat split. Qed.


Lemma link_flagging_rule_witness :
  let href := "http://[::1/page?next=javascript:void(0)" in
  let t := mk_tag "a" [("href", AttrStr href)] [Text "next"] [document] in
  let l := analyze_link_tag (fun _ => None) t in
  ln_has_parameters l = None /\ ln_parameters l = None.
Proof.
  intros href t l.
  refine (proj1 (proj2 (proj2
    (link_flagging_rule (fun _ => None) [] t)))
    eq_refl eq_refl eq_refl eq_refl).
Defined.

End HTMLParserProps.

(** ** The correlation synthesizer *)

Module PyStrProps.
Import PyStr.

Lemma lower_char_not_H c : Ascii.eqb (lower_char c) "H" = false.
Proof.
  destruct c as [b0 b1 b2 b3 b4 b5 b6 b7].
  destruct b0, b1, b2, b3, b4, b5, b6, b7; reflexivity.
Qed.

(** a lowered string holds no capital [H] *)
Lemma lower_has_no_H s : has "H" (lower s) = false.
Proof.
  induction s as [|c s IH]; simpl; [reflexivity|].
  now rewrite lower_char_not_H, IH.
Qed.

Lemma startswith_has c p : forall s,
  startswith p s = true -> has c p = true -> has c s = true.
Proof.
  induction p as [|a p IH]; intros s; simpl; [discriminate|].
  destruct s as [|b s]; [discriminate|]. simpl.
  intros Hs Hc. apply andb_true_iff in Hs as [Hab Hs].
  apply Ascii.eqb_eq in Hab as <-.
  apply orb_true_iff in Hc as [Hc|Hc]; apply orb_true_iff;
    [now left | right; now apply IH].
Qed.

Lemma contains_has c p s :
  contains p s = true -> has c p = true -> has c s = true.
Proof.
  intros Hs Hc. induction s as [|b s IH]; simpl in Hs.
  - rewrite orb_false_r in Hs. now apply (startswith_has c p).
  - apply orb_true_iff in Hs as [Hs|Hs]; [now apply (startswith_has c p)|].
    simpl. apply orb_true_iff. right. now apply IH.
Qed.

(** [needle in s.lower()] is false for every needle with a capital [H] *)
Lemma contains_lower_H needle s :
  has "H" needle = true -> contains needle (lower s) = false.
Proof.
  intros Hn. destruct (contains needle (lower s)) eqn:E; [|reflexivity].
  pose proof (contains_has "H" _ _ E Hn) as H.
  now rewrite lower_has_no_H in H.
Qed.

Lemma contains_lower_H_innerHTML s : contains "innerHTML" (lower s) = false.
Proof. now apply contains_lower_H. Qed.

End PyStrProps.

Module XSSDetectorProps.
Import PyStr PyStrProps HTMLParser VisualAnalyzer ScriptAnalyzer XSSDetector.
Import Vocabulary.

Lemma Alto_not_Medio : Alto <> Medio.
Proof. discriminate. Qed.

Lemma graded_Alto v : severity v = Alto -> graded v.
Proof. intros H. unfold graded. rewrite H. repeat split; auto; discriminate. Qed.

Lemma graded_Medio v : severity v = Medio -> graded v.
Proof. intros H. unfold graded. rewrite H. repeat split; auto; discriminate. Qed.

(** *** The event-handler pass *)

Lemma event_pass_one_record_each url html_analysis script_analysis screenshot_path :
  let found := _find_event_vulnerabilities url html_analysis script_analysis
                 screenshot_path in
  List.length found = List.length (event_handlers html_analysis)
  /\ Forall (fun v => vtype v = "event_handler_xss") found.
Proof.
  unfold _find_event_vulnerabilities. split.
  - apply length_map.
  - apply Forall_forall. intros v Hv.
    apply list_elem_of_fmap in Hv as (h & -> & _). reflexivity.
Qed.

Lemma critical_effective event code :
  critical (event, code) = true
  <-> mem (lower event) high_risk_events = true
      /\ existsb (fun danger => contains danger (lower code)) effective_dangers
         = true.
Proof.
  unfold critical, dangers, effective_dangers. simpl existsb.
  rewrite (contains_lower_H_innerHTML code).
  rewrite andb_true_iff.
  destruct (contains "eval(" (lower code)),
           (contains "function(" (lower code)),
           (contains "document.write" (lower code)),
           (contains "location" (lower code)); simpl; tauto.
Qed.


Lemma find_critical_some handlers :
  is_Some (critical_reason handlers)
  <-> exists event code,
        In (event, code) handlers /\ critical (event, code) = true.
Proof.
  unfold critical_reason. split.
  - destruct (List.find critical handlers) as [[event code]|] eqn:F.
    + intros _. apply find_some in F as [Hin Hc]. now exists event, code.
    + intros [x Hx]. discriminate.
  - intros (event & code & Hin & Hc).
    destruct (List.find critical handlers) as [[e c]|] eqn:F; [eauto|].
    pose proof (find_none _ _ F _ Hin) as Hn. congruence.
Qed.

(** what the pass does: [Alto] exactly when a handler of a high-risk
    event has a lowered code that holds one of the lower-case markers *)
Lemma event_severity url screenshot_path handler :
  let v := event_vulnerability url screenshot_path handler in
  (severity v = Alto \/ severity v = Medio)
  /\ (severity v = Alto
      <-> exists event code,
            In (event, code) (eh_handlers handler)
            /\ mem (lower event) high_risk_events = true
            /\ existsb (fun danger => contains danger (lower code))
                        effective_dangers = true).
Proof.
  unfold event_vulnerability; cbn [severity].
  pose proof (find_critical_some (eh_handlers handler)) as Hc.
  destruct (critical_reason (eh_handlers handler)) as [reason|].
  - rewrite bool_decide_eq_true_2 by eauto.
    split; [now left|]. split; [intros _|reflexivity].
    destruct (proj1 Hc) as (event & code & Hin & Hcrit); [eauto|].
    exists event, code. split; [exact Hin|]. now apply critical_effective.
  - rewrite bool_decide_eq_false_2 by (intros [? ?]; discriminate).
    split; [now right|]. split; [intros H; symmetry in H; now apply Alto_not_Medio in H|].
    intros (event & code & Hin & He & Hd). exfalso.
    destruct (proj2 Hc) as [x Hx]; [|discriminate].
    exists event, code. split; [exact Hin|]. now apply critical_effective.
Qed.

(** C3, at the failing input. The markup [<div id=box onclick=...>]
    whose handler assigns to [innerHTML] gives one binding; [onclick] is a
    high-risk event and the code holds the marker [innerHTML]; the pass
    yields the binding's one record with severity [Medio], because the
    marker is looked for in the lowered code. *)
Theorem innerHTML_handler_graded_Medio :
  let soup :=
    [Element "div" [("id", AttrStr "box");
                    ("onclick", AttrStr "el.innerHTML = x")] []] in
  let html_analysis :=
    {| inputs := []; event_handlers := _analyze_event_handlers soup;
       inline_scripts := []; suspicious_patterns := []; links := [];
       base_url := None |} in
  map eh_handlers (event_handlers html_analysis)
  = [[("onclick", "el.innerHTML = x")]]
  /\ mem "onclick" high_risk_events = true
  /\ contains "innerHTML" "el.innerHTML = x" = true
  /\ map (fun v => (vtype v, subtype v, severity v))
        (_find_event_vulnerabilities "http://h/" html_analysis
           (ScriptAnalyzer.analyze []) None)
     = [("event_handler_xss", "suspicious_handler", Medio)].
Proof. repeat split. Qed.

(** *** The script pass *)

(** C1, at the failing input. A script that matches three high-risk
    signatures gets the level [high]; the entries of its
    [dangerous_functions] have no key [context], the pass raises
    [KeyError] on the first of them, and [analyze] returns no finding at
    all for the page. *)
Theorem high_risk_script_raises_KeyError :
  let scripts :=
    [mk_script (Some "inline") None
       (Some "eval(a); document.write(b); x.innerHTML = c;")] in
  (exists verdict,
      script_analysis (ScriptAnalyzer.analyze scripts) = [verdict]
      /\ risk_level verdict = "high" /\ risk_score verdict = 75%Z
      /\ obfuscation_detected verdict = false)
  /\ (forall url html_analysis screenshot_path,
         _find_script_vulnerabilities url html_analysis
           (ScriptAnalyzer.analyze scripts) screenshot_path
         = Raise (KeyError "context"))
  /\ (forall image path_exists imread dimensions detect parse url html path,
         XSSDetector.analyze image path_exists imread dimensions detect parse
           (mk_page_data url html scripts path)
         = []).
Proof.
  intros scripts. split; [|split].
  - eexists. repeat split.
  - reflexivity.
  - reflexivity.
Qed.


Lemma scan_head risk set content :
  scan risk set content = []
  \/ exists f rest, scan risk set content = f :: rest
                    /\ df_risk f = risk /\ df_context f = None.
Proof.
  induction set as [|p set IH]; simpl; [now left|].
  destruct (Re.finditer (Re.atoms p) content); [exact IH|].
  right. eexists _, _. repeat split.
Qed.

(** the defect in general: the pass raises on every verdict of the
    analyzer that has the level [high] and a high-risk signature *)
Lemma high_verdict_with_high_risk_signature_raises url screenshot_path content i
  vulnerabilities :
  let verdict := _analyze_script_simplified content i in
  risk_level verdict = "high" ->
  ScoringRule.signatures_matched high_risk content <> 0%Z ->
  script_step url screenshot_path vulnerabilities verdict
  = Raise (KeyError "context").
Proof.
  intros verdict Hlevel Hhigh. unfold script_step. rewrite Hlevel. simpl String.eqb.
  cbv iota. unfold high_risk_script, key_issues_of.
  assert (Hd : exists f rest, dangerous_functions verdict = f :: rest
                              /\ df_risk f = "high" /\ df_context f = None).
  { unfold verdict, _analyze_script_simplified; cbn [dangerous_functions].
    destruct (high_risk_matches content) eqn:E.
    - apply ScriptAnalyzerProps.high_risk_matches_nil in E. contradiction.
    - destruct (scan_head "high" high_risk content) as [Hnil|H]; [|exact H].
      exfalso. apply Hhigh. unfold ScoringRule.signatures_matched.
      rewrite <- (ScriptAnalyzerProps.scan_length "high"), Hnil. reflexivity. }
  destruct Hd as (f & rest & -> & Hrisk & Hctx).
  simpl. unfold function_issue at 1. rewrite Hrisk, Hctx. reflexivity.
Qed.

(** a verdict reaches the level [high] without a high-risk signature
    only with the five medium-risk signatures and obfuscation; that one
    is reported, with no key issue *)
Example high_verdict_of_medium_signatures :
  let content :=
    "$.ajax(u); fetch(u); new XMLHttpRequest(); i.src = u; document.createElement(t); atob(s)" in
  let verdict := _analyze_script_simplified content 0 in
  risk_level verdict = "high"
  /\ exists v key_issues_evidence,
       script_step "http://h/" None [] verdict = Ok [v]
       /\ vtype v = "script_xss" /\ subtype v = "obfuscated_script"
       /\ severity v = Alto
       /\ finding v = HighScriptFinding "script_0" 70 [] key_issues_evidence.
Proof. split; [reflexivity|]. eexists _, _. repeat split. Qed.

Lemma function_issues_length functions : forall acc issues,
  for_each functions function_issue acc = Ok issues ->
  List.length issues <= List.length acc + List.length functions.
Proof.
  induction functions as [|f functions IH]; intros acc issues; simpl.
  - intros [= <-]. lia.
  - unfold function_issue at 1.
    destruct (String.eqb (df_risk f) "high").
    + destruct (df_context f) as [context|]; simpl; [|discriminate].
      intros H. apply IH in H. rewrite length_app in H. simpl in H. lia.
    + simpl. intros H. apply IH in H. lia.
Qed.

(** where the keys that the pass reads are present, a verdict of level
    [high] is reported once, with severity [Alto] and the subtype of
    [subtype_of]; at most three of its key issues mention functions *)
Lemma high_verdict_reported_when_keys_present url screenshot_path
  vulnerabilities script issues :
  risk_level script = "high" ->
  key_issues_of script = Ok issues ->
  exists v evidence,
    script_step url screenshot_path vulnerabilities script
    = Ok (vulnerabilities ++ [v])
    /\ vtype v = "script_xss" /\ severity v = Alto
    /\ subtype v = subtype_of script
    /\ finding v = HighScriptFinding (id script) (risk_score script) issues
                     evidence
    /\ exists mentions,
         for_each (List.firstn 3 (dangerous_functions script)) function_issue []
         = Ok mentions
         /\ List.length mentions <= 3.
Proof.
  intros Hl Hk. unfold script_step, high_risk_script. rewrite Hl, Hk. simpl.
  eexists _, _. repeat split.
  unfold key_issues_of in Hk.
  destruct (for_each (List.firstn 3 (dangerous_functions script))
              function_issue []) as [mentions|e] eqn:E; [|discriminate].
  exists mentions. split; [reflexivity|].
  apply function_issues_length in E. simpl in E.
  pose proof (firstn_le_length 3 (dangerous_functions script)). lia.
Qed.

(** the branch of the medium level *)
Lemma medium_verdict_reported url screenshot_path vulnerabilities script :
  risk_level script = "medium" ->
  (60 <= risk_score script)%Z ->
  exists v,
    script_step url screenshot_path vulnerabilities script
    = Ok (vulnerabilities ++ [v])
    /\ vtype v = "script_xss" /\ severity v = Medio.
Proof.
  intros Hl Hs. unfold script_step. rewrite Hl. simpl String.eqb. cbv iota.
  apply Z.leb_le in Hs. rewrite Hs. simpl.
  eexists. repeat split.
Qed.

(** *** Severities *)

Lemma for_each_script_graded url screenshot_path scripts : forall acc found,
  Forall graded acc ->
  for_each scripts (script_step url screenshot_path) acc = Ok found ->
  Forall graded found.
Proof.
  induction scripts as [|script scripts IH]; intros acc found Hacc; simpl.
  - now intros [= <-].
  - unfold script_step at 1.
    destruct (String.eqb (risk_level script) "high").
    + destruct (high_risk_script url screenshot_path script) as [v|e] eqn:E;
        simpl; [|discriminate].
      apply IH. apply Forall_app. split; [exact Hacc|].
      constructor; [|constructor]. apply graded_Alto.
      unfold high_risk_script in E.
      destruct (key_issues_of script); simpl in E; [|discriminate].
      now injection E as <-.
    + destruct (String.eqb (risk_level script) "medium"
                && (60 <=? risk_score script)%Z); simpl.
      * apply IH. apply Forall_app. split; [exact Hacc|].
        constructor; [|constructor]. now apply graded_Medio.
      * now apply IH.
Qed.

Lemma Forall_map_graded {A : Type} (f : A -> vulnerability_record) (l : list A) :
  (forall a, graded (f a)) -> Forall graded (map f l).
Proof.
  intros H. apply Forall_forall. intros v Hv.
  apply list_elem_of_fmap in Hv as (a & -> & _). apply H.
Qed.

Lemma input_pass_graded url visual_analysis html_analysis script_analysis
  screenshot_path :
  Forall graded
    (_find_input_vulnerabilities url visual_analysis html_analysis
       script_analysis screenshot_path).
Proof.
  unfold _find_input_vulnerabilities. destruct visual_analysis as [visual|].
  - apply Forall_forall. intros v Hv.
    apply list_elem_of_In, in_concat in Hv as (l1 & Hl1 & Hv).
    apply in_map_iff in Hl1 as (visual_input & <- & _).
    apply in_concat in Hv as (l2 & Hl2 & Hv).
    apply in_map_iff in Hl2 as (html_input & <- & _).
    unfold correlated_input in Hv.
    destruct (in_suspicious html_input || _); [|destruct Hv].
    destruct Hv as [<-|[]].
    destruct (bool_decide _); [now apply graded_Alto | now apply graded_Medio].
  - apply Forall_map_graded. intros a. now apply graded_Medio.
Qed.

Lemma event_pass_graded url html_analysis script_analysis screenshot_path :
  Forall graded
    (_find_event_vulnerabilities url html_analysis script_analysis
       screenshot_path).
Proof.
  apply Forall_map_graded. intros h. unfold event_vulnerability.
  destruct (bool_decide _); [now apply graded_Alto | now apply graded_Medio].
Qed.

Lemma script_pass_graded url html_analysis script_analysis screenshot_path :
  Forall graded
    (produced (_find_script_vulnerabilities url html_analysis script_analysis
                 screenshot_path)).
Proof.
  unfold _find_script_vulnerabilities.
  destruct (for_each _ _ _) as [found|e] eqn:E; simpl; [|constructor].
  apply Forall_app. split.
  - eapply for_each_script_graded; [|exact E]. constructor.
  - apply Forall_map_graded. intros a. now apply graded_Medio.
Qed.

Lemma url_pass_graded url html_analysis script_analysis screenshot_path :
  Forall graded
    (_find_url_vulnerabilities url html_analysis script_analysis
       screenshot_path).
Proof.
  unfold _find_url_vulnerabilities. apply Forall_app. split;
    apply Forall_map_graded; intros a; now apply graded_Medio.
Qed.

Lemma correlate_graded url visual_analysis html_analysis script_analysis
  screenshot_path :
  Forall graded
    (produced (_correlate_analyses url visual_analysis html_analysis
                 script_analysis screenshot_path)).
Proof.
  pose proof (input_pass_graded url visual_analysis html_analysis
                script_analysis screenshot_path) as Hi.
  pose proof (event_pass_graded url html_analysis script_analysis
                screenshot_path) as He.
  pose proof (script_pass_graded url html_analysis script_analysis
                screenshot_path) as Hs.
  pose proof (url_pass_graded url html_analysis script_analysis
                screenshot_path) as Hu.
  unfold _correlate_analyses.
  destruct (_find_script_vulnerabilities url html_analysis script_analysis
              screenshot_path); simpl; [|constructor].
  simpl in Hs.
  apply Forall_app; split; [exact Hi|].
  apply Forall_app; split; [exact He|].
  apply Forall_app; split; [exact Hs | exact Hu].
Qed.

(** C10. Every record that one of the four passes produces, and so
    every record of the synthesizer and of [analyze], has the severity
    [Alto] or [Medio]; [Baixo] and [Informativo] are never emitted. *)
Theorem severity_is_Alto_or_Medio :
  forall url visual_analysis html_analysis script_analysis screenshot_path,
    Forall graded
      (_find_input_vulnerabilities url visual_analysis html_analysis
         script_analysis screenshot_path)
    /\ Forall graded
         (_find_event_vulnerabilities url html_analysis script_analysis
            screenshot_path)
    /\ Forall graded
         (produced (_find_script_vulnerabilities url html_analysis
                      script_analysis screenshot_path))
    /\ Forall graded
         (_find_url_vulnerabilities url html_analysis script_analysis
            screenshot_path)
    /\ Forall graded
         (produced (_correlate_analyses url visual_analysis html_analysis
                      script_analysis screenshot_path))
    /\ (forall image path_exists imread dimensions detect parse page,
           Forall graded
             (XSSDetector.analyze image path_exists imread dimensions detect
                parse page)).
Proof.
  intros url visual html scripts path.
  split; [apply input_pass_graded|].
  split; [apply event_pass_graded|].
  split; [apply script_pass_graded|].
  split; [apply url_pass_graded|].
  split; [apply correlate_graded|].
  intros. unfold XSSDetector.analyze. apply correlate_graded.
Qed.


(** *** The input-surface pass without visual findings *)

Lemma html_only_pass url html_analysis script_analysis screenshot_path :
  let found := _find_input_vulnerabilities url None html_analysis
                 script_analysis screenshot_path in
  found = map (html_only_input url screenshot_path)
            (List.filter in_suspicious (inputs html_analysis))
  /\ Forall (fun v => vtype v = "input_xss" /\ severity v = Medio) found
  /\ (forall input_elem,
        In input_elem (inputs html_analysis) ->
        in_suspicious input_elem = true ->
        exists v, In v found
                  /\ vtype v = "input_xss" /\ severity v = Medio
                  /\ finding v = InputFinding (in_tag input_elem)
                                   (in_id input_elem) (in_name input_elem)
                                   input_elem).
Proof.
  simpl. split; [reflexivity|]. split.
  - apply Forall_forall. intros v Hv.
    apply list_elem_of_fmap in Hv as (a & -> & _). now split.
  - intros input_elem Hin Hs.
    exists (html_only_input url screenshot_path input_elem).
    split; [|repeat split].
    apply in_map, filter_In. now split.
Qed.

(** C8. When the screenshot path names no file, or a file that cannot
    be read as an image, the field detector returns [None]; the facade
    then has no visual findings, the input-surface pass takes its first
    branch, and every input, textarea or select that the HTML analysis
    marked suspicious yields an [input_xss] record of severity [Medio]. *)
Theorem missing_screenshot_keeps_html_findings :
  forall (image : Type) (path_exists : string -> bool)
    (imread : string -> option image) (dimensions : image -> Z * Z)
    (detect : image -> option (list input_field)) (path : string),
    path_exists path = false \/ imread path = None ->
    VisualAnalyzer.analyze image path_exists imread dimensions detect path = None
    /\ visual_of image path_exists imread dimensions detect (Some path) = None
    /\ forall url html_analysis script_analysis,
        let found :=
          _find_input_vulnerabilities url
            (visual_of image path_exists imread dimensions detect (Some path))
            html_analysis script_analysis (Some path) in
        found = map (html_only_input url (Some path))
                  (List.filter in_suspicious (inputs html_analysis))
        /\ Forall (fun v => vtype v = "input_xss" /\ severity v = Medio) found
        /\ (forall input_elem,
              In input_elem (inputs html_analysis) ->
              in_suspicious input_elem = true ->
              exists v, In v found
                        /\ vtype v = "input_xss" /\ severity v = Medio
                        /\ finding v = InputFinding (in_tag input_elem)
                                         (in_id input_elem)
                                         (in_name input_elem) input_elem).
Proof.
  intros image path_exists imread dimensions detect path Hmissing.
  assert (Ha : VisualAnalyzer.analyze image path_exists imread dimensions
                 detect path = None).
  { unfold VisualAnalyzer.analyze.
    destruct Hmissing as [-> | Hread]; [reflexivity|].
    rewrite Hread. now destruct (negb (path_exists path)). }
  assert (Hv : visual_of image path_exists imread dimensions detect (Some path)
               = None).
  { unfold visual_of. rewrite Ha. now destruct (nonempty path && path_exists path). }
  split; [exact Ha|]. split; [exact Hv|].
  intros url html_analysis script_analysis. rewrite Hv.
  apply html_only_pass.
Qed.

Lemma missing_screenshot_keeps_html_findings_witness :
  let suspicious_input :=
    {| in_tag := "input"; in_type := Some "text"; in_name := "q";
       in_id := "q"; in_value := Some EmptyString; in_options := None;
       in_attributes := [("onload", AttrStr "eval(x)")];
       in_suspicious := true;
       in_xss_vector := Some "Event handler: onload=eval(x)";
       in_parent_form := false |} in
  let html_analysis :=
    {| inputs := [suspicious_input]; event_handlers := [];
       inline_scripts := []; suspicious_patterns := []; links := [];
       base_url := None |} in
  exists v,
    In v (_find_input_vulnerabilities "http://h/"
            (visual_of unit (fun _ => false) (fun _ => None)
               (fun _ => (0, 0)%Z) (fun _ => Some []) (Some "shots/none.png"))
            html_analysis (ScriptAnalyzer.analyze []) (Some "shots/none.png"))
    /\ vtype v = "input_xss" /\ severity v = Medio
    /\ finding v = InputFinding "input" "q" "q" suspicious_input.
Proof.
  intros suspicious_input html_analysis.
  refine (proj2 (proj2
    (proj2 (proj2
      (missing_screenshot_keeps_html_findings unit (fun _ => false)
         (fun _ => None) (fun _ => (0, 0)%Z) (fun _ => Some [])
         "shots/none.png" (or_introl eq_refl)))
       "http://h/" html_analysis (ScriptAnalyzer.analyze [])))
    suspicious_input _ eq_refl).
  simpl. now left.
Defined.

(** *** The standalone report *)

Lemma filter_none {A : Type} (f : A -> bool) (l : list A) :
  Forall (fun a => f a = false) l -> List.filter f l = [].
Proof.
  induction 1 as [|a l Ha _ IH]; simpl; [reflexivity|]. now rewrite Ha.
Qed.

Lemma concat_map_nil {A B : Type} (f : A -> list B) (l : list A) :
  (forall a, In a l -> f a = []) -> List.concat (map f l) = [].
Proof.
  induction l as [|a l IH]; intros H; simpl; [reflexivity|].
  rewrite (H a) by now left. apply IH. intros b Hb. apply H. now right.
Qed.

Lemma no_dangerous_usage input_id input_name script_results :
  Forall unflagged script_results ->
  dangerous_usage_of input_id input_name script_results = None.
Proof.
  unfold dangerous_usage_of. intros H.
  induction H as [|r l (_ & _ & Hr) _ IH]; simpl; [reflexivity|].
  now rewrite Hr.
Qed.

Lemma for_each_unflagged url screenshot_path script_results :
  Forall unflagged script_results ->
  forall acc,
    for_each script_results (script_step url screenshot_path) acc = Ok acc.
Proof.
  induction 1 as [|r l (Hh & Hm & _) _ IH]; intros acc; simpl; [reflexivity|].
  unfold script_step at 1.
  destruct (String.eqb_spec (risk_level r) "high") as [E|_]; [contradiction|].
  destruct (String.eqb_spec (risk_level r) "medium") as [E|_]; simpl.
  - specialize (Hm E). apply Z.leb_gt in Hm. rewrite Hm. simpl. apply IH.
  - apply IH.
Qed.

(** a quiet page with unflagged scripts yields no finding *)
Lemma quiet_page_no_findings url visual_analysis html_analysis script_analysis
  screenshot_path :
  quiet html_analysis ->
  Forall unflagged (script_analysis.(ScriptAnalyzer.script_analysis)) ->
  _correlate_analyses url visual_analysis html_analysis script_analysis
    screenshot_path = Ok [].
Proof.
  intros (Hi & He & Hs & Hp & Hl) Hu.
  unfold _correlate_analyses, _find_script_vulnerabilities,
    _find_event_vulnerabilities, _find_url_vulnerabilities.
  rewrite (for_each_unflagged _ _ _ Hu). simpl.
  rewrite He, Hp, (filter_none _ _ Hs), (filter_none _ _ Hl). simpl.
  rewrite app_nil_r. f_equal.
  unfold _find_input_vulnerabilities. destruct visual_analysis as [visual|].
  - apply concat_map_nil. intros visual_input _.
    apply concat_map_nil. intros html_input Hin.
    unfold correlated_input. rewrite (no_dangerous_usage _ _ _ Hu).
    assert (Hsus : in_suspicious html_input = false).
    { unfold _find_matching_html_elements in Hin.
      destruct (String.eqb _ _); [apply filter_In in Hin as [Hin _]|];
        eapply (proj1 (Forall_forall _ _)) in Hi; eauto;
        now apply list_elem_of_In. }
    rewrite Hsus. reflexivity.
  - now rewrite (filter_none _ _ Hi).
Qed.

(** C9. Called with an empty list, [generate_report] returns [None]
    and leaves the file system as it found it: no directory is made and
    no file is written.  So it is for the findings of a page without
    suspicious inputs, event handlers, flagged scripts, suspicious links
    or raw matches: the page yields the empty list. *)
Theorem generate_report_empty_writes_nothing :
  forall (world : Type) (makedirs : string -> world -> world)
    (write_file : string -> string -> world -> world)
    (json_dumps : report_data -> string) (now output_path : string)
    (w : world),
    generate_report world makedirs write_file json_dumps now [] output_path w
    = (w, None)
    /\ forall image path_exists imread dimensions detect parse page,
        quiet (parse (page_html page) (page_url page)) ->
        Forall unflagged
          (ScriptAnalyzer.script_analysis
             (ScriptAnalyzer.analyze (page_scripts page))) ->
        XSSDetector.analyze image path_exists imread dimensions detect parse
          page = []
        /\ generate_report world makedirs write_file json_dumps now
             (XSSDetector.analyze image path_exists imread dimensions detect
                parse page) output_path w
           = (w, None).
Proof.
  intros world makedirs write_file json_dumps now output_path w.
  split; [reflexivity|].
  intros image path_exists imread dimensions detect parse page Hq Hu.
  assert (Ha : XSSDetector.analyze image path_exists imread dimensions detect
                 parse page = []).
  { unfold XSSDetector.analyze.
    now rewrite (quiet_page_no_findings _ _ _ _ _ Hq Hu). }
  split; [exact Ha|]. now rewrite Ha.
Qed.

Lemma generate_report_empty_writes_nothing_witness :
  let page :=
    mk_page_data "http://h/" "<p>hello</p>"
      [mk_script (Some "inline") None (Some "var n = 1; fetch(u);")]
      None in
  let parse := fun _ _ : string => mk_html_analysis [] [] [] [] [] None in
  generate_report (list (string * string)) (fun _ w => w)
    (fun path text w => (path, text) :: w) (fun _ => "{}") "2024-01-01 00:00:00"
    (XSSDetector.analyze unit (fun _ => false) (fun _ => None)
       (fun _ => (0, 0)%Z) (fun _ => Some []) parse page)
    "reports/out.json" []
  = ([], None).
Proof.
  intros page parse.
  refine (proj2 (proj2
    (generate_report_empty_writes_nothing (list (string * string))
       (fun _ w => w) (fun path text w => (path, text) :: w) (fun _ => "{}")
       "2024-01-01 00:00:00" "reports/out.json" [])
    unit (fun _ => false) (fun _ => None) (fun _ => (0, 0)%Z)
    (fun _ => Some []) parse page _ _)).
  - repeat split; constructor.
  - constructor; [|constructor].
    split; [discriminate|]. split; [intros H; discriminate H | reflexivity].
Defined.

(** with a finding the report is written, to the given path *)
Lemma generate_report_writes world makedirs write_file json_dumps now v rest
  output_path (w : world) :
  exists text directory,
    generate_report world makedirs write_file json_dumps now (v :: rest)
      output_path w
    = (write_file output_path text (makedirs directory w), Some output_path).
Proof. eexists _, _. reflexivity. Qed.

End XSSDetectorProps.

(** ** Deduplication *)

Module ReportGeneratorProps.
Import XSSDetector ReportGenerator.

(** a list deduplicated against [seen] has nothing left to remove, also
    for a smaller [seen'] *)
Lemma dedup_loop_again vulnerabilities :
  forall seen seen' : gset (string * string * string),
    seen' ⊆ seen ->
    dedup_loop seen' (dedup_loop seen vulnerabilities)
    = dedup_loop seen vulnerabilities.
Proof.
  induction vulnerabilities as [|vuln rest IH]; intros seen seen' Hsub;
    [reflexivity|].
  simpl. destruct (decide (key vuln ∈ seen)) as [Hin|Hout].
  - now apply IH.
  - simpl. destruct (decide (key vuln ∈ seen')) as [Hin'|_].
    + exfalso. apply Hout, Hsub, Hin'.
    + f_equal. apply IH. apply union_mono_l, Hsub.
Qed.

Lemma dedup_loop_sublist vulnerabilities :
  forall seen, sublist (dedup_loop seen vulnerabilities) vulnerabilities.
Proof.
  induction vulnerabilities as [|vuln rest IH]; intros seen; simpl.
  - constructor.
  - destruct (decide (key vuln ∈ seen)).
    + apply sublist_cons, IH.
    + apply sublist_skip, IH.
Qed.

(** what survives: no key twice, none of the keys already seen *)
Lemma dedup_loop_keys vulnerabilities :
  forall seen,
    NoDup (map key (dedup_loop seen vulnerabilities))
    /\ (forall v, v ∈ dedup_loop seen vulnerabilities -> key v ∉ seen).
Proof.
  induction vulnerabilities as [|vuln rest IH]; intros seen; simpl.
  - split; [constructor | intros v Hv; inversion Hv].
  - destruct (decide (key vuln ∈ seen)) as [Hin|Hout]; [apply IH|].
    destruct (IH ({[key vuln]} ∪ seen)) as [Hnd Hfresh].
    split.
    + simpl. constructor; [|exact Hnd].
      intros Hk. apply list_elem_of_fmap in Hk as (v & Hkv & Hv).
      apply Hfresh in Hv. apply Hv, elem_of_union_l, elem_of_singleton.
      now symmetry.
    + intros v Hv. apply elem_of_cons in Hv as [->|Hv]; [exact Hout|].
      apply Hfresh in Hv. intros Hs. apply Hv, elem_of_union_r, Hs.
Qed.

(** every key of the input is still represented *)
Lemma dedup_loop_covers vulnerabilities :
  forall seen v,
    v ∈ vulnerabilities ->
    key v ∈ seen
    \/ exists v', v' ∈ dedup_loop seen vulnerabilities /\ key v' = key v.
Proof.
  induction vulnerabilities as [|vuln rest IH]; intros seen v Hv.
  - inversion Hv.
  - simpl. apply elem_of_cons in Hv as [->|Hv].
    + destruct (decide (key vuln ∈ seen)); [now left|].
      right. exists vuln. split; [apply list_elem_of_here | reflexivity].
    + destruct (decide (key vuln ∈ seen)) as [Hin|Hout]; [now apply IH|].
      destruct (IH ({[key vuln]} ∪ seen) v Hv) as [Hk|(v' & Hv' & Hk)].
      * apply elem_of_union in Hk as [Hk|Hk]; [|now left].
        apply elem_of_singleton in Hk.
        right. exists vuln. split; [apply list_elem_of_here | now symmetry].
      * right. exists v'. split; [now apply list_elem_of_further | exact Hk].
Qed.

(** C7. Deduplication by the key (url, type, description) is
    idempotent, and what survives is a subsequence of the input: the
    surviving records keep their relative order. *)
Theorem deduplicate_idempotent_and_stable :
  forall vulnerabilities : list vulnerability_record,
    _deduplicate_vulnerabilities (_deduplicate_vulnerabilities vulnerabilities)
    = _deduplicate_vulnerabilities vulnerabilities
    /\ sublist (_deduplicate_vulnerabilities vulnerabilities) vulnerabilities.
Proof.
  intros vulnerabilities. split.
  - now apply dedup_loop_again.
  - apply dedup_loop_sublist.
Qed.

(** the survivors have pairwise different keys and represent every key
    of the input *)
Lemma deduplicate_keys (vulnerabilities : list vulnerability_record) :
  NoDup (map key (_deduplicate_vulnerabilities vulnerabilities))
  /\ (forall v, v ∈ vulnerabilities ->
        exists v', v' ∈ _deduplicate_vulnerabilities vulnerabilities
                   /\ key v' = key v).
Proof.
  split.
  - apply dedup_loop_keys.
  - intros v Hv.
    destruct (dedup_loop_covers vulnerabilities ∅ v Hv) as [Hk|H];
      [set_solver | exact H].
Qed.

End ReportGeneratorProps.

(** ** Slices and context windows *)

Module PySliceProps.
Import PyStr PySlice.
#[local] Arguments String.append !_ _ / : simpl nomatch.

Lemma length_append (a b : string) :
  String.length (a +:+ b) = String.length a + String.length b.
Proof. induction a as [|c a IH]; simpl; [reflexivity | now rewrite IH]. Qed.

Lemma length_take n : forall s,
  String.length (take n s) = Nat.min n (String.length s).
Proof.
  induction n as [|n IH]; intros [|c s]; simpl; try reflexivity.
  now rewrite IH.
Qed.

Lemma length_drop n : forall s,
  String.length (drop n s) = String.length s - n.
Proof.
  induction n as [|n IH]; intros [|c s]; simpl; try reflexivity; try lia.
  apply IH.
Qed.

Lemma take_drop n : forall s, take n s +:+ drop n s = s.
Proof.
  induction n as [|n IH]; intros [|c s]; simpl; try reflexivity.
  now rewrite IH.
Qed.

Lemma drop_drop a : forall b s, drop b (drop a s) = drop (a + b) s.
Proof.
  induction a as [|a IH]; intros b s; simpl.
  - now destruct s.
  - destruct s as [|c s]; simpl; [now destruct b | apply IH].
Qed.

Lemma take_all n s : String.length s <= n -> take n s = s.
Proof.
  revert s. induction n as [|n IH]; intros [|c s]; simpl; try reflexivity; try lia.
  intros H. rewrite IH; [reflexivity | lia].
Qed.

(** a text cut at [a], [a + b] and [a + b + c] *)
Lemma cut_in_four a b c s :
  s = take a s +:+ (take b (drop a s)
                    +:+ (take c (drop (a + b) s) +:+ drop (a + b + c) s)).
Proof.
  rewrite <- (drop_drop (a + b) c), take_drop.
  rewrite <- (drop_drop a b), take_drop.
  now rewrite take_drop.
Qed.

Lemma clamp_inside i n : (0 <= i <= n)%Z -> clamp i n = i.
Proof.
  intros H. unfold clamp. destruct (Z.ltb_spec i 0); lia.
Qed.

(** a slice between two indices in range *)
Lemma slice_inside a b s :
  (0 <= a <= len s)%Z -> (0 <= b <= len s)%Z ->
  slice a b s = take (Z.to_nat b - Z.to_nat a) (drop (Z.to_nat a) s).
Proof.
  intros Ha Hb. unfold slice. rewrite !clamp_inside by assumption.
  f_equal. lia.
Qed.

Lemma nonempty_length s : s = EmptyString <-> String.length s = 0.
Proof. destruct s; simpl; split; congruence. Qed.

End PySliceProps.

Module MarkupScanProps.
Import PyStr PySlice PySliceProps HTMLParser MarkupScan.
#[local] Arguments String.append !_ _ / : simpl nomatch.

(** X1. For a position inside the text, [_get_context] cuts the text
    in four, [left ++ before ++ after ++ right] with [before] ending at
    the position, and returns [before], the marker and [after]:
    [before] and [after] have [context_size] characters unless the text
    ends sooner, and the dots stand exactly where [left] or [right] is
    not empty. *)
Theorem get_context_window :
  forall (text : string) (position context_size : Z),
    (0 <= position <= len text)%Z ->
    (0 <= context_size)%Z ->
    exists left before after right : string,
      text = left +:+ (before +:+ (after +:+ right))
      /\ len (left +:+ before) = position
      /\ len before = Z.min position context_size
      /\ len after = Z.min context_size (len text - position)
      /\ _get_context text position context_size
         = (if nonempty left then "..." else EmptyString)
           +:+ before +:+ "<HERE>" +:+ after
           +:+ (if nonempty right then "..." else EmptyString).
Proof.
  intros text position k Hp Hk.
  set (p := Z.to_nat position). set (n := String.length text).
  set (b := Nat.min p (Z.to_nat k)). set (c := Nat.min (Z.to_nat k) (n - p)).
  assert (Hn : len text = Z.of_nat n) by reflexivity.
  exists (take (p - b) text), (take b (drop (p - b) text)),
         (take c (drop p text)), (drop (p + c) text).
  assert (Hlb : String.length (take b (drop (p - b) text)) = b).
  { rewrite length_take, length_drop. lia. }
  assert (Hlc : String.length (take c (drop p text)) = c).
  { rewrite length_take, length_drop. lia. }
  assert (Hll : String.length (take (p - b) text) = p - b).
  { rewrite length_take. lia. }
  split; [|split; [|split; [|split]]].
  - pose proof (cut_in_four (p - b) b c text) as H.
    replace (p - b + b) with p in H by lia. exact H.
  - unfold len. rewrite length_append, Hll, Hlb. lia.
  - unfold len. rewrite Hlb. lia.
  - unfold len. rewrite Hlc. fold n. lia.
  - unfold _get_context.
    rewrite (slice_inside (Z.max 0 (position - k)) position text) by lia.
    rewrite (slice_inside position (Z.min (len text) (position + k)) text) by lia.
    replace (Z.to_nat (Z.max 0 (position - k))) with (p - b) by lia.
    replace (Z.to_nat position - (p - b)) with b by lia.
    replace (Z.to_nat (Z.min (len text) (position + k)) - Z.to_nat position)
      with c by lia.
    fold p.
    replace (0 <? Z.max 0 (position - k))%Z
      with (nonempty (take (p - b) text)).
    2:{ destruct (take (p - b) text) eqn:E; simpl in *.
        - symmetry. apply Z.ltb_ge. lia.
        - symmetry. apply Z.ltb_lt. lia. }
    replace (Z.min (len text) (position + k) <? len text)%Z
      with (nonempty (drop (p + c) text)).
    2:{ pose proof (length_drop (p + c) text) as Hd.
        destruct (drop (p + c) text) eqn:E; simpl in *.
        - symmetry. apply Z.ltb_ge. lia.
        - symmetry. apply Z.ltb_lt. lia. }
    reflexivity.
Qed.

Lemma get_context_window_witness :
  exists left before after right : string,
    "<p><a href='javascript:x()'>go</a></p>"
    = left +:+ (before +:+ (after +:+ right))
    /\ len (left +:+ before) = 12%Z
    /\ len before = Z.min 12 5
    /\ len after
       = Z.min 5 (len "<p><a href='javascript:x()'>go</a></p>" - 12)
    /\ _get_context "<p><a href='javascript:x()'>go</a></p>" 12 5
       = (if nonempty left then "..." else EmptyString)
         +:+ before +:+ "<HERE>" +:+ after
         +:+ (if nonempty right then "..." else EmptyString).
Proof.
  apply (get_context_window "<p><a href='javascript:x()'>go</a></p>" 12 5);
    [split; vm_compute; discriminate | vm_compute; discriminate].
Defined.


(** *** Raw matches *)

Lemma excerpt_short group :
  String.length group <= 100 -> excerpt group = group.
Proof.
  intros H. unfold excerpt, len.
  destruct (Z.ltb_spec 100 (Z.of_nat (String.length group))); [lia|].
  rewrite take_all by exact H. apply ReProps.append_nil_r.
Qed.

Lemma excerpt_long group :
  100 < String.length group -> excerpt group = take 100 group +:+ "...".
Proof.
  intros H. unfold excerpt, len.
  destruct (Z.ltb_spec 100 (Z.of_nat (String.length group))); [reflexivity | lia].
Qed.

Lemma excerpt_length group : String.length (excerpt group) <= 103.
Proof.
  destruct (Nat.le_gt_cases (String.length group) 100) as [H|H].
  - rewrite excerpt_short by exact H. lia.
  - rewrite excerpt_long by exact H.
    rewrite length_append, length_take.
    change (String.length "...") with 3. lia.
Qed.

(** X2. Whatever the matches of the signatures are, every raw-match
    record quotes its match in at most 103 characters: the match itself
    when it has at most 100 characters, and else its first 100 characters
    followed by three dots; and it keeps the span of the match. *)
Theorem raw_match_excerpt_bounded :
  forall (finditer : string -> string -> list (string * (nat * nat)))
    (html : string) (r : pattern_match),
    In r (_find_suspicious_patterns finditer html) ->
    exists pattern group span,
      In pattern xss_patterns
      /\ In (group, span) (finditer pattern html)
      /\ pm_pattern r = pattern /\ pm_position r = span
      /\ String.length (pm_match r) <= 103
      /\ (String.length group <= 100 -> pm_match r = group)
      /\ (100 < String.length group -> pm_match r = take 100 group +:+ "...").
Proof.
  intros finditer html r Hr. unfold _find_suspicious_patterns in Hr.
  apply in_concat in Hr as (l & Hl & Hr).
  apply in_map_iff in Hl as (pattern & <- & Hp).
  unfold matches_of in Hr. apply in_map_iff in Hr as ([group span] & <- & Hm).
  exists pattern, group, span. cbn [pm_pattern pm_match pm_position fst snd].
  repeat split; auto using excerpt_length, excerpt_short, excerpt_long.
Qed.

Lemma raw_match_excerpt_bounded_witness :
  let finditer := fun pattern html : string =>
    if String.eqb pattern "data:.*?base64"
    then [("data:text/html;base64", (9, 30))] else [] in
  let html := "<a href='data:text/html;base64,PHNjcmlwdD4='>x</a>" in
  let r := {| pm_pattern := "data:.*?base64";
              pm_match := "data:text/html;base64";
              pm_position := (9, 30);
              pm_context := "<a href='<HERE>data:text/html;base64,PHNjcmlw..." |} in
  exists pattern group span,
    In pattern xss_patterns
    /\ In (group, span) (finditer pattern html)
    /\ pm_pattern r = pattern /\ pm_position r = span
    /\ String.length (pm_match r) <= 103
    /\ (String.length group <= 100 -> pm_match r = group)
    /\ (100 < String.length group -> pm_match r = take 100 group +:+ "...").
Proof.
  intros finditer html r.
  apply (raw_match_excerpt_bounded finditer html r).
  vm_compute. left. reflexivity.
Defined.


(** *** Inline scripts *)

Lemma script_attr_step_agrees s a :
  flag_agrees s -> flag_agrees (script_attr_step s a).
Proof.
  intros H. destruct a as [attr value]. unfold script_attr_step.
  destruct (String.eqb attr "src"); [exact H|].
  destruct (mem attr event_attributes); [|exact H].
  unfold flag_agrees; cbn [is_suspicious is_suspicious_patterns].
  split; [intros _|reflexivity].
  now destruct (is_suspicious_patterns s).
Qed.

Lemma fold_script_attr_agrees attrs : forall s,
  flag_agrees s -> flag_agrees (fold_left script_attr_step attrs s).
Proof.
  induction attrs as [|a attrs IH]; intros s H; simpl; [exact H|].
  now apply IH, script_attr_step_agrees.
Qed.

Lemma analyze_script_tag_agrees i t : flag_agrees (analyze_script_tag i t).
Proof.
  unfold analyze_script_tag.
  pose proof (fold_script_attr_agrees (tag_attrs t)
                (mk_inline_script ("inline_script_" +:+ str_of_nat i)
                   (string_or_empty t) [] false [])) as H.
  destruct (_find_suspicious_js_patterns (string_or_empty t)) as [|p ps].
  - apply H. split; [discriminate | intros Hx; now destruct Hx].
  - unfold flag_agrees; cbn [is_suspicious is_suspicious_patterns].
    split; [intros _|reflexivity].
    now destruct (is_suspicious_patterns _).
Qed.

Lemma scripts_from_agrees tags : forall i,
  Forall flag_agrees (scripts_from i tags).
Proof.
  induction tags as [|t tags IH]; intros i; simpl; [constructor|].
  destruct (has_attr "src" t); [apply IH|].
  constructor; [apply analyze_script_tag_agrees | apply IH].
Qed.

Lemma script_step_type url screenshot_path scripts : forall acc found,
  Forall (fun v => XSSDetector.vtype v = "script_xss") acc ->
  for_each scripts (XSSDetector.script_step url screenshot_path) acc = Ok found ->
  Forall (fun v => XSSDetector.vtype v = "script_xss") found.
Proof.
  induction scripts as [|s scripts IH]; intros acc found Hacc; simpl.
  - now intros [= <-].
  - unfold XSSDetector.script_step at 1.
    destruct (String.eqb (ScriptAnalyzer.risk_level s) "high").
    + unfold XSSDetector.high_risk_script.
      destruct (XSSDetector.key_issues_of s); simpl; [|discriminate].
      apply IH. apply Forall_app. split; [exact Hacc|]. now repeat constructor.
    + destruct (String.eqb (ScriptAnalyzer.risk_level s) "medium"
                && (60 <=? ScriptAnalyzer.risk_score s)%Z); simpl.
      * apply IH. apply Forall_app. split; [exact Hacc|]. now repeat constructor.
      * now apply IH.
Qed.

(** X3. In the inline scripts of a document the flag [suspicious] is
    set exactly for the scripts with a non-empty list of suspicious
    patterns; and so every [inline_script_xss] record that the detector
    makes of them lists at least one and at most five patterns. *)
Theorem inline_script_flag_agrees_with_patterns :
  forall (soup : list node) (url : string) (html_analysis : html_analysis)
    (script_analysis : ScriptAnalyzer.results)
    (screenshot_path : option string),
    Forall flag_agrees (_analyze_inline_scripts soup)
    /\ (inline_scripts html_analysis = _analyze_inline_scripts soup ->
        Forall
          (fun v =>
             XSSDetector.vtype v = "inline_script_xss" ->
             exists script_id patterns evidence,
               XSSDetector.finding v
               = XSSDetector.InlineScriptFinding script_id patterns evidence
               /\ 1 <= List.length patterns <= 5)
          (XSSDetector.produced
             (XSSDetector._find_script_vulnerabilities url html_analysis
                script_analysis screenshot_path))).
Proof.
  intros soup url h sa sp. split; [apply scripts_from_agrees|].
  intros Hh. unfold XSSDetector._find_script_vulnerabilities.
  destruct (for_each _ _ _) as [found|e] eqn:E; simpl; [|constructor].
  apply Forall_app. split.
  - eapply script_step_type in E; [|constructor].
    eapply Forall_impl; [exact E|]. intros v Hv Hv'. simpl in Hv. congruence.
  - apply Forall_forall. intros v Hv _.
    apply list_elem_of_In, in_map_iff in Hv as (s & <- & Hs).
    apply filter_In in Hs as [Hs Hflag]. rewrite Hh in Hs.
    pose proof (scripts_from_agrees (named "script" (all_tags soup)) 0) as Ha.
    apply (proj1 (Forall_forall _ _)) with (x := s) in Ha;
      [|now apply list_elem_of_In].
    apply Ha in Hflag.
    eexists _, _, _. split; [reflexivity|].
    pose proof (firstn_le_length 5 (is_suspicious_patterns s)).
    destruct (is_suspicious_patterns s) as [|p ps]; [congruence|].
    simpl in *. lia.
Qed.

Lemma inline_script_flag_agrees_with_patterns_witness :
  let soup := [Element "script" [("onload", AttrStr "go()")] [Text "var a = 1;"]] in
  let html_analysis :=
    {| inputs := []; event_handlers := [];
       inline_scripts := _analyze_inline_scripts soup;
       suspicious_patterns := []; links := []; base_url := None |} in
  Forall
    (fun v =>
       XSSDetector.vtype v = "inline_script_xss" ->
       exists script_id patterns evidence,
         XSSDetector.finding v
         = XSSDetector.InlineScriptFinding script_id patterns evidence
         /\ 1 <= List.length patterns <= 5)
    (XSSDetector.produced
       (XSSDetector._find_script_vulnerabilities "http://h/" html_analysis
          (ScriptAnalyzer.analyze []) None)).
Proof.
  intros soup html_analysis.
  exact (proj2 (inline_script_flag_agrees_with_patterns soup "http://h/"
                  html_analysis (ScriptAnalyzer.analyze []) None) eq_refl).
Defined.

(** *** The inline scan and the scorer's high-risk signatures *)

Lemma matches_prefix pat g m :
  Re.matches pat g m ->
  forall p1 p2, pat = p1 ++ p2 ->
    exists m1 m2, m = m1 +:+ m2 /\ Re.matches p1 g m1.
Proof.
  induction 1 as [g|c pat g m _ IH|p a pat g m Hp _ IH|p pat g m _ IH
                 |p a pat g m Hp _ IH|n p a pat g m Hp _ IH|n c pat g m Hg _ IH];
    intros p1 p2 E.
  - destruct p1; [|discriminate]. exists EmptyString, EmptyString.
    split; [reflexivity | constructor].
  - destruct p1 as [|x p1]; simpl in E.
    + exists EmptyString, (String c m). split; [reflexivity | constructor].
    + injection E as <- ->. destruct (IH p1 p2 eq_refl) as (m1 & m2 & -> & H1).
      exists (String c m1), m2. split; [reflexivity | now constructor].
  - destruct p1 as [|x p1]; simpl in E.
    + exists EmptyString, (String a m). split; [reflexivity | constructor].
    + injection E as <- ->. destruct (IH p1 p2 eq_refl) as (m1 & m2 & -> & H1).
      exists (String a m1), m2. split; [reflexivity | now constructor].
  - destruct p1 as [|x p1]; simpl in E.
    + exists EmptyString, m. split; [reflexivity | constructor].
    + injection E as <- ->. destruct (IH p1 p2 eq_refl) as (m1 & m2 & -> & H1).
      exists m1, m2. split; [reflexivity | now apply Re.matches_star_done].
  - destruct p1 as [|x p1]; simpl in E.
    + exists EmptyString, (String a m). split; [reflexivity | constructor].
    + injection E as <- ->.
      destruct (IH (Re.Star p :: p1) p2 eq_refl) as (m1 & m2 & -> & H1).
      exists (String a m1), m2. split; [reflexivity|].
      now apply Re.matches_star_more.
  - destruct p1 as [|x p1]; simpl in E.
    + exists EmptyString, (String a m). split; [reflexivity | constructor].
    + injection E as <- ->. destruct (IH p1 p2 eq_refl) as (m1 & m2 & -> & H1).
      exists (String a m1), m2. split; [reflexivity | now constructor].
  - destruct p1 as [|x p1]; simpl in E.
    + exists EmptyString, (String c m). split; [reflexivity | constructor].
    + injection E as <- ->. destruct (IH p1 p2 eq_refl) as (m1 & m2 & -> & H1).
      exists (String c m1), m2. split; [reflexivity | now constructor].
Qed.

Lemma same_letter_refl c : same_letter c c = true.
Proof. unfold same_letter. apply Ascii.eqb_refl. Qed.

(** what matches a pattern matches it under [re.IGNORECASE] *)
Lemma matches_ignorecase pat g m :
  Re.matches pat g m -> Re.matches (ignorecase pat) g m.
Proof.
  induction 1; simpl; try (now constructor).
  apply Re.matches_class; [apply same_letter_refl | assumption].
Qed.

Lemma occurs_prefix m1 m2 s : Re.occurs (m1 +:+ m2) s -> Re.occurs m1 s.
Proof.
  intros (pre & post & ->). exists pre, (m2 +:+ post).
  now rewrite ReProps.append_assoc.
Qed.

(** a signature found by the scorer is found, under the flag, by every
    pattern that begins it *)
Lemma search_ignorecase_prefix p1 p2 content :
  Re.search (p1 ++ p2) content = true ->
  Re.search (ignorecase p1) content = true.
Proof.
  rewrite !ReProps.search_occurs. intros (m & Hm & Ho).
  destruct (matches_prefix _ _ _ Hm p1 p2 eq_refl) as (m1 & m2 & -> & H1).
  exists m1. split; [now apply matches_ignorecase | now apply occurs_prefix in Ho].
Qed.

Lemma covered_by (j : Re.pattern * string) p2 (h : Re.pattern) content :
  In j js_danger_patterns ->
  Re.atoms h = Re.atoms (fst j) ++ p2 ->
  Re.search (Re.atoms h) content = true ->
  _find_suspicious_js_patterns content <> [].
Proof.
  intros Hj Hh Hs. rewrite Hh in Hs. apply search_ignorecase_prefix in Hs.
  unfold _find_suspicious_js_patterns. intros Hnil.
  assert (Hf : js_findings content j = []).
  { destruct (js_findings content j) as [|x l] eqn:E; [reflexivity|].
    assert (Hin : In x (List.concat (map (js_findings content) js_danger_patterns))).
    { apply in_concat. exists (js_findings content j). split.
      - now apply in_map. - rewrite E. now left. }
    rewrite Hnil in Hin. destruct Hin. }
  unfold js_findings in Hf. apply map_eq_nil in Hf.
  apply ScriptAnalyzerProps.finditer_nil in Hf. congruence.
Qed.

Lemma high_risk_signature_covered h content :
  In h ScriptAnalyzer.high_risk ->
  Re.search (Re.atoms h) content = true ->
  _find_suspicious_js_patterns content <> [].
Proof.
  intros Hin.
  destruct Hin as [<-|[<-|[<-|[<-|[<-|[<-|[<-|[<-|[]]]]]]]]].
  - apply (covered_by (nth 1 js_danger_patterns (Re.mk_pattern EmptyString [], EmptyString)) []);
      [simpl; tauto | reflexivity].
  - apply (covered_by (nth 0 js_danger_patterns (Re.mk_pattern EmptyString [], EmptyString)) []);
      [simpl; tauto | reflexivity].
  - apply (covered_by (nth 5 js_danger_patterns (Re.mk_pattern EmptyString [], EmptyString)) []);
      [simpl; tauto | reflexivity].
  - apply (covered_by (nth 6 js_danger_patterns (Re.mk_pattern EmptyString [], EmptyString)) []);
      [simpl; tauto | reflexivity].
  - apply (covered_by (nth 2 js_danger_patterns (Re.mk_pattern EmptyString [], EmptyString))
             [Re.Star Re.space; Re.Class Re.quote]);
      [simpl; tauto | reflexivity].
  - apply (covered_by (nth 3 js_danger_patterns (Re.mk_pattern EmptyString [], EmptyString))
             [Re.Star Re.space; Re.Class Re.quote]);
      [simpl; tauto | reflexivity].
  - apply (covered_by (nth 11 js_danger_patterns (Re.mk_pattern EmptyString [], EmptyString)) []);
      [simpl; tauto | reflexivity].
  - apply (covered_by (nth 7 js_danger_patterns (Re.mk_pattern EmptyString [], EmptyString))
             [Re.Star Re.space; Re.Lit "="]);
      [simpl; tauto | reflexivity].
Qed.

(** X4. The scan of inline scripts covers the scorer's high-risk
    signatures: a script tag without [src] whose text matches one of the
    eight high-risk signatures of the scorer is marked suspicious by the
    HTML analyzer, in whatever case the script is written. *)
Theorem inline_scan_covers_high_risk_signatures :
  forall (i : nat) (t : tag) (h : Re.pattern),
    In h ScriptAnalyzer.high_risk ->
    Re.search (Re.atoms h) (string_or_empty t) = true ->
    is_suspicious (analyze_script_tag i t) = true
    /\ is_suspicious_patterns (analyze_script_tag i t) <> [].
Proof.
  intros i t h Hin Hs.
  pose proof (high_risk_signature_covered h _ Hin Hs) as Hne.
  assert (Hflag : is_suspicious (analyze_script_tag i t) = true).
  { unfold analyze_script_tag.
    destruct (_find_suspicious_js_patterns (string_or_empty t)); [congruence|].
    reflexivity. }
  split; [exact Hflag|]. now apply analyze_script_tag_agrees.
Qed.

Lemma inline_scan_covers_high_risk_signatures_witness :
  let t := mk_tag "script" [("type", AttrStr "text/javascript")]
             [Text "setTimeout ( 'tick()', 10)"] [document] in
  is_suspicious (analyze_script_tag 0 t) = true
  /\ is_suspicious_patterns (analyze_script_tag 0 t) <> [].
Proof.
  intros t.
  apply (inline_scan_covers_high_risk_signatures 0 t
           (nth 4 ScriptAnalyzer.high_risk (Re.mk_pattern EmptyString [])));
    [simpl; tauto | reflexivity].
Defined.

End MarkupScanProps.

(** ** Forms, event bindings, links and inputs *)

Module StructuralProps.
Import PyStr HTMLParser MarkupScan Vocabulary HTMLParserProps.

(** *** Forms *)

Lemma form_step_offending st a :
  lowercase_name a -> event_named a = true ->
  st_suspicious (form_step st a) = true
  /\ st_xss_vector (form_step st a) = Some (event_vector a).
Proof.
  intros Hl Ho. rewrite (event_named_lowercase a Hl) in Ho.
  destruct a as [attr value]. unfold form_step, event_vector, check_event.
  cbn [fst snd] in *. rewrite Ho. now split.
Qed.

Lemma form_step_clean st a :
  lowercase_name a -> event_named a = false ->
  st_suspicious (form_step st a) = st_suspicious st
  /\ st_xss_vector (form_step st a) = st_xss_vector st.
Proof.
  intros Hl Ho. rewrite (event_named_lowercase a Hl) in Ho.
  destruct a as [attr value]. unfold form_step, check_event, keep_attribute.
  cbn [fst snd] in *. rewrite Ho. destruct (mem attr [_; _; _; _]); now split.
Qed.

(** the flag and the vector after the attribute loop of a form *)
Lemma fold_form_step attrs :
  Forall lowercase_name attrs ->
  forall st,
    (st_suspicious st = true <-> is_Some (st_xss_vector st)) ->
    let st' := fold_left form_step attrs st in
    st_suspicious st' = st_suspicious st || existsb event_named attrs
    /\ (st_suspicious st' = true <-> is_Some (st_xss_vector st'))
    /\ (existsb event_named attrs = false ->
        st_xss_vector st' = st_xss_vector st).
Proof.
  induction 1 as [|a attrs Ha _ IH]; intros st Hst; cbv zeta;
    cbn [fold_left existsb].
  - rewrite orb_false_r. split; [reflexivity|]. split; [exact Hst | reflexivity].
  - destruct (event_named a) eqn:E.
    + destruct (form_step_offending st a Ha E) as [Hs Hv].
      destruct (IH (form_step st a)) as (H1 & H2 & H3).
      { rewrite Hs, Hv. split; eauto. }
      cbv zeta in H1, H2, H3.
      split; [|split; [exact H2 | discriminate]].
      rewrite H1, Hs. simpl. now rewrite orb_true_r.
    + destruct (form_step_clean st a Ha E) as [Hs Hv].
      destruct (IH (form_step st a)) as (H1 & H2 & H3).
      { now rewrite Hs, Hv. }
      cbv zeta in H1, H2, H3.
      split; [|split; [exact H2|]].
      * now rewrite H1, Hs.
      * intros Hn. now rewrite (H3 Hn).
Qed.

(** X5. A form whose attribute names are in lower case is marked
    suspicious exactly when its [action] holds [javascript:] in any case
    or it has an event attribute; the flag is set exactly when an
    [xss_vector] is recorded; and when only the action offends, the
    vector quotes the action in lower case. *)
Theorem form_suspicious_rule :
  forall (upper : string -> string) (t : tag),
    Forall lowercase_name (tag_attrs t) ->
    let f := analyze_form_tag upper t in
    let action := lower (tag_get t "action" EmptyString) in
    (fm_suspicious f = true
     <-> contains "javascript:" action = true
         \/ exists a, In a (tag_attrs t) /\ event_named a = true)
    /\ (fm_suspicious f = true <-> is_Some (fm_xss_vector f))
    /\ (contains "javascript:" action = true ->
        (forall a, In a (tag_attrs t) -> event_named a = false) ->
        fm_xss_vector f = Some ("JavaScript in action: " +:+ action)).
Proof.
  intros upper t Hl f action. subst f.
  unfold analyze_form_tag; cbn [fm_suspicious fm_xss_vector]. fold action.
  set (st0 := if contains "javascript:" action
              then flag ("JavaScript in action: " +:+ action) initial
              else initial).
  assert (H0 : st_suspicious st0 = true <-> is_Some (st_xss_vector st0)).
  { unfold st0. destruct (contains "javascript:" action); simpl.
    - split; eauto.
    - split; [discriminate | intros [x Hx]; discriminate]. }
  destruct (fold_form_step (tag_attrs t) Hl st0 H0) as (H1 & H2 & H3).
  cbv zeta in H1, H2, H3.
  split; [|split].
  - rewrite H1, orb_true_iff, existsb_exists.
    assert (Hs : st_suspicious st0 = contains "javascript:" action).
    { unfold st0. now destruct (contains "javascript:" action). }
    now rewrite Hs.
  - exact H2.
  - intros Hj Hclean. rewrite H3.
    + unfold st0. now rewrite Hj.
    + destruct (existsb event_named (tag_attrs t)) eqn:E; [|reflexivity].
      apply existsb_exists in E as (a & Hin & Ha).
      rewrite (Hclean a Hin) in Ha. discriminate.
Qed.

Lemma form_suspicious_rule_witness :
  let t := mk_tag "form" [("action", AttrStr "JavaScript:send()");
                          ("method", AttrStr "post")] [] [document] in
  fm_xss_vector (analyze_form_tag (fun s => s) t)
  = Some "JavaScript in action: javascript:send()".
Proof.
  intros t.
  refine (proj2 (proj2 (form_suspicious_rule (fun s => s) t _)) eq_refl _).
  - repeat constructor.
  - intros a [<-|[<-|[]]]; reflexivity.
Defined.

Lemma fold_control_step controls : forall inputs submits,
  fold_left control_step controls (inputs, submits)
  = (inputs ++ map field_of (List.filter (fun c => negb (is_submit c)) controls),
     submits ++ map submit_of (List.filter is_submit controls)).
Proof.
  induction controls as [|c controls IH]; intros inputs submits; simpl.
  - now rewrite !app_nil_r.
  - unfold control_step at 2. destruct (is_submit c); simpl; rewrite IH;
      now rewrite <- app_assoc.
Qed.

Lemma fold_button_step buttons : forall inputs submits,
  fold_left button_step buttons (inputs, submits)
  = (inputs, submits ++ map button_of buttons).
Proof.
  induction buttons as [|b buttons IH]; intros inputs submits; simpl.
  - now rewrite app_nil_r.
  - unfold button_step at 2. simpl. rewrite IH. now rewrite <- app_assoc.
Qed.

Lemma filter_partition_length {A : Type} (f : A -> bool) (l : list A) :
  List.length (List.filter f l)
  + List.length (List.filter (fun x => negb (f x)) l)
  = List.length l.
Proof.
  induction l as [|x l IH]; simpl; [reflexivity|].
  destruct (f x); simpl; lia.
Qed.

(** X6. The two loops over the controls of a form list every input,
    textarea and select under it exactly once, an [input] of type
    submit, image or button among the submit buttons and every other
    control among the inputs, each list in document order; and every
    [button] element is listed after them among the submit buttons,
    whatever its type. *)
Theorem form_controls_partition :
  forall (upper : string -> string) (t : tag),
    let f := analyze_form_tag upper t in
    fm_inputs f
    = map field_of (List.filter (fun c => negb (is_submit c)) (controls_under t))
    /\ fm_submit_buttons f
       = map submit_of (List.filter is_submit (controls_under t))
         ++ map button_of (named "button" (tags_under t))
    /\ List.length (fm_inputs f) + List.length (fm_submit_buttons f)
       = List.length (controls_under t)
         + List.length (named "button" (tags_under t)).
Proof.
  intros upper t f. subst f.
  unfold analyze_form_tag; cbn [fm_inputs fm_submit_buttons].
  rewrite fold_control_step, fold_button_step; cbn [fst snd app].
  split; [reflexivity|]. split; [reflexivity|].
  rewrite length_app, !length_map.
  pose proof (filter_partition_length is_submit (controls_under t)). lia.
Qed.


(** *** Event bindings *)

Lemma dict_set_fresh {V : Type} key (v : V) d :
  ~ In key (map fst d) -> dict_set key v d = d ++ [(key, v)].
Proof.
  induction d as [|[k w] d IH]; simpl; [reflexivity|].
  intros Hn. destruct (String.eqb_spec k key) as [->|_].
  - exfalso. apply Hn. now left.
  - rewrite IH; [reflexivity|]. intros Hin. apply Hn. now right.
Qed.

Lemma dict_set_not_nil {V : Type} key (v : V) d : dict_set key v d <> [].
Proof.
  destruct d as [|[k w] d]; simpl; [discriminate|].
  destruct (String.eqb k key); discriminate.
Qed.

Lemma handler_step_eq handlers a :
  handler_step handlers a
  = if event_named a then dict_set (fst a) (as_str (snd a)) handlers
    else handlers.
Proof. now destruct a. Qed.

(** on a dict the loop keeps the event attributes, in order *)
Lemma fold_handler_step attrs : forall handlers,
  NoDup (map fst handlers ++ map fst attrs) ->
  fold_left handler_step attrs handlers
  = handlers ++ map handler_of (List.filter event_named attrs).
Proof.
  induction attrs as [|a attrs IH]; intros handlers Hnd;
    cbn [fold_left List.filter].
  - cbn [map]. now rewrite app_nil_r.
  - rewrite handler_step_eq. cbn [map] in Hnd.
    apply NoDup_app in Hnd as (H1 & H2 & H3).
    apply NoDup_cons in H3 as [H3 H4].
    destruct (event_named a) eqn:E.
    + rewrite dict_set_fresh.
      * rewrite IH.
        -- cbn [map]. now rewrite <- app_assoc.
        -- rewrite map_app. cbn [map fst]. rewrite <- app_assoc. cbn [app].
           apply NoDup_app. split; [exact H1|]. split.
           ++ intros x Hx Hx'. apply elem_of_cons in Hx' as [->|Hx'].
              ** apply (H2 (fst a) Hx). apply list_elem_of_here.
              ** apply (H2 x Hx). now apply list_elem_of_further.
           ++ now apply NoDup_cons.
      * intros Hin. apply (H2 (fst a));
          [now apply list_elem_of_In | apply list_elem_of_here].
    + apply IH. apply NoDup_app. split; [exact H1|]. split; [|exact H4].
      intros x Hx Hx'. apply (H2 x Hx). now apply list_elem_of_further.
Qed.

Lemma fold_handler_step_nil attrs : forall handlers,
  fold_left handler_step attrs handlers = [] ->
  handlers = [] /\ existsb event_named attrs = false.
Proof.
  induction attrs as [|a attrs IH]; intros handlers; cbn [fold_left existsb].
  - now intros ->.
  - rewrite handler_step_eq.
    destruct (event_named a); intros H; apply IH in H.
    + destruct H as [H _]. now apply dict_set_not_nil in H.
    + exact H.
Qed.

Lemma fold_handler_step_clean attrs :
  existsb event_named attrs = false ->
  forall handlers, fold_left handler_step attrs handlers = handlers.
Proof.
  induction attrs as [|a attrs IH]; intros H handlers; cbn [fold_left];
    [reflexivity|].
  cbn [existsb] in H. apply orb_false_iff in H as [H1 H2].
  rewrite handler_step_eq, H1. now apply IH.
Qed.

Lemma event_binding_is_some t :
  is_Some (event_binding t) <-> existsb event_named (tag_attrs t) = true.
Proof.
  unfold event_binding. split.
  - destruct (fold_left handler_step (tag_attrs t) []) eqn:E.
    + intros [x Hx]. discriminate.
    + intros _. destruct (existsb event_named (tag_attrs t)) eqn:X;
        [reflexivity|].
      rewrite (fold_handler_step_clean _ X) in E. discriminate.
  - intros H. destruct (fold_left handler_step (tag_attrs t) []) eqn:E; [|eauto].
    apply fold_handler_step_nil in E as [_ E]. congruence.
Qed.

Lemma omap_length tags :
  List.length (omap event_binding tags)
  = List.length (List.filter (fun t => existsb event_named (tag_attrs t)) tags).
Proof.
  induction tags as [|t tags IH]; [reflexivity|].
  cbn [omap list_omap List.filter].
  pose proof (event_binding_is_some t) as H.
  destruct (event_binding t) as [h|].
  - rewrite (proj1 H) by eauto. simpl. now f_equal.
  - destruct (existsb event_named (tag_attrs t)) eqn:E; [|exact IH].
    destruct (proj2 H eq_refl) as [x Hx]. discriminate.
Qed.

(** X7. The event handlers of a document hold one binding for each
    tag that has an event attribute, and none for the others; the
    binding of a tag holds all the event attributes of the tag, names
    and code verbatim, in the order of the attribute dict; and the
    detector makes one [event_handler_xss] record of each binding. *)
Theorem one_event_binding_per_tag :
  forall (soup : list node),
    List.length (_analyze_event_handlers soup)
    = List.length
        (List.filter (fun t => existsb event_named (tag_attrs t)) (all_tags soup))
    /\ (forall url html_analysis script_analysis screenshot_path,
          event_handlers html_analysis = _analyze_event_handlers soup ->
          List.length
            (XSSDetector._find_event_vulnerabilities url html_analysis
               script_analysis screenshot_path)
          = List.length
              (List.filter (fun t => existsb event_named (tag_attrs t))
                 (all_tags soup)))
    /\ (forall t,
          t ∈ all_tags soup ->
          NoDup (map fst (tag_attrs t)) ->
          existsb event_named (tag_attrs t) = true ->
          exists h,
            h ∈ _analyze_event_handlers soup
            /\ eh_tag_name h = tag_name t
            /\ eh_handlers h
               = map handler_of (List.filter event_named (tag_attrs t))).
Proof.
  intros soup. split; [apply omap_length|]. split.
  - intros url h sa sp Hh. unfold XSSDetector._find_event_vulnerabilities.
    rewrite length_map, Hh. apply omap_length.
  - intros t Hin Hnd He.
    pose proof (fold_handler_step (tag_attrs t) [] Hnd) as Hf. simpl in Hf.
    destruct (proj2 (event_binding_is_some t) He) as [h Hh].
    exists h. split; [|split].
    + unfold _analyze_event_handlers. apply list_elem_of_omap. now exists t.
    + unfold event_binding in Hh.
      destruct (fold_left handler_step (tag_attrs t) []); [discriminate|].
      now injection Hh as <-.
    + unfold event_binding in Hh. rewrite Hf in Hh.
      destruct (map handler_of (List.filter event_named (tag_attrs t)));
        [discriminate|].
      now injection Hh as <-.
Qed.

Lemma one_event_binding_per_tag_witness :
  let attrs := [("id", AttrStr "b"); ("onclick", AttrStr "go(1)");
                ("class", AttrList ["x"; "y"]); ("onMouseOver", AttrStr "hi()")] in
  let soup := [Element "p" [] [Element "button" attrs [Text "ok"]]] in
  exists h,
    h ∈ _analyze_event_handlers soup
    /\ eh_tag_name h = "button"
    /\ eh_handlers h = [("onclick", "go(1)"); ("onMouseOver", "hi()")].
Proof.
  intros attrs soup.
  refine (proj2 (proj2 (one_event_binding_per_tag soup))
            (mk_tag "button" attrs [Text "ok"] ["p"; document]) _ _ eq_refl).
  - vm_compute. apply list_elem_of_further, list_elem_of_here.
  - apply (bool_decide_unpack _). vm_compute. exact I.
Defined.


(** *** Links *)

Lemma link_event_step_eq l a :
  link_event_step l a
  = if event_named a
    then flag_link ("Event handler in link: " +:+ fst a +:+ "="
                    +:+ format_value (snd a)) l
    else l.
Proof. now destruct a. Qed.

Lemma fold_link_events_clean attrs :
  existsb event_named attrs = false ->
  forall l, fold_left link_event_step attrs l = l.
Proof.
  induction attrs as [|a attrs IH]; intros H l; cbn [fold_left]; [reflexivity|].
  cbn [existsb] in H. apply orb_false_iff in H as [H1 H2].
  rewrite link_event_step_eq, H1. now apply IH.
Qed.

(** X8. An anchor whose href starts with [javascript:] in any case and
    that has no event attribute is kept in the links output, flagged,
    with the vector [JavaScript URI:] followed by the first 100
    characters of the href; and the detector makes a [url_xss] record of
    severity [Medio] with that vector of it. *)
Theorem javascript_anchor_reported :
  forall (parse_query : string -> option (list (string * list string)))
    (soup : list node) (t : tag),
    t ∈ anchors soup ->
    startswith "javascript:" (lower (tag_get t "href" EmptyString)) = true ->
    existsb event_named (tag_attrs t) = false ->
    let l := analyze_link_tag parse_query t in
    let vector := "JavaScript URI: " +:+ take 100 (tag_get t "href" EmptyString) in
    In l (_analyze_links parse_query soup)
    /\ ln_suspicious l = true
    /\ ln_xss_vector l = Some vector
    /\ forall url html_analysis script_analysis screenshot_path,
        links html_analysis = _analyze_links parse_query soup ->
        exists v,
          In v (XSSDetector._find_url_vulnerabilities url html_analysis
                  script_analysis screenshot_path)
          /\ XSSDetector.vtype v = "url_xss"
          /\ XSSDetector.severity v = XSSDetector.Medio
          /\ XSSDetector.vulnerability v = vector.
Proof.
  intros parse_query soup t Hin Hjs Hclean l vector.
  assert (Hl : l = flag_link vector
                     (mk_link_info (tag_get t "href" EmptyString)
                        (take 50 (get_text_strip t)) false None None None)).
  { subst l. unfold analyze_link_tag.
    rewrite (fold_link_events_clean _ Hclean).
    unfold classify_href; cbn [ln_href]. now rewrite Hjs. }
  assert (Hkept : In l (_analyze_links parse_query soup)).
  { unfold _analyze_links. apply filter_In. split.
    - apply in_map. now apply list_elem_of_In.
    - rewrite Hl. reflexivity. }
  split; [exact Hkept|]. split; [now rewrite Hl|]. split; [now rewrite Hl|].
  intros url h sa sp Hh.
  exists (XSSDetector.link_vulnerability url sp l).
  split; [|repeat split].
  - unfold XSSDetector._find_url_vulnerabilities. apply in_or_app. left.
    apply in_map, filter_In. rewrite Hh. split; [exact Hkept|].
    now rewrite Hl.
  - cbn [XSSDetector.vulnerability XSSDetector.link_vulnerability].
    now rewrite Hl.
Qed.

Lemma javascript_anchor_reported_witness :
  let t := mk_tag "a" [("href", AttrStr "JavaScript:alert(1)")] [Text "x"]
             [document] in
  let soup := [Element "a" [("href", AttrStr "JavaScript:alert(1)")] [Text "x"]] in
  ln_xss_vector (analyze_link_tag (fun _ => None) t)
  = Some "JavaScript URI: JavaScript:alert(1)".
Proof.
  intros t soup.
  refine (proj1 (proj2 (proj2
    (javascript_anchor_reported (fun _ => None) soup t _ eq_refl eq_refl)))).
  vm_compute. apply list_elem_of_here.
Defined.

(** *** The flag and the vector *)

Lemma flag_makes_agree vector st : agrees (flag vector st).
Proof. unfold agrees, flag. simpl. split; eauto. Qed.

Lemma check_event_agrees attr value st :
  agrees st -> agrees (check_event attr value st).
Proof.
  intros H. unfold check_event.
  destruct (mem attr event_attributes); [apply flag_makes_agree | exact H].
Qed.

Lemma check_javascript_agrees attr value st :
  agrees st -> agrees (check_javascript attr value st).
Proof.
  intros H. unfold check_javascript.
  destruct (javascript_value value); [apply flag_makes_agree | exact H].
Qed.

Lemma keep_attribute_agrees own attr value st :
  agrees st -> agrees (keep_attribute own attr value st).
Proof. intros H. unfold keep_attribute. now destruct (mem attr own). Qed.

Lemma input_step_agrees st a : agrees st -> agrees (input_step st a).
Proof.
  intros H. destruct a as [attr value]. unfold input_step.
  now apply check_javascript_agrees, check_event_agrees, keep_attribute_agrees.
Qed.

Lemma other_step_agrees st a : agrees st -> agrees (other_step st a).
Proof.
  intros H. destruct a as [attr value]. unfold other_step.
  now apply check_event_agrees, keep_attribute_agrees.
Qed.

Lemma option_step_agrees st o : agrees st -> agrees (option_step st o).
Proof.
  intros H. unfold option_step.
  destruct (contains _ _); [apply flag_makes_agree | exact H].
Qed.

Lemma fold_agrees {A : Type} (step : scan_state -> A -> scan_state) l :
  (forall st a, agrees st -> agrees (step st a)) ->
  forall st, agrees st -> agrees (fold_left step l st).
Proof.
  intros Hstep. induction l as [|a l IH]; intros st H; simpl; [exact H|].
  now apply IH, Hstep.
Qed.

Lemma initial_agrees : agrees initial.
Proof. split; [discriminate | intros [x Hx]; discriminate]. Qed.

Lemma flag_link_agrees vector l : link_agrees (flag_link vector l).
Proof. unfold link_agrees, flag_link. simpl. split; eauto. Qed.

Lemma fold_link_agrees {A : Type} (step : link_info -> A -> link_info) xs :
  (forall l a, link_agrees l -> link_agrees (step l a)) ->
  forall l, link_agrees l -> link_agrees (fold_left step xs l).
Proof.
  intros Hstep. induction xs as [|a xs IH]; intros l H; simpl; [exact H|].
  now apply IH, Hstep.
Qed.

Lemma analyze_link_tag_agrees parse_query t :
  link_agrees (analyze_link_tag parse_query t).
Proof.
  unfold analyze_link_tag. apply fold_link_agrees.
  - intros l a H. rewrite link_event_step_eq.
    destruct (event_named a); [apply flag_link_agrees | exact H].
  - assert (H0 : forall href text hp ps,
               link_agrees (mk_link_info href text false None hp ps)).
    { intros. split; [discriminate | intros [x Hx]; discriminate]. }
    unfold classify_href; cbn [ln_href ln_text ln_suspicious ln_xss_vector
                               ln_parameters ln_has_parameters].
    destruct (startswith _ _); [apply flag_link_agrees|].
    destruct (contains "?" _ && negb _); [apply H0|].
    destruct (contains "?" _); [|apply H0].
    destruct (parse_query _) as [params|]; [|apply H0].
    apply fold_link_agrees; [|apply H0].
    intros l [param value] H. unfold parameter_step.
    destruct (suspicious_parameter value); [apply flag_link_agrees | exact H].
Qed.

(** X9. In the inputs and in the links of a document the flag
    [suspicious] is set exactly when an [xss_vector] is recorded; and so
    the [input_xss] records that the detector makes of the inputs without
    visual findings quote the recorded vector, never the default text. *)
Theorem suspicious_flag_has_vector :
  forall (parse_query : string -> option (list (string * list string)))
    (soup : list node),
    Forall (fun i => in_suspicious i = true <-> is_Some (in_xss_vector i))
      (_analyze_inputs soup)
    /\ Forall (fun l => ln_suspicious l = true <-> is_Some (ln_xss_vector l))
         (_analyze_links parse_query soup)
    /\ forall url html_analysis script_analysis screenshot_path,
        inputs html_analysis = _analyze_inputs soup ->
        Forall
          (fun v =>
             exists element_type element_id element_name input_elem,
               XSSDetector.finding v
               = XSSDetector.InputFinding element_type element_id element_name
                   input_elem
               /\ in_xss_vector input_elem = Some (XSSDetector.vulnerability v))
          (XSSDetector._find_input_vulnerabilities url None html_analysis
             script_analysis screenshot_path).
Proof.
  intros parse_query soup.
  assert (Hi : Forall (fun i => in_suspicious i = true
                                <-> is_Some (in_xss_vector i))
                 (_analyze_inputs soup)).
  { unfold _analyze_inputs. rewrite !Forall_app. repeat split;
      apply Forall_forall; intros i Hin;
      apply list_elem_of_fmap in Hin as (t & -> & _).
    - apply (fold_agrees input_step); [apply input_step_agrees | apply initial_agrees].
    - apply (fold_agrees other_step); [apply other_step_agrees | apply initial_agrees].
    - apply (fold_agrees other_step); [apply other_step_agrees|].
      apply (fold_agrees option_step); [apply option_step_agrees | apply initial_agrees]. }
  split; [exact Hi|]. split.
  - unfold _analyze_links. apply Forall_forall. intros l Hl.
    apply list_elem_of_In, filter_In in Hl as [Hl _].
    apply in_map_iff in Hl as (t & <- & _). apply analyze_link_tag_agrees.
  - intros url h sa sp Hh. unfold XSSDetector._find_input_vulnerabilities.
    apply Forall_forall. intros v Hv.
    apply list_elem_of_In, in_map_iff in Hv as (i & <- & Hin).
    apply filter_In in Hin as [Hin Hs]. rewrite Hh in Hin.
    apply (proj1 (Forall_forall _ _)) with (x := i) in Hi;
      [|now apply list_elem_of_In].
    apply Hi in Hs as [vector Hvec].
    eexists _, _, _, i. split; [reflexivity|].
    cbn [XSSDetector.vulnerability XSSDetector.html_only_input].
    now rewrite Hvec.
Qed.


(** *** The attribute map of an input *)

Lemma nodup_middle {A : Type} (l : list A) a l' :
  NoDup (l ++ a :: l') -> NoDup (l ++ l') /\ ~ In a (l ++ l').
Proof.
  intros H. apply NoDup_ListNoDup in H. split.
  - apply NoDup_ListNoDup. now apply NoDup_remove_1 in H.
  - now apply NoDup_remove_2 in H.
Qed.

Lemma fold_keeps_attributes (step : scan_state -> string * attr_value -> scan_state)
  (own : list string) attrs :
  (forall st a,
      st_attributes (step st a)
      = st_attributes (keep_attribute own (fst a) (snd a) st)) ->
  forall st,
    NoDup (map fst (st_attributes st) ++ map fst attrs) ->
    st_attributes (fold_left step attrs st)
    = st_attributes st ++ List.filter (other_than own) attrs.
Proof.
  intros Hstep. induction attrs as [|a attrs IH]; intros st Hnd;
    cbn [fold_left List.filter].
  - now rewrite app_nil_r.
  - cbn [map] in Hnd.
    destruct (nodup_middle _ _ _ Hnd) as [Hrest Hfresh].
    assert (Hattrs : st_attributes (step st a)
                     = if mem (fst a) own then st_attributes st
                       else st_attributes st ++ [a]).
    { rewrite Hstep. unfold keep_attribute.
      destruct (mem (fst a) own); [reflexivity|]. cbn [st_attributes].
      rewrite dict_set_fresh; [now destruct a|].
      intros Hin. apply Hfresh, in_or_app. now left. }
    assert (Ho : other_than own a = negb (mem (fst a) own)) by reflexivity.
    rewrite IH.
    + rewrite Hattrs, Ho.
      destruct (mem (fst a) own); cbn [negb]; [reflexivity|].
      now rewrite <- app_assoc.
    + rewrite Hattrs. destruct (mem (fst a) own); [exact Hrest|].
      rewrite map_app, <- app_assoc. exact Hnd.
Qed.

Lemma input_step_attributes st a :
  st_attributes (input_step st a)
  = st_attributes (keep_attribute ["type"; "name"; "id"; "value"] (fst a) (snd a) st).
Proof.
  destruct a as [attr value]. unfold input_step, check_javascript, check_event.
  cbn [fst snd].
  destruct (javascript_value value), (mem attr event_attributes); reflexivity.
Qed.

Lemma other_step_attributes st a :
  st_attributes (other_step st a)
  = st_attributes (keep_attribute ["name"; "id"] (fst a) (snd a) st).
Proof.
  destruct a as [attr value]. unfold other_step, check_event. cbn [fst snd].
  destruct (mem attr event_attributes); reflexivity.
Qed.

Lemma fold_option_step_attributes options : forall st,
  st_attributes (fold_left option_step options st) = st_attributes st.
Proof.
  induction options as [|o options IH]; intros st; simpl; [reflexivity|].
  rewrite IH. unfold option_step. now destruct (contains _ _).
Qed.

(** X10. The [attributes] of an analyzed element hold the attributes
    of the tag other than the ones that have a key of their own ([type],
    [name], [id] and [value] for an input, [name] and [id] for a textarea
    and a select), with their values as they are and in the order of the
    tag. *)
Theorem attributes_hold_the_other_attributes :
  forall (t : tag),
    NoDup (map fst (tag_attrs t)) ->
    in_attributes (analyze_input_tag t)
    = List.filter (other_than ["type"; "name"; "id"; "value"]) (tag_attrs t)
    /\ in_attributes (analyze_textarea_tag t)
       = List.filter (other_than ["name"; "id"]) (tag_attrs t)
    /\ in_attributes (analyze_select_tag t)
       = List.filter (other_than ["name"; "id"]) (tag_attrs t).
Proof.
  intros t Hnd. split; [|split].
  - unfold analyze_input_tag; cbn [in_attributes].
    now rewrite (fold_keeps_attributes input_step _ _ input_step_attributes).
  - unfold analyze_textarea_tag; cbn [in_attributes].
    now rewrite (fold_keeps_attributes other_step _ _ other_step_attributes).
  - unfold analyze_select_tag; cbn [in_attributes].
    rewrite (fold_keeps_attributes other_step _ _ other_step_attributes).
    + now rewrite fold_option_step_attributes.
    + now rewrite fold_option_step_attributes.
Qed.

Lemma attributes_hold_the_other_attributes_witness :
  let t := mk_tag "input" [("type", AttrStr "text"); ("class", AttrList ["a"]);
                           ("id", AttrStr "q"); ("data-x", AttrStr "1")]
             [] [document] in
  in_attributes (analyze_input_tag t)
  = [("class", AttrList ["a"]); ("data-x", AttrStr "1")].
Proof.
  intros t.
  refine (proj1 (attributes_hold_the_other_attributes t _)).
  apply (bool_decide_unpack _). vm_compute. exact I.
Defined.

End StructuralProps.

(** ** The scorer's verdicts and their evidence *)

Module ScorerProps.
Import PyStr Re ScriptAnalyzer.
#[local] Arguments String.append !_ _ / : simpl nomatch.

(** [str] of an [int] tells the integers apart *)
Lemma str_of_Z_inj a b : str_of_Z a = str_of_Z b -> a = b.
Proof.
  unfold str_of_Z. intros H. apply DecimalZ.to_int_inj.
  assert (Hn : forall z, Z.to_int z <> Decimal.Pos Decimal.Nil
                         /\ Z.to_int z <> Decimal.Neg Decimal.Nil).
  { intros [|p|p]; simpl; split; try discriminate;
      intros [= E]; now apply Unsigned.to_uint_nonnil in E. }
  destruct (Hn a) as [Ha1 Ha2], (Hn b) as [Hb1 Hb2].
  pose proof (NilZero.isi _ Ha1 Ha2) as Ia.
  pose proof (NilZero.isi _ Hb1 Hb2) as Ib.
  rewrite H in Ia. rewrite Ia in Ib. now injection Ib.
Qed.

Lemma str_of_nat_inj a b : str_of_nat a = str_of_nat b -> a = b.
Proof. unfold str_of_nat. intros H. apply str_of_Z_inj in H. lia. Qed.

Lemma append_inj_r (p a b : string) : p +:+ a = p +:+ b -> a = b.
Proof. induction p as [|c p IH]; simpl; [auto|]. intros [= H]. auto. Qed.

(** the verdicts are those of the scripts with a content, each with the
    index of its script *)
Lemma analyze_from_spec scripts : forall k v,
  v ∈ analyze_from k scripts
  <-> exists i s content,
        scripts !! i = Some s /\ script_content s = Some content
        /\ content <> EmptyString
        /\ v = _analyze_script_simplified content (k + i).
Proof.
  induction scripts as [|s0 scripts IH]; intros k v.
  - simpl. split; [intros H; inversion H | intros (i & s & c & H & _); discriminate].
  - assert (Hrest : v ∈ analyze_from (S k) scripts
                    <-> exists i s content,
                          (s0 :: scripts) !! S i = Some s
                          /\ script_content s = Some content
                          /\ content <> EmptyString
                          /\ v = _analyze_script_simplified content (k + S i)).
    { rewrite IH. split; intros (i & s & c & H1 & H2 & H3 & H4);
        exists i, s, c; repeat split; auto; rewrite H4; f_equal; lia. }
    simpl. split.
    + intros H.
      assert (Hcase : (exists content, script_content s0 = Some content
                                       /\ content <> EmptyString
                                       /\ v = _analyze_script_simplified content k)
                      \/ v ∈ analyze_from (S k) scripts).
      { destruct (script_content s0) as [c0|]; [|now right].
        destruct c0 as [|ch c0]; simpl in H; [now right|].
        apply elem_of_cons in H as [->|H]; [left|now right].
        eexists. repeat split. discriminate. }
      destruct Hcase as [(c & H1 & H2 & H3)|Hr].
      * exists 0, s0, c. rewrite Nat.add_0_r. now repeat split.
      * apply Hrest in Hr as (i & s & c & Hr). now exists (S i), s, c.
    + intros ([|i] & s & c & H1 & H2 & H3 & H4).
      * simpl in H1. injection H1 as <-. rewrite H2.
        destruct c; [congruence|]. simpl. rewrite Nat.add_0_r in H4.
        rewrite H4. apply list_elem_of_here.
      * assert (Hr : v ∈ analyze_from (S k) scripts).
        { apply Hrest. now exists i, s, c. }
        destruct (script_content s0) as [c0|]; [|exact Hr].
        destruct (nonempty c0); [now apply list_elem_of_further | exact Hr].
Qed.

Lemma analyze_from_ids scripts : forall k,
  NoDup (map id (analyze_from k scripts))
  /\ Forall (fun v => exists i, k <= i /\ id v = "script_" +:+ str_of_nat i)
       (analyze_from k scripts).
Proof.
  induction scripts as [|s scripts IH]; intros k; simpl.
  - split; constructor.
  - destruct (IH (S k)) as [Hnd Hids].
    assert (Hup : Forall (fun v => exists i, k <= i
                                   /\ id v = "script_" +:+ str_of_nat i)
                    (analyze_from (S k) scripts)).
    { eapply Forall_impl; [exact Hids|]. intros v (i & Hi & Hv).
      exists i. split; [lia | exact Hv]. }
    destruct (script_content s) as [content|]; [|now split].
    destruct (nonempty content); [|now split].
    split.
    + simpl. constructor; [|exact Hnd].
      intros Hin. apply list_elem_of_fmap in Hin as (v & Hv & Hvin).
      apply (proj1 (Forall_forall _ _) Hids) in Hvin as (i & Hi & Hid).
      rewrite Hid in Hv.
      change (id (_analyze_script_simplified content k))
        with ("script_" +:+ str_of_nat k) in Hv.
      apply (append_inj_r "script_"), str_of_nat_inj in Hv. lia.
    + constructor; [|exact Hup]. exists k. split; [lia | reflexivity].
Qed.

Lemma analyze_from_length scripts : forall k,
  List.length (analyze_from k scripts) <= List.length scripts.
Proof.
  induction scripts as [|s scripts IH]; intros k; simpl; [lia|].
  specialize (IH (S k)).
  destruct (script_content s) as [c|]; [|lia].
  destruct (nonempty c); simpl; lia.
Qed.

Lemma count_levels_le (l : list script_result) :
  count_level "high" l + count_level "medium" l <= List.length l.
Proof.
  unfold count_level. induction l as [|r l IH]; [simpl; lia|].
  rewrite !filter_cons.
  destruct (decide (risk_level r = "high")) as [E|E];
    destruct (decide (risk_level r = "medium")) as [E'|E']; simpl; try lia.
  rewrite E in E'. discriminate.
Qed.

(** X11. The scorer returns one verdict for each script of its input
    that has a non-empty content, and no other: the verdict of the script
    at index [i] is named [script_i], so the names are pairwise different
    and tell which script a verdict is about; the scripts without content
    are counted in [scripts_analyzed] all the same, and the two counters
    of risky scripts never exceed the number of verdicts. *)
Theorem one_verdict_per_script_with_content :
  forall (scripts : list script),
    let r := analyze scripts in
    (forall v,
        v ∈ script_analysis r
        <-> exists i s content,
              scripts !! i = Some s /\ script_content s = Some content
              /\ content <> EmptyString
              /\ v = _analyze_script_simplified content i)
    /\ NoDup (map id (script_analysis r))
    /\ List.length (script_analysis r) <= scripts_analyzed r
    /\ scripts_analyzed r = List.length scripts
    /\ high_risk_scripts r + medium_risk_scripts r
       <= List.length (script_analysis r).
Proof.
  intros scripts r. subst r. unfold analyze;
    cbn [script_analysis scripts_analyzed high_risk_scripts medium_risk_scripts].
  split; [|split; [|split; [|split]]].
  - intros v. apply (analyze_from_spec scripts 0).
  - apply analyze_from_ids.
  - apply analyze_from_length.
  - reflexivity.
  - apply count_levels_le.
Qed.

(** *** The evidence of a verdict *)

Lemma finditer_from_head pat s : forall m rest,
  finditer_from pat 0 s = m :: rest ->
  matches pat [] m /\ occurs m s.
Proof.
  induction s as [|c s IH]; intros m rest; simpl.
  - destruct (match_here pat [] EmptyString) as [x|] eqn:E; [|discriminate].
    intros [= <- _]. apply ReProps.match_here_sound in E as [Hm [t Ht]].
    split; [exact Hm|]. now exists EmptyString, t.
  - destruct (match_here pat [] (String c s)) as [x|] eqn:E.
    + intros [= <- _]. apply ReProps.match_here_sound in E as [Hm [t Ht]].
      split; [exact Hm|]. now exists EmptyString, t.
    + intros H. destruct (IH _ _ H) as [Hm (pre & post & ->)].
      split; [exact Hm|]. now exists (String c pre), post.
Qed.

Lemma scan_evidence risk set content f :
  In f (scan risk set content) ->
  exists p, In p set /\ df_pattern f = source p /\ df_risk f = risk
            /\ df_context f = None
            /\ matches (atoms p) [] (df_match f) /\ occurs (df_match f) content.
Proof.
  induction set as [|p set IH]; simpl; [intros []|].
  destruct (finditer (atoms p) content) as [|m rest] eqn:E.
  - intros H. destruct (IH H) as (q & Hq & Hr). exists q. split; [now right | exact Hr].
  - intros [<-|H].
    + apply finditer_from_head in E as [Hm Ho].
      exists p. simpl. repeat split; auto.
    + destruct (IH H) as (q & Hq & Hr). exists q. split; [now right | exact Hr].
Qed.

(** X12. Every entry of a verdict's [dangerous_functions] quotes a text
    that occurs in the script and matches the signature it names; the
    entries of one verdict are all of the high tier or all of the medium
    tier, never mixed; and none carries a [context]. *)
Theorem dangerous_functions_are_evidence :
  forall (content : string) (i : nat),
    let verdict := _analyze_script_simplified content i in
    Forall
      (fun f =>
         exists p,
           (In p high_risk /\ df_risk f = "high"
            \/ In p medium_risk /\ df_risk f = "medium")
           /\ df_pattern f = source p /\ df_context f = None
           /\ matches (atoms p) [] (df_match f)
           /\ occurs (df_match f) content)
      (dangerous_functions verdict)
    /\ (Forall (fun f => df_risk f = "high") (dangerous_functions verdict)
        \/ Forall (fun f => df_risk f = "medium") (dangerous_functions verdict)).
Proof.
  intros content i verdict. subst verdict.
  unfold _analyze_script_simplified; cbn [dangerous_functions].
  assert (Hh : Forall
                 (fun f => exists p,
                      (In p high_risk /\ df_risk f = "high"
                       \/ In p medium_risk /\ df_risk f = "medium")
                      /\ df_pattern f = source p /\ df_context f = None
                      /\ matches (atoms p) [] (df_match f)
                      /\ occurs (df_match f) content)
                 (scan "high" high_risk content)).
  { apply Forall_forall. intros f Hf. apply list_elem_of_In in Hf.
    apply scan_evidence in Hf as (p & Hp & H1 & H2 & H3 & H4 & H5).
    exists p. repeat split; auto. }
  assert (Hm : Forall
                 (fun f => exists p,
                      (In p high_risk /\ df_risk f = "high"
                       \/ In p medium_risk /\ df_risk f = "medium")
                      /\ df_pattern f = source p /\ df_context f = None
                      /\ matches (atoms p) [] (df_match f)
                      /\ occurs (df_match f) content)
                 (scan "medium" medium_risk content)).
  { apply Forall_forall. intros f Hf. apply list_elem_of_In in Hf.
    apply scan_evidence in Hf as (p & Hp & H1 & H2 & H3 & H4 & H5).
    exists p. repeat split; auto. }
  destruct (high_risk_matches content) eqn:E.
  - apply ScriptAnalyzerProps.high_risk_matches_nil in E.
    assert (Hnil : scan "high" high_risk content = []).
    { apply length_zero_iff_nil.
      rewrite ScriptAnalyzerProps.scan_length.
      unfold ScoringRule.signatures_matched in E. lia. }
    rewrite Hnil. cbn [app]. split; [exact Hm|]. right.
    apply ScriptAnalyzerProps.scan_risk.
  - split; [exact Hh|]. left. apply ScriptAnalyzerProps.scan_risk.
Qed.

End ScorerProps.

(** ** More of the correlation synthesizer *)

Module SynthesizerProps.
Import PyStr HTMLParser VisualAnalyzer ScriptAnalyzer XSSDetector Counters.
Import Described.
#[local] Arguments String.append !_ _ / : simpl nomatch.

(** *** Descriptions and recommendations *)

Lemma nonempty_append a b : nonempty a = true -> nonempty (a +:+ b) = true.
Proof. destruct a; simpl; [discriminate | reflexivity]. Qed.

Lemma for_each_script_Forall (P : vulnerability_record -> Prop) url
  screenshot_path :
  (forall s v, high_risk_script url screenshot_path s = Ok v -> P v) ->
  (forall s, P (medium_risk_script url screenshot_path s)) ->
  forall scripts acc found,
    Forall P acc ->
    for_each scripts (script_step url screenshot_path) acc = Ok found ->
    Forall P found.
Proof.
  intros Hhigh Hmed. induction scripts as [|s scripts IH];
    intros acc found Hacc; simpl.
  - now intros [= <-].
  - unfold script_step at 1.
    destruct (String.eqb (risk_level s) "high").
    + destruct (high_risk_script url screenshot_path s) as [v|e] eqn:E;
        simpl; [|discriminate].
      apply IH. apply Forall_app. split; [exact Hacc|].
      constructor; [now apply (Hhigh s) | constructor].
    + destruct (String.eqb (risk_level s) "medium"
                && (60 <=? risk_score s)%Z); simpl.
      * apply IH. apply Forall_app. split; [exact Hacc|].
        constructor; [apply Hmed | constructor].
      * now apply IH.
Qed.

Lemma Forall_map_record {A : Type} (P : vulnerability_record -> Prop)
  (f : A -> vulnerability_record) (l : list A) :
  (forall a, P (f a)) -> Forall P (map f l).
Proof.
  intros H. apply Forall_forall. intros v Hv.
  apply list_elem_of_fmap in Hv as (a & -> & _). apply H.
Qed.

Lemma event_described url screenshot_path handler :
  described (event_vulnerability url screenshot_path handler).
Proof.
  unfold described, event_vulnerability; cbn [description recommendation].
  split; [|reflexivity].
  unfold critical_reason. destruct (List.find critical (eh_handlers handler))
    as [[event code]|]; reflexivity.
Qed.

(** X13. Every record that the synthesizer produces carries a
    description and a recommendation that are not empty. *)
Theorem records_are_described :
  forall url visual_analysis html_analysis script_analysis screenshot_path,
    Forall described
      (produced (_correlate_analyses url visual_analysis html_analysis
                   script_analysis screenshot_path)).
Proof.
  intros url visual h sa sp. unfold _correlate_analyses.
  destruct (_find_script_vulnerabilities url h sa sp) as [found|e] eqn:E;
    simpl; [|constructor].
  apply Forall_app; split; [|apply Forall_app; split; [|apply Forall_app; split]].
  - unfold _find_input_vulnerabilities. destruct visual as [v|].
    + apply Forall_forall. intros r Hr.
      apply list_elem_of_In, in_concat in Hr as (l1 & Hl1 & Hr).
      apply in_map_iff in Hl1 as (visual_input & <- & _).
      apply in_concat in Hr as (l2 & Hl2 & Hr).
      apply in_map_iff in Hl2 as (html_input & <- & _).
      unfold correlated_input in Hr.
      destruct (in_suspicious html_input || _); [|destruct Hr].
      destruct Hr as [<-|[]]. split; reflexivity.
    + apply Forall_map_record. intros a. split; reflexivity.
  - apply Forall_map_record. apply event_described.
  - unfold _find_script_vulnerabilities in E.
    destruct (for_each _ _ _) as [from_scripts|e] eqn:F; simpl in E;
      [|discriminate].
    injection E as <-. apply Forall_app. split.
    + eapply (for_each_script_Forall described); [| |constructor|exact F].
      * intros s v Hv. unfold high_risk_script in Hv.
        destruct (key_issues_of s); simpl in Hv; [|discriminate].
        injection Hv as <-. split; reflexivity.
      * intros s. split; reflexivity.
    + apply Forall_map_record. intros a. split; reflexivity.
  - unfold _find_url_vulnerabilities. apply Forall_app. split;
      apply Forall_map_record; intros a; split; reflexivity.
Qed.

(** *** The input pass behind the shipped scorer *)

Lemma shipped_verdicts_without_handling scripts :
  Forall (fun r => user_input_handling r = None)
    (script_analysis (ScriptAnalyzer.analyze scripts)).
Proof.
  apply Forall_forall. intros v Hv.
  apply (ScorerProps.analyze_from_spec scripts 0) in Hv
    as (i & s & content & _ & _ & _ & ->).
  reflexivity.
Qed.

Lemma no_handling_no_usage input_id input_name script_results :
  Forall (fun r => user_input_handling r = None) script_results ->
  dangerous_usage_of input_id input_name script_results = None.
Proof.
  unfold dangerous_usage_of. generalize (@None input_handling).
  induction script_results as [|r rs IH]; intros acc H; [reflexivity|].
  apply Forall_cons in H as [Hr Hrs]. cbn [fold_left]. rewrite Hr.
  now apply IH.
Qed.

Lemma correlated_without_usage url screenshot_path script_results
  visual_input html_input :
  dangerous_usage_of (in_id html_input) (in_name html_input) script_results
  = None ->
  Forall (fun v => severity v = Medio /\ subtype v = "suspicious_input")
    (correlated_input url screenshot_path script_results visual_input
       html_input)
  /\ List.length (correlated_input url screenshot_path script_results
                    visual_input html_input)
     = if in_suspicious html_input then 1 else 0.
Proof.
  intros H. unfold correlated_input. rewrite H.
  change (bool_decide (is_Some (@None input_handling))) with false.
  rewrite orb_false_r. destruct (in_suspicious html_input).
  - split; [|reflexivity]. constructor; [|constructor]. split; reflexivity.
  - split; [constructor | reflexivity].
Qed.

Lemma length_concat_map_flags {A B : Type} (f : A -> list B) (p : A -> bool)
  (l : list A) :
  (forall a, List.length (f a) = if p a then 1 else 0) ->
  List.length (List.concat (map f l)) = List.length (List.filter p l).
Proof.
  intros H. induction l as [|a l IH]; [reflexivity|].
  cbn [map List.concat List.filter]. rewrite length_app, H, IH.
  destruct (p a); reflexivity.
Qed.

Lemma length_concat_map_sum {A B : Type} (f : A -> list B) (l : list A) :
  List.length (List.concat (map f l))
  = list_sum (map (fun a => List.length (f a)) l).
Proof.
  induction l as [|a l IH]; [reflexivity|].
  cbn [map List.concat list_sum fold_right]. rewrite length_app, IH.
  reflexivity.
Qed.

(** X14. Behind the shipped scorer, whose verdicts carry no
    [user_input_handling], the input pass never confirms a dangerous
    usage: every record it yields is of severity [Medio] and none has the
    subtype [input_with_dangerous_usage]; and when a visual analysis is
    given, the pass yields one record for each visual field and each
    suspicious HTML input matched with it, so that it yields nothing when
    no field was detected. *)
Theorem input_pass_behind_shipped_scorer :
  forall url html_analysis scripts screenshot_path,
    (forall visual_analysis,
        Forall (fun v => severity v = Medio
                         /\ subtype v <> "input_with_dangerous_usage")
          (_find_input_vulnerabilities url visual_analysis html_analysis
             (ScriptAnalyzer.analyze scripts) screenshot_path))
    /\ (forall visual,
           List.length
             (_find_input_vulnerabilities url (Some visual) html_analysis
                (ScriptAnalyzer.analyze scripts) screenshot_path)
           = list_sum
               (map (fun field =>
                       List.length
                         (List.filter in_suspicious
                            (_find_matching_html_elements field
                               (inputs html_analysis))))
                    (input_fields visual))).
Proof.
  intros url h scripts sp.
  pose proof (shipped_verdicts_without_handling scripts) as Hnone.
  split.
  - intros [visual|]; unfold _find_input_vulnerabilities.
    + apply Forall_forall. intros r Hr.
      apply list_elem_of_In, in_concat in Hr as (l1 & Hl1 & Hr).
      apply in_map_iff in Hl1 as (visual_input & <- & _).
      apply in_concat in Hr as (l2 & Hl2 & Hr).
      apply in_map_iff in Hl2 as (html_input & <- & _).
      destruct (correlated_without_usage url sp
                  (script_analysis (ScriptAnalyzer.analyze scripts))
                  visual_input html_input) as [Hall _].
      { now apply no_handling_no_usage. }
      rewrite Forall_forall in Hall.
      apply list_elem_of_In, Hall in Hr as [Hs Ht].
      split; [exact Hs|]. rewrite Ht. discriminate.
    + apply Forall_map_record. intros a. split; [reflexivity|discriminate].
  - intros visual. unfold _find_input_vulnerabilities.
    rewrite length_concat_map_sum. f_equal. apply map_ext. intros field.
    apply length_concat_map_flags. intros html_input.
    apply correlated_without_usage. now apply no_handling_no_usage.
Qed.

(** *** The JSON report *)

Lemma count_of_count_up k k' d :
  count_of k (count_up k' d)
  = count_of k d + (if String.eqb k' k then 1 else 0).
Proof.
  induction d as [|[k0 n] d IH]; simpl.
  - destruct (String.eqb k' k); reflexivity.
  - destruct (String.eqb k0 k') eqn:E0; simpl.
    + apply String.eqb_eq in E0. subst k0.
      destruct (String.eqb k' k); lia.
    + destruct (String.eqb k0 k) eqn:E1; [|exact IH].
      apply String.eqb_eq in E1. rewrite <- E1, String.eqb_sym, E0. lia.
Qed.




Lemma positive_count_up k d :
  Forall (fun p => 0 < snd p) d -> Forall (fun p => 0 < snd p) (count_up k d).
Proof.
  induction d as [|[k0 n] d IH]; simpl; intros H.
  - constructor; [simpl; lia | constructor].
  - apply Forall_cons in H as [Hn Hd].
    destruct (String.eqb k0 k); constructor; simpl in *;
      [lia | exact Hd | exact Hn | now apply IH].
Qed.



End SynthesizerProps.

(** ** The data of the HTML report, and escaping *)

Module ReportDataProps.
Import PyStr PySlice XSSDetector ReportGenerator Counters.
Import ReportPreparation ReportTemplates.
#[local] Arguments String.append !_ _ / : simpl nomatch.

(** *** Deduplication keeps first occurrences *)

Lemma dedup_loop_first vulnerabilities :
  forall seen v,
    v ∈ dedup_loop seen vulnerabilities
    <-> (key v ∉ seen)
        /\ exists i, vulnerabilities !! i = Some v
                     /\ forall j u, j < i -> vulnerabilities !! j = Some u ->
                                    key u <> key v.
Proof.
  induction vulnerabilities as [|x rest IH]; intros seen v.
  - simpl. split; [intros H; inversion H | intros (_ & i & H & _); discriminate].
  - cbn [dedup_loop]. destruct (decide (key x ∈ seen)) as [Hin|Hout].
    + rewrite IH. split.
      * intros (Hv & i & Hi & Hfirst). split; [exact Hv|].
        exists (S i). split; [exact Hi|]. intros [|j] u Hj Hu.
        -- injection Hu as <-. intros E. apply Hv. now rewrite <- E.
        -- apply (Hfirst j); [lia | exact Hu].
      * intros (Hv & [|i] & Hi & Hfirst).
        -- injection Hi as <-. contradiction.
        -- split; [exact Hv|]. exists i. split; [exact Hi|].
           intros j u Hj Hu. apply (Hfirst (S j)); [lia | exact Hu].
    + rewrite elem_of_cons, IH. split.
      * intros [->|(Hv & i & Hi & Hfirst)].
        -- split; [exact Hout|]. exists 0. split; [reflexivity|]. intros; lia.
        -- split; [intros Hs; apply Hv, elem_of_union_r, Hs|].
           exists (S i). split; [exact Hi|]. intros [|j] u Hj Hu.
           ++ injection Hu as <-. intros E. apply Hv, elem_of_union_l.
              now apply elem_of_singleton.
           ++ apply (Hfirst j); [lia | exact Hu].
      * intros (Hv & [|i] & Hi & Hfirst).
        -- injection Hi as <-. now left.
        -- right. split.
           ++ intros Hk. apply elem_of_union in Hk as [Hk|Hk]; [|now apply Hv].
              apply elem_of_singleton in Hk.
              apply (Hfirst 0 x); [lia | reflexivity | now symmetry].
           ++ exists i. split; [exact Hi|].
              intros j u Hj Hu. apply (Hfirst (S j)); [lia | exact Hu].
Qed.

Lemma dedup_loop_distinct vulnerabilities :
  forall seen,
    (forall v, v ∈ vulnerabilities -> key v ∉ seen) ->
    NoDup (map key vulnerabilities) ->
    dedup_loop seen vulnerabilities = vulnerabilities.
Proof.
  induction vulnerabilities as [|x rest IH]; intros seen Hfresh Hnd;
    [reflexivity|].
  cbn [dedup_loop]. cbn [map] in Hnd. apply NoDup_cons in Hnd as [Hx Hnd].
  destruct (decide (key x ∈ seen)) as [Hin|_].
  - exfalso. apply (Hfresh x); [apply list_elem_of_here | exact Hin].
  - f_equal. apply IH; [|exact Hnd]. intros v Hv Hk.
    apply elem_of_union in Hk as [Hk|Hk].
    + apply elem_of_singleton in Hk. apply Hx. rewrite <- Hk.
      apply list_elem_of_fmap. now exists v.
    + apply (Hfresh v); [now apply list_elem_of_further | exact Hk].
Qed.

(** X16. Deduplication keeps of each key the first record that has it:
    a record survives exactly when it stands at a place of the input
    before which no record has its key; and the input is returned
    unchanged exactly when its keys are pairwise different. *)
Theorem deduplicate_keeps_first_occurrences :
  forall vulnerabilities : list vulnerability_record,
    (forall v,
        v ∈ _deduplicate_vulnerabilities vulnerabilities
        <-> exists i, vulnerabilities !! i = Some v
                      /\ forall j u, j < i -> vulnerabilities !! j = Some u ->
                                     key u <> key v)
    /\ (_deduplicate_vulnerabilities vulnerabilities = vulnerabilities
        <-> NoDup (map key vulnerabilities)).
Proof.
  intros vulnerabilities. split.
  - intros v. unfold _deduplicate_vulnerabilities. rewrite dedup_loop_first.
    split; [now intros [_ H] | intros H; split; [|exact H]].
    apply not_elem_of_empty.
  - split.
    + intros E. rewrite <- E. apply ReportGeneratorProps.dedup_loop_keys.
    + intros Hnd. apply dedup_loop_distinct; [|exact Hnd].
      intros v _. apply not_elem_of_empty.
Qed.

(** *** The data of the HTML report *)

Lemma lookup_enumerate_from {A : Type} (l : list A) : forall k i a,
  l !! i = Some a ->
  combine (seq k (List.length l)) l !! i = Some (k + i, a).
Proof.
  induction l as [|x l IH]; intros k i a H; [discriminate|].
  destruct i as [|i]; cbn [List.length seq combine].
  - injection H as <-. cbn. do 2 f_equal. lia.
  - change (combine (seq (S k) (List.length l)) l !! i = Some (k + S i, a)).
    rewrite (IH (S k) i a H). do 2 f_equal. lia.
Qed.

Lemma length_enumerate_from {A : Type} (l : list A) : forall k,
  List.length (combine (seq k (List.length l)) l) = List.length l.
Proof.
  intros k. rewrite length_combine, length_seq. lia.
Qed.

Lemma group_of_group_append u k v d :
  group_of u (group_append k v d)
  = group_of u d ++ (if String.eqb k u then [v] else []).
Proof.
  induction d as [|[k0 l] d IH]; cbn [group_append group_of].
  - destruct (String.eqb k u); reflexivity.
  - destruct (String.eqb k0 k) eqn:E0; cbn [group_of].
    + apply String.eqb_eq in E0. subst k0.
      destruct (String.eqb k u); [reflexivity | now rewrite app_nil_r].
    + destruct (String.eqb k0 u) eqn:E1; [|exact IH].
      apply String.eqb_eq in E1. rewrite <- E1, String.eqb_sym, E0.
      now rewrite app_nil_r.
Qed.

Lemma keys_group_append u k v d :
  u ∈ map fst (group_append k v d) <-> u = k \/ u ∈ map fst d.
Proof.
  induction d as [|[k0 l] d IH]; cbn [group_append map fst].
  - rewrite elem_of_cons. split; [intros [H|H]; [now left | inversion H]
                                  | intros [H|H]; [now left | inversion H]].
  - destruct (String.eqb k0 k) eqn:E0; cbn [map fst].
    + apply String.eqb_eq in E0. subst k0. rewrite !elem_of_cons. tauto.
    + rewrite !elem_of_cons, IH. tauto.
Qed.

Lemma nodup_group_append k v d :
  NoDup (map fst d) -> NoDup (map fst (group_append k v d)).
Proof.
  induction d as [|[k0 l] d IH]; cbn [group_append map fst]; intros H.
  - constructor; [intros H'; inversion H' | constructor].
  - apply NoDup_cons in H as [Hk0 Hd].
    destruct (String.eqb k0 k) eqn:E0; cbn [map fst].
    + now constructor.
    + constructor; [|now apply IH]. rewrite keys_group_append. intros [E|H].
      * apply String.eqb_neq in E0. now apply E0.
      * now apply Hk0.
Qed.

(** the clean copy that the loop makes of the finding at an index *)
Lemma fold_prepare_step (ivs : list (nat * vulnerability_record)) :
  forall r,
    let r' := fold_left prepare_step ivs r in
    rd_timestamp r' = rd_timestamp r
    /\ rd_total_vulnerabilities r' = rd_total_vulnerabilities r
    /\ rd_vulnerabilities r'
       = rd_vulnerabilities r
         ++ map (fun iv =>
                   {| cv_id := "vuln_" +:+ str_of_nat (fst iv + 1);
                      cv_type := vtype (snd iv);
                      cv_subtype := subtype (snd iv);
                      cv_url := url (snd iv);
                      cv_severity := severity (snd iv);
                      cv_description := description (snd iv);
                      cv_recommendation := recommendation (snd iv);
                      cv_screenshot := screenshot (snd iv) |}) ivs
    /\ rd_urls_analyzed r'
       = list_to_set (map (fun iv => url (snd iv)) ivs) ∪ rd_urls_analyzed r
    /\ (forall u, group_of u (rd_vulnerabilities_by_url r')
                  = group_of u (rd_vulnerabilities_by_url r)
                    ++ List.filter (fun v => String.eqb (url v) u)
                         (map snd ivs))
    /\ (forall u, u ∈ map fst (rd_vulnerabilities_by_url r')
                  <-> u ∈ map fst (rd_vulnerabilities_by_url r)
                      \/ u ∈ map (fun iv => url (snd iv)) ivs)
    /\ (NoDup (map fst (rd_vulnerabilities_by_url r))
        -> NoDup (map fst (rd_vulnerabilities_by_url r')))
    /\ (forall k, count_of k (rd_vulnerabilities_by_type r')
                  = count_of k (rd_vulnerabilities_by_type r)
                    + occurrences vtype k (map snd ivs))
    /\ (forall k, count_of k (rd_vulnerabilities_by_severity r')
                  = count_of k (rd_vulnerabilities_by_severity r)
                    + occurrences severity k (map snd ivs)).
Proof.
  induction ivs as [|[i v] ivs IH]; intros r; cbv zeta.
  - cbn [fold_left map List.filter list_to_set]. unfold occurrences.
    cbn [List.filter List.length]. rewrite !app_nil_r.
    repeat split; try reflexivity; try tauto.
    + now rewrite union_empty_l_L.
    + intros u. now rewrite app_nil_r.
    + intros [H|H]; [exact H | inversion H].
    + intros k. lia.
    + intros k. lia.
  - cbn [fold_left].
    destruct (IH (prepare_step r (i, v)))
      as (Ht & Hn & Hv & Hu & Hg & Hk & Hnd & Hty & Hse).
    cbv zeta in *.
    split; [rewrite Ht; reflexivity|].
    split; [rewrite Hn; reflexivity|].
    split; [rewrite Hv; cbn [rd_vulnerabilities prepare_step map fst snd];
            rewrite <- app_assoc; reflexivity|].
    split; [rewrite Hu; cbn [rd_urls_analyzed prepare_step map fst snd
                               list_to_set];
            rewrite union_assoc_L, (union_comm_L _ {[url v]}); reflexivity|].
    split.
    { intros u. rewrite Hg. cbn [rd_vulnerabilities_by_url prepare_step].
      rewrite group_of_group_append, <- app_assoc. f_equal.
      cbn [map snd List.filter]. destruct (String.eqb (url v) u); reflexivity. }
    split.
    { intros u. rewrite Hk. cbn [rd_vulnerabilities_by_url prepare_step].
      rewrite keys_group_append. cbn [map snd]. rewrite elem_of_cons. tauto. }
    split.
    { intros H. apply Hnd. cbn [rd_vulnerabilities_by_url prepare_step].
      now apply nodup_group_append. }
    split.
    { intros k. rewrite Hty. cbn [rd_vulnerabilities_by_type prepare_step].
      rewrite SynthesizerProps.count_of_count_up. unfold occurrences.
      cbn [map snd List.filter]. destruct (String.eqb (vtype v) k);
        cbn [List.length]; lia. }
    { intros k. rewrite Hse. cbn [rd_vulnerabilities_by_severity prepare_step].
      rewrite SynthesizerProps.count_of_count_up. unfold occurrences.
      cbn [map snd List.filter]. destruct (String.eqb (severity v) k);
        cbn [List.length]; lia. }
Qed.

Lemma snd_enumerate {A : Type} (l : list A) : forall k,
  map snd (combine (seq k (List.length l)) l) = l.
Proof.
  induction l as [|x l IH]; intros k; [reflexivity|].
  cbn [List.length seq combine map snd]. now rewrite IH.
Qed.

(** X17. In the data that [_prepare_report_data] makes of a list of
    findings, the total is the length of the list; the clean copies
    stand in the order of the findings, the copy of the finding at index
    [i] being named [vuln_(i+1)], so that no identifier occurs twice;
    the analyzed URLs are the URLs of the findings; the groups by URL
    have these URLs as keys, each once, and the group of a URL holds the
    findings of that URL in their order; and the counter of a type (of a
    severity) is the number of the findings that have it. *)
Theorem prepared_data_is_consistent :
  forall (now : string) (vulnerabilities : list vulnerability_record),
    let r := _prepare_report_data now vulnerabilities in
    rd_total_vulnerabilities r = List.length vulnerabilities
    /\ List.length (rd_vulnerabilities r) = List.length vulnerabilities
    /\ (forall i v,
           vulnerabilities !! i = Some v ->
           exists c,
             rd_vulnerabilities r !! i = Some c
             /\ cv_id c = "vuln_" +:+ str_of_nat (i + 1)
             /\ copied c v)
    /\ NoDup (map cv_id (rd_vulnerabilities r))
    /\ rd_urls_analyzed r = list_to_set (map url vulnerabilities)
    /\ NoDup (map fst (rd_vulnerabilities_by_url r))
    /\ (forall u, u ∈ map fst (rd_vulnerabilities_by_url r)
                  <-> u ∈ rd_urls_analyzed r)
    /\ (forall u, group_of u (rd_vulnerabilities_by_url r)
                  = List.filter (fun v => String.eqb (url v) u)
                      vulnerabilities)
    /\ (forall k, count_of k (rd_vulnerabilities_by_type r)
                  = occurrences vtype k vulnerabilities)
    /\ (forall k, count_of k (rd_vulnerabilities_by_severity r)
                  = occurrences severity k vulnerabilities).
Proof.
  intros now vulns. cbv zeta. unfold _prepare_report_data, enumerate.
  set (r0 := {| rd_timestamp := now;
                rd_total_vulnerabilities := List.length vulns;
                rd_urls_analyzed := ∅;
                rd_vulnerabilities_by_type := [];
                rd_vulnerabilities_by_severity := [];
                rd_vulnerabilities_by_url := [];
                rd_vulnerabilities := [] |}).
  set (ivs := combine (seq 0 (List.length vulns)) vulns).
  destruct (fold_prepare_step ivs r0)
    as (Ht & Hn & Hv & Hu & Hg & Hk & Hnd & Hty & Hse).
  cbv zeta in *.
  assert (Hsnd : map snd ivs = vulns) by apply snd_enumerate.
  assert (Hurls : map (fun iv => url (snd iv)) ivs = map url vulns).
  { rewrite <- Hsnd, map_map. reflexivity. }
  assert (Hat : forall i v,
             vulns !! i = Some v ->
             exists c,
               rd_vulnerabilities (fold_left prepare_step ivs r0) !! i
               = Some c
               /\ cv_id c = "vuln_" +:+ str_of_nat (i + 1)
               /\ copied c v).
  { intros i v Hi. rewrite Hv. cbn [rd_vulnerabilities r0 app].
    rewrite list_lookup_fmap.
    unfold ivs. rewrite (lookup_enumerate_from vulns 0 i v Hi).
    eexists. split; [reflexivity|]. split; [reflexivity|].
    repeat split. }
  assert (Hlen : List.length (rd_vulnerabilities (fold_left prepare_step ivs r0))
                 = List.length vulns).
  { rewrite Hv. cbn [rd_vulnerabilities r0 app].
    rewrite length_map. apply length_enumerate_from. }
  split; [exact Hn|]. split; [exact Hlen|]. split; [exact Hat|].
  split.
  { apply NoDup_alt. intros i j x Hi Hj.
    rewrite list_lookup_fmap in Hi, Hj.
    destruct (rd_vulnerabilities (fold_left prepare_step ivs r0) !! i)
      as [ci|] eqn:Ei; [|discriminate].
    destruct (rd_vulnerabilities (fold_left prepare_step ivs r0) !! j)
      as [cj|] eqn:Ej; [|discriminate].
    cbn in Hi, Hj. injection Hi as Hi. injection Hj as Hj.
    assert (Hi' : i < List.length vulns).
    { rewrite <- Hlen. apply lookup_lt_is_Some. now exists ci. }
    assert (Hj' : j < List.length vulns).
    { rewrite <- Hlen. apply lookup_lt_is_Some. now exists cj. }
    apply lookup_lt_is_Some in Hi' as [vi Hvi].
    apply lookup_lt_is_Some in Hj' as [vj Hvj].
    destruct (Hat i vi Hvi) as (c & Hc & Hid & _).
    destruct (Hat j vj Hvj) as (c' & Hc' & Hid' & _).
    rewrite Ei in Hc. injection Hc as <-.
    rewrite Ej in Hc'. injection Hc' as <-.
    rewrite Hid in Hi. rewrite Hid' in Hj. rewrite <- Hj in Hi.
    apply (ScorerProps.append_inj_r "vuln_") in Hi.
    apply ScorerProps.str_of_nat_inj in Hi. lia. }
  split.
  { rewrite Hu, Hurls. cbn [rd_urls_analyzed r0]. now rewrite union_empty_r_L. }
  split; [apply Hnd; constructor|].
  split.
  { intros u. rewrite Hk, Hu, Hurls. cbn [rd_vulnerabilities_by_url
      rd_urls_analyzed r0 map]. rewrite union_empty_r_L, elem_of_list_to_set.
    split; [intros [H|H]; [inversion H | exact H] | now right]. }
  split; [intros u; rewrite Hg, Hsnd; reflexivity|].
  split; [intros k; rewrite Hty, Hsnd; reflexivity
         | intros k; rewrite Hse, Hsnd; reflexivity].
Qed.

End ReportDataProps.

(** ** Escaping the texts of the HTML report *)

Module ReportTemplatesProps.
Import PyStr PySlice ReportTemplates.
#[local] Arguments String.append !_ _ / : simpl nomatch.

Lemma replace_char_app c by_ (a b : string) :
  replace_char c by_ (a +:+ b)
  = replace_char c by_ a +:+ replace_char c by_ b.
Proof.
  induction a as [|x a IH]; [reflexivity|].
  cbn [String.append replace_char]. rewrite IH.
  destruct (Ascii.eqb x c); [|reflexivity].
  now rewrite ReProps.append_assoc.
Qed.

(** the five replacements, in the order of the source *)
Lemma replacements_of_one_char (a : ascii) :
  replace_char apos "&#39;"
    (replace_char quot "&quot;"
       (replace_char ">" "&gt;"
          (replace_char "<" "&lt;"
             (replace_char "&" "&amp;" (String a EmptyString)))))
  = escape_char a.
Proof.
  destruct a as [[] [] [] [] [] [] [] []]; reflexivity.
Qed.

Lemma replacements_escape (s : string) :
  replace_char apos "&#39;"
    (replace_char quot "&quot;"
       (replace_char ">" "&gt;"
          (replace_char "<" "&lt;"
             (replace_char "&" "&amp;" s))))
  = escape s.
Proof.
  induction s as [|a s IH]; [reflexivity|].
  change (String a s) with (String a EmptyString +:+ s).
  rewrite !replace_char_app, replacements_of_one_char, IH. reflexivity.
Qed.

Lemma sanitize_escape (text : string) :
  _sanitize_html text = escape (limited text).
Proof.
  unfold _sanitize_html, limited. destruct text as [|c text]; [reflexivity|].
  cbn [nonempty negb]. cbv zeta. apply replacements_escape.
Qed.

Lemma limited_short (text : string) :
  (len text <= 5000)%Z -> limited text = text.
Proof.
  intros H. unfold limited.
  destruct (5000 <? len text)%Z eqn:E; [|reflexivity].
  apply Z.ltb_lt in E. lia.
Qed.

Lemma limited_length (text : string) : (len (limited text) <= 5020)%Z.
Proof.
  unfold limited. destruct (5000 <? len text)%Z eqn:E.
  - unfold len.
    rewrite PySliceProps.length_append, PySliceProps.length_take.
    change (String.length "... (texto truncado)") with 20. lia.
  - apply Z.ltb_ge in E. lia.
Qed.

Lemma escape_char_length (a : ascii) :
  1 <= String.length (escape_char a) <= 6.
Proof.
  unfold escape_char.
  repeat (match goal with
          | |- context [if ?b then _ else _] => destruct b
          end); simpl; lia.
Qed.

Lemma escape_length (s : string) :
  String.length s <= String.length (escape s) <= 6 * String.length s.
Proof.
  induction s as [|a s IH]; [simpl; lia|].
  cbn [escape]. rewrite PySliceProps.length_append.
  pose proof (escape_char_length a). cbn [String.length]. lia.
Qed.

Lemma has_app c (a b : string) : has c (a +:+ b) = has c a || has c b.
Proof.
  induction a as [|x a IH]; [reflexivity|].
  cbn [String.append has]. rewrite IH. now rewrite orb_assoc.
Qed.

Lemma escape_char_clean (a : ascii) :
  Forall (fun c => has c (escape_char a) = false) markup_chars.
Proof.
  destruct a as [[] [] [] [] [] [] [] []];
    repeat constructor.
Qed.

Lemma escape_clean (s : string) :
  Forall (fun c => has c (escape s) = false) markup_chars.
Proof.
  induction s as [|a s IH]; [repeat constructor|].
  cbn [escape]. pose proof (escape_char_clean a) as Ha.
  rewrite Forall_forall in *. intros c Hc.
  rewrite has_app, (Ha c Hc), (IH c Hc). reflexivity.
Qed.

(** X18. The five replacements of [_sanitize_html], one after the
    other, amount to escaping the limited text in one pass, character by
    character: the ampersands of the entities that the later
    replacements write are not escaped again, and no entity is split. *)
Theorem sanitize_is_one_pass_escape :
  forall text : string,
    _sanitize_html text = escape (limited text)
    /\ (forall a b : string,
           escape (a +:+ b) = escape a +:+ escape b)
    /\ ((len text <= 5000)%Z -> _sanitize_html text = escape text).
Proof.
  intros text. split; [apply sanitize_escape|]. split.
  - intros a b. rewrite <- !replacements_escape.
    now rewrite !replace_char_app.
  - intros H. rewrite sanitize_escape, limited_short; [reflexivity | exact H].
Qed.

(** X19. The text that [_sanitize_html] returns holds none of the
    characters that end or open markup (the two angle brackets and the
    two quotes), whatever the text given; and it has at most 30120
    characters, six for each of the at most 5020 characters of the
    limited text. *)
Theorem sanitized_text_has_no_markup :
  forall text : string,
    Forall (fun c => has c (_sanitize_html text) = false) markup_chars
    /\ (len (_sanitize_html text) <= 30120)%Z.
Proof.
  intros text. rewrite sanitize_escape. split; [apply escape_clean|].
  pose proof (escape_length (limited text)).
  pose proof (limited_length text). unfold len in *. lia.
Qed.

(** *** Escaping loses nothing *)

Lemma escape_char_cases (a : ascii) :
  (a <> "&"%char /\ escape_char a = String a EmptyString)
  \/ In (a, escape_char a)
       [("&"%char, "&amp;"); ("<"%char, "&lt;"); (">"%char, "&gt;");
        (quot, "&quot;"); (apos, "&#39;")].
Proof.
  destruct a as [[] [] [] [] [] [] [] []];
    first [ left; split; [discriminate | reflexivity]
          | right; vm_compute; auto 10 ].
Qed.

(** the text of a character is never the beginning of the text of
    another *)
Lemma escape_char_prefix_free (a b : ascii) (r r' : string) :
  escape_char a +:+ r = escape_char b +:+ r' -> a = b /\ r = r'.
Proof.
  intros H.
  destruct (escape_char_cases a) as [[Ha Ea]|Ia];
    destruct (escape_char_cases b) as [[Hb Eb]|Ib].
  - rewrite Ea, Eb in H. simpl in H. injection H as H1 H2. now split.
  - simpl in Ib.
    destruct Ib as [Ib|[Ib|[Ib|[Ib|[Ib|[]]]]]];
      injection Ib as Hb Eb; rewrite Ea, <- Eb in H; simpl in H;
      injection H as H1 _; contradiction.
  - simpl in Ia.
    destruct Ia as [Ia|[Ia|[Ia|[Ia|[Ia|[]]]]]];
      injection Ia as Ha Ea; rewrite <- Ea, Eb in H; simpl in H;
      injection H as H1 _; symmetry in H1; contradiction.
  - simpl in Ia, Ib.
    destruct Ia as [Ia|[Ia|[Ia|[Ia|[Ia|[]]]]]];
      destruct Ib as [Ib|[Ib|[Ib|[Ib|[Ib|[]]]]]];
      injection Ia as Ha Ea; injection Ib as Hb Eb; rewrite <- Ea, <- Eb in H;
      subst a b; simpl in H;
      first [ discriminate H
            | split; [reflexivity | now injection H] ].
Qed.

Lemma escape_injective (a : string) : forall b,
  escape a = escape b -> a = b.
Proof.
  induction a as [|x a IH]; intros [|y b] H.
  - reflexivity.
  - exfalso. cbn [escape] in H.
    pose proof (escape_char_length y) as Hy.
    apply (f_equal String.length) in H.
    rewrite PySliceProps.length_append in H. simpl in H. lia.
  - exfalso. cbn [escape] in H.
    pose proof (escape_char_length x) as Hx.
    apply (f_equal String.length) in H.
    rewrite PySliceProps.length_append in H. simpl in H. lia.
  - cbn [escape] in H. apply escape_char_prefix_free in H as [-> H].
    f_equal. now apply IH.
Qed.

(** X20. Escaping loses nothing of a text that is not cut: two
    different texts of at most 5000 characters have different sanitized
    texts, so a text that already holds an entity is not mistaken for
    the character that the entity stands for. *)
Theorem sanitize_keeps_texts_apart :
  forall a b : string,
    (len a <= 5000)%Z -> (len b <= 5000)%Z ->
    a <> b ->
    _sanitize_html a <> _sanitize_html b.
Proof.
  intros a b Ha Hb Hab E. apply Hab.
  rewrite !sanitize_escape, !limited_short in E by assumption.
  now apply escape_injective.
Qed.

Lemma sanitize_keeps_texts_apart_witness :
  _sanitize_html "<" <> _sanitize_html "&lt;".
Proof.
  apply (sanitize_keeps_texts_apart "<" "&lt;").
  - vm_compute. discriminate.
  - vm_compute. discriminate.
  - discriminate.
Defined.

End ReportTemplatesProps.

(** ** The crawl *)

Module WebCrawlerProps.
Import PyStr ScriptAnalyzer WebCrawler.

Section Crawl.

Variable world : Type.
Variable time : Type.
Variable load :
  string -> world ->
  world * option (string * list script * list string * option string * time).
Variable netloc : string -> try string.
Variable _init_driver : world -> world * try unit.
Variable _close_driver : world -> world * try unit.

Local Abbreviation state := (state world time).
Local Abbreviation page_data := (page_data time).
Local Abbreviation crawl_levels := (crawl_levels world time load netloc).
Local Abbreviation extends_by := (extends_by netloc).

Lemma get_page_data_url url w w' (page : page_data) :
  _get_page_data world time load url w = (w', Some page) ->
  pd_url page = url.
Proof.
  unfold _get_page_data.
  destruct (load url w) as [w1 [[[[[html scripts] links] shot] t]|]];
    [|discriminate].
  now intros [= _ <-].
Qed.

Lemma same_domain_spec base_domain visited links :
  forall kept,
    same_domain netloc base_domain visited links = Fine kept ->
    forall link, link ∈ kept ->
                 link ∈ links /\ (link ∉ visited)
                 /\ netloc link = Fine base_domain.
Proof.
  induction links as [|l links IH]; intros kept H link Hin.
  - injection H as <-. inversion Hin.
  - cbn [same_domain] in H.
    destruct (netloc l) as [domain|e] eqn:El; [|discriminate].
    destruct (same_domain netloc base_domain visited links)
      as [rest|e]; [|discriminate].
    injection H as <-.
    destruct (String.eqb domain base_domain) eqn:Ed; cbn [andb] in Hin.
    + destruct (bool_decide (l ∉ visited)) eqn:Ev.
      * apply elem_of_cons in Hin as [->|Hin].
        -- apply String.eqb_eq in Ed. subst domain.
           apply bool_decide_eq_true in Ev.
           split; [apply list_elem_of_here | now split].
        -- destruct (IH rest eq_refl link Hin) as (H1 & H2 & H3).
           split; [now apply list_elem_of_further | now split].
      * destruct (IH rest eq_refl link Hin) as (H1 & H2 & H3).
        split; [now apply list_elem_of_further | now split].
    + destruct (IH rest eq_refl link Hin) as (H1 & H2 & H3).
      split; [now apply list_elem_of_further | now split].
Qed.

Lemma extends_by_nothing bound domain (s s' : state) :
  visited_urls s ⊆ visited_urls s' ->
  pages_data s' = pages_data s ->
  extends_by [] bound domain s s'.
Proof.
  intros Hv Hp. split; [exact Hv|]. split; [now rewrite app_nil_r|].
  split; [simpl; lia|]. split; [constructor|]. intros p Hp'. inversion Hp'.
Qed.

Lemma extends_by_more new1 new2 b1 b2 domain (s s1 s2 : state) :
  extends_by new1 b1 domain s s1 ->
  extends_by new2 b2 domain s1 s2 ->
  extends_by (new1 ++ new2) (b1 + b2) domain s s2.
Proof.
  intros (Hv1 & Hp1 & Hb1 & Hn1 & Hu1) (Hv2 & Hp2 & Hb2 & Hn2 & Hu2).
  split; [etransitivity; eassumption|].
  split; [rewrite Hp2, Hp1, app_assoc; reflexivity|].
  split; [rewrite length_app; lia|].
  split.
  - rewrite map_app. apply NoDup_app. split; [exact Hn1|].
    split; [|exact Hn2]. intros u Hu Hu'.
    apply list_elem_of_fmap in Hu as (p & -> & Hp).
    apply list_elem_of_fmap in Hu' as (p' & E & Hp').
    destruct (Hu1 p Hp) as (_ & Hin & _).
    destruct (Hu2 p' Hp') as (Hout & _ & _).
    apply Hout. now rewrite <- E.
  - intros p Hp. apply elem_of_app in Hp as [Hp|Hp].
    + destruct (Hu1 p Hp) as (Hout & Hin & Hd).
      split; [exact Hout|]. split; [now apply Hv2 | exact Hd].
    + destruct (Hu2 p Hp) as (Hout & Hin & Hd).
      split; [intros H; now apply Hout, Hv1|]. now split.
Qed.

Lemma extends_by_bound new b b' domain (s s' : state) :
  b <= b' -> extends_by new b domain s s' -> extends_by new b' domain s s'.
Proof.
  intros Hb (Hv & Hp & Hl & Hn & Hu). repeat split; try assumption; try lia.
  all: now apply Hu.
Qed.

Lemma visit_each_extends (visit : string -> state -> state * try unit)
  bound domain links :
  (forall link s s' r,
      link ∈ links -> visit link s = (s', r) ->
      exists new, extends_by new bound domain s s') ->
  forall s s' r,
    visit_each world time visit links s = (s', r) ->
    exists new,
      extends_by new (List.length links * bound) domain s s'.
Proof.
  induction links as [|l links IH]; intros Hvisit s s' r H.
  - injection H as <- _. exists []. now apply extends_by_nothing.
  - cbn [visit_each] in H.
    destruct (visit l s) as [s1 [[]|e]] eqn:E.
    + destruct (Hvisit l s s1 _ (list_elem_of_here _ _) E) as [new1 H1].
      destruct (IH (fun link s s' r Hin =>
                      Hvisit link s s' r (list_elem_of_further _ _ _ Hin))
                   s1 s' r H) as [new2 H2].
      exists (new1 ++ new2). cbn [List.length].
      replace (S (List.length links) * bound)
        with (bound + List.length links * bound) by lia.
      now apply extends_by_more with s1.
    + injection H as <- _.
      destruct (Hvisit l s s1 _ (list_elem_of_here _ _) E) as [new1 H1].
      exists new1. apply extends_by_bound with bound; [cbn; lia | exact H1].
Qed.

(** what the recursion adds, and where it starts *)
Lemma crawl_levels_extends levels :
  forall url (s s' : state) r,
    crawl_levels levels url s = (s', r) ->
    exists new,
      extends_by new (page_bound levels) (netloc url) s s'
      /\ (forall p, head new = Some p -> pd_url p = url).
Proof.
  induction levels as [|below IH]; intros url s s' r H.
  - injection H as <- _. exists []. split; [|discriminate].
    now apply extends_by_nothing.
  - cbn [WebCrawler.crawl_levels] in H.
    destruct (bool_decide (url ∈ visited_urls s)) eqn:Ev.
    { injection H as <- _. exists []. split; [|discriminate].
      now apply extends_by_nothing. }
    apply bool_decide_eq_false in Ev.
    destruct (_get_page_data world time load url (driver s))
      as [w [page|]] eqn:Eg.
    2:{ injection H as <- _. exists []. split; [|discriminate].
        apply extends_by_nothing; [|reflexivity].
        cbn [visited_urls]. apply union_subseteq_r. }
    apply get_page_data_url in Eg.
    set (s1 := {| visited_urls := {[url]} ∪ visited_urls s;
                  pages_data := pages_data s ++ [page];
                  driver := w |}) in *.
    assert (H1 : extends_by [page] 1 (netloc url) s s1).
    { split; [cbn [visited_urls s1]; apply union_subseteq_r|].
      split; [reflexivity|]. split; [simpl; lia|].
      split; [simpl; apply NoDup_singleton|].
      intros p Hp. apply list_elem_of_singleton in Hp. subst p.
      rewrite Eg. split; [exact Ev|]. split; [|reflexivity].
      cbn [visited_urls s1]. apply elem_of_union_l.
      now apply elem_of_singleton. }
    assert (Hstop : forall r', (s1, r') = (s', r) ->
              exists new,
                extends_by new (page_bound (S below)) (netloc url) s s'
                /\ (forall p, head new = Some p -> pd_url p = url)).
    { intros r' [= <- _]. exists [page]. split.
      - apply extends_by_bound with 1; [cbn; lia | exact H1].
      - intros p [= <-]. exact Eg. }
    destruct (netloc url) as [base_domain|e] eqn:En; [|exact (Hstop _ H)].
    destruct (same_domain netloc base_domain ({[url]} ∪ visited_urls s)
                (pd_links page)) as [kept|e] eqn:Es;
      [|exact (Hstop _ H)].
    destruct (visit_each_extends (crawl_levels below) (page_bound below)
                (Fine base_domain) (firstn 10 kept)) with (s := s1)
      (s' := s') (r := r) as [new2 H2].
    { intros link t t' r' Hin Ht.
      destruct (IH link t t' r' Ht) as (new & Hnew & _).
      exists new.
      assert (Hk : link ∈ kept).
      { now apply (subseteq_take 10 kept). }
      destruct (same_domain_spec _ _ _ _ Es link Hk) as (_ & _ & Hd).
      now rewrite <- Hd. }
    { exact H. }
    exists ([page] ++ new2). split.
    + apply extends_by_bound with (1 + List.length (firstn 10 kept)
                                       * page_bound below).
      * pose proof (firstn_le_length 10 kept).
        assert (List.length (firstn 10 kept) <= 10).
        { rewrite length_firstn. lia. }
        cbn [page_bound]. nia.
      * now apply extends_by_more with s1.
    + intros p [= <-]. exact Eg.
Qed.

Lemma crawl_recursive_adds url depth :
  forall s s' r,
    _crawl_recursive world time load netloc url depth s = (s', r) ->
    exists new,
      pages_data s' = pages_data s ++ new
      /\ visited_urls s ⊆ visited_urls s'
      /\ NoDup (map pd_url new)
      /\ Forall (fun p => (pd_url p ∉ visited_urls s)
                          /\ (pd_url p ∈ visited_urls s')
                          /\ netloc (pd_url p) = netloc url) new
      /\ (forall p, head new = Some p -> pd_url p = url)
      /\ List.length new <= page_bound (Z.to_nat depth).
Proof.
  intros s s' r H. unfold _crawl_recursive in H.
  destruct (crawl_levels_extends _ _ _ _ _ H)
    as (new & (Hv & Hp & Hl & Hn & Hu) & Hh).
  exists new. repeat split; try assumption.
  apply Forall_forall. exact Hu.
Qed.

Lemma crawl_fine_pages url depth visited w after pages :
  crawl world time load netloc _init_driver _close_driver url depth
    visited w = (after, Fine pages) ->
  NoDup (map pd_url pages)
  /\ Forall (fun p => (pd_url p ∈ fst after)
                      /\ netloc (pd_url p) = netloc url) pages
  /\ (forall p, head pages = Some p -> pd_url p = url)
  /\ List.length pages <= page_bound (Z.to_nat depth).
Proof.
  unfold crawl.
  destruct (_init_driver w) as [w0 [[]|e]]; [|discriminate].
  destruct (_crawl_recursive world time load netloc url depth _)
    as [s' r] eqn:E.
  destruct (_close_driver (driver s')) as [w1 [[]|e]]; [|discriminate].
  destruct r as [[]|e]; [|discriminate].
  intros [= <- <-].
  destruct (crawl_recursive_adds _ _ _ _ _ E)
    as (new & Hp & Hv & Hn & Hu & Hh & Hl).
  cbn [pages_data app] in Hp. rewrite Hp. cbn [fst].
  split; [exact Hn|]. split; [|now split].
  eapply Forall_impl; [exact Hu|].
  intros p (_ & Hin & Hd). now split.
Qed.

(** X21. Whatever the browser shows, a crawl loads no URL twice and
    stays on one domain: the pages that [_crawl_recursive] adds have
    pairwise different URLs, none of which was visited before and all
    of which are visited afterwards, their URLs have the [netloc] of
    the URL that the crawl starts from, the first of them is the page
    of that URL, and they are at most [1 + 10 + ... + 10 ^ (depth - 1)],
    so none for a depth of zero or less; and the pages that [crawl]
    returns are such pages. *)
Theorem crawl_pages_distinct_on_one_domain :
  forall (url : string) (depth : Z),
    (forall s : state,
        let '(s', _) :=
          _crawl_recursive world time load netloc url depth s in
        exists new,
          pages_data s' = pages_data s ++ new
          /\ visited_urls s ⊆ visited_urls s'
          /\ NoDup (map pd_url new)
          /\ Forall (fun p => (pd_url p ∉ visited_urls s)
                              /\ (pd_url p ∈ visited_urls s')
                              /\ netloc (pd_url p) = netloc url) new
          /\ (forall p, head new = Some p -> pd_url p = url)
          /\ List.length new <= page_bound (Z.to_nat depth))
    /\ (forall (visited : gset string) (w : world),
           match crawl world time load netloc _init_driver _close_driver
                   url depth visited w with
           | (after, Fine pages) =>
               NoDup (map pd_url pages)
               /\ Forall (fun p => (pd_url p ∈ fst after)
                                   /\ netloc (pd_url p) = netloc url)
                    pages
               /\ (forall p, head pages = Some p -> pd_url p = url)
               /\ List.length pages <= page_bound (Z.to_nat depth)
           | (_, Raised _) => True
           end).
Proof.
  intros url depth. split.
  - intros s.
    destruct (_crawl_recursive world time load netloc url depth s)
      as [s' r] eqn:E.
    exact (crawl_recursive_adds _ _ s s' r E).
  - intros visited w.
    destruct (crawl world time load netloc _init_driver _close_driver
                url depth visited w) as [after [pages|e]] eqn:E;
      [|exact I].
    exact (crawl_fine_pages _ _ _ _ _ _ E).
Qed.

Lemma same_domain_fine base_domain visited links :
  (forall u, exists d, netloc u = Fine d) ->
  exists kept, same_domain netloc base_domain visited links = Fine kept.
Proof.
  intros Hparse. induction links as [|l links [kept IH]].
  - now exists [].
  - cbn [same_domain]. destruct (Hparse l) as [d ->]. rewrite IH.
    now eexists.
Qed.

Lemma visit_each_fine (visit : string -> state -> state * try unit) links :
  (forall link s, snd (visit link s) = Fine tt) ->
  forall s, snd (visit_each world time visit links s) = Fine tt.
Proof.
  intros Hvisit. induction links as [|l links IH]; intros s; [reflexivity|].
  cbn [visit_each]. specialize (Hvisit l s).
  destruct (visit l s) as [s1 r]. cbn [snd] in Hvisit. subst r. apply IH.
Qed.

Lemma crawl_levels_fine levels :
  (forall u, exists d, netloc u = Fine d) ->
  forall url s, snd (crawl_levels levels url s) = Fine tt.
Proof.
  intros Hparse. induction levels as [|below IH]; intros url s;
    [reflexivity|].
  cbn [WebCrawler.crawl_levels].
  destruct (bool_decide (url ∈ visited_urls s)); [reflexivity|].
  destruct (_get_page_data world time load url (driver s))
    as [w [page|]]; [|reflexivity].
  destruct (Hparse url) as [d ->].
  destruct (same_domain_fine d ({[url]} ∪ visited_urls s) (pd_links page)
              Hparse) as [kept ->].
  now apply visit_each_fine.
Qed.

(** X22. The exceptions that leave a crawl are those of [urlparse]
    and of the start and the end of the driver: when every URL can be
    parsed, [_crawl_recursive] returns, whatever the pages are and
    whether they could be loaded or not; and when moreover the driver
    starts and ends without an exception, [crawl] returns the pages
    collected, with the driver closed after the last page. *)
Theorem crawl_returns_when_urls_parse :
  (forall u, exists d, netloc u = Fine d) ->
  (forall w, snd (_close_driver w) = Fine tt) ->
  forall (start_url : string) (depth : Z) (visited : gset string)
    (w w0 : world),
    _init_driver w = (w0, Fine tt) ->
    exists s,
      _crawl_recursive world time load netloc start_url depth
        {| visited_urls := ∅; pages_data := []; driver := w0 |}
      = (s, Fine tt)
      /\ crawl world time load netloc _init_driver _close_driver
           start_url depth visited w
         = ((visited_urls s, fst (_close_driver (driver s))),
            Fine (pages_data s)).
Proof.
  intros Hparse Hclose start_url depth visited w w0 Hinit.
  unfold crawl. rewrite Hinit.
  pose proof (crawl_levels_fine (Z.to_nat depth) Hparse start_url
                {| visited_urls := ∅; pages_data := []; driver := w0 |})
    as Hfine.
  unfold _crawl_recursive.
  destruct (crawl_levels (Z.to_nat depth) start_url _) as [s r].
  cbn [snd] in Hfine. subst r. exists s. split; [reflexivity|].
  specialize (Hclose (driver s)).
  destruct (_close_driver (driver s)) as [w1 c]. cbn [snd] in Hclose.
  subst c. reflexivity.
Qed.

End Crawl.

Lemma crawl_returns_when_urls_parse_witness :
  exists s,
    _crawl_recursive unit unit
      (fun url w =>
         (w, Some (EmptyString, [], ["http://a/x"; "http://b/"], None, tt)))
      (fun u => Fine (take 8 u)) "http://a/" 2
      {| visited_urls := ∅; pages_data := []; driver := tt |}
    = (s, Fine tt)
    /\ crawl unit unit
         (fun url w =>
            (w, Some (EmptyString, [], ["http://a/x"; "http://b/"], None, tt)))
         (fun u => Fine (take 8 u)) (fun w => (w, Fine tt))
         (fun w => (w, Fine tt)) "http://a/" 2 ∅ tt
       = ((visited_urls s, driver s), Fine (pages_data s)).
Proof.
  apply (crawl_returns_when_urls_parse unit unit
           (fun url w =>
              (w, Some (EmptyString, [], ["http://a/x"; "http://b/"], None, tt)))
           (fun u => Fine (take 8 u)) (fun w => (w, Fine tt))
           (fun w => (w, Fine tt))).
  - intros u. now eexists.
  - reflexivity.
  - reflexivity.
Defined.

End WebCrawlerProps.

(** ** From the pages to the data of the report *)

Module PipelineProps.
Import PyStr HTMLParser VisualAnalyzer ScriptAnalyzer XSSDetector.
Import ReportGenerator ReportPreparation Counters Vocabulary Index.
#[local] Arguments String.append !_ _ / : simpl nomatch.

(** a record of the page [url] with the screenshot [screenshot_path] *)
Lemma for_each_script_of_page url screenshot_path scripts :
  forall acc found,
    Forall (fun v => XSSDetector.url v = url
                     /\ screenshot v = screenshot_path) acc ->
    for_each scripts (script_step url screenshot_path) acc = Ok found ->
    Forall (fun v => XSSDetector.url v = url
                     /\ screenshot v = screenshot_path) found.
Proof.
  apply (SynthesizerProps.for_each_script_Forall
           (fun v => XSSDetector.url v = url
                     /\ screenshot v = screenshot_path)).
  - intros s v Hv. unfold high_risk_script in Hv.
    destruct (key_issues_of s); simpl in Hv; [|discriminate].
    injection Hv as <-. split; reflexivity.
  - intros s. split; reflexivity.
Qed.

Lemma correlated_records_of_page :
  forall url visual_analysis html_analysis script_analysis screenshot_path,
    Forall (fun v => XSSDetector.url v = url
                     /\ screenshot v = screenshot_path)
      (produced (_correlate_analyses url visual_analysis html_analysis
                   script_analysis screenshot_path)).
Proof.
  intros url visual h sa sp. unfold _correlate_analyses.
  destruct (_find_script_vulnerabilities url h sa sp) as [found|e] eqn:E;
    simpl; [|constructor].
  apply Forall_app; split; [|apply Forall_app; split; [|apply Forall_app; split]].
  - unfold _find_input_vulnerabilities. destruct visual as [v|].
    + apply Forall_forall. intros r Hr.
      apply list_elem_of_In, in_concat in Hr as (l1 & Hl1 & Hr).
      apply in_map_iff in Hl1 as (visual_input & <- & _).
      apply in_concat in Hr as (l2 & Hl2 & Hr).
      apply in_map_iff in Hl2 as (html_input & <- & _).
      unfold correlated_input in Hr.
      destruct (in_suspicious html_input || _); [|destruct Hr].
      destruct Hr as [<-|[]]. split; reflexivity.
    + apply SynthesizerProps.Forall_map_record. intros a. split; reflexivity.
  - apply SynthesizerProps.Forall_map_record. intros a. split; reflexivity.
  - unfold _find_script_vulnerabilities in E.
    destruct (for_each _ _ _) as [from_scripts|e] eqn:F; simpl in E;
      [|discriminate].
    injection E as <-. apply Forall_app. split.
    + eapply for_each_script_of_page; [constructor | exact F].
    + apply SynthesizerProps.Forall_map_record. intros a. split; reflexivity.
  - unfold _find_url_vulnerabilities. apply Forall_app. split;
      apply SynthesizerProps.Forall_map_record; intros a; split; reflexivity.
Qed.

Lemma results_of_concat {page : Type}
  (analyze : page -> list vulnerability_record) (pages_data : list page) :
  forall acc,
    fold_left
      (fun results page_data =>
         match analyze page_data with
         | [] => results
         | _ :: _ => results ++ analyze page_data
         end) pages_data acc
    = acc ++ List.concat (map analyze pages_data).
Proof.
  induction pages_data as [|p pages_data IH]; intros acc.
  - simpl. now rewrite app_nil_r.
  - cbn [fold_left map List.concat]. rewrite IH.
    destruct (analyze p) as [|v l]; [reflexivity|].
    now rewrite <- app_assoc.
Qed.

Lemma occurrences_graded (l : list vulnerability_record) :
  Forall graded l ->
  occurrences severity Alto l + occurrences severity Medio l = List.length l
  /\ forall k, k <> Alto -> k <> Medio -> occurrences severity k l = 0.
Proof.
  unfold occurrences. induction l as [|v l IH]; intros H.
  - split; [reflexivity | intros; reflexivity].
  - apply Forall_cons in H as [[[Hv|Hv] _] Hl];
      destruct (IH Hl) as [IH1 IH2]; cbn [List.filter]; rewrite Hv.
    + split.
      * change (String.eqb Alto Alto) with true.
        change (String.eqb Alto Medio) with false.
        cbn [List.length]. lia.
      * intros k Hk1 Hk2. pose proof Hk1 as Hk. apply String.eqb_neq in Hk.
        rewrite String.eqb_sym, Hk. now apply IH2.
    + split.
      * change (String.eqb Medio Alto) with false.
        change (String.eqb Medio Medio) with true.
        cbn [List.length]. lia.
      * intros k Hk1 Hk2. pose proof Hk2 as Hk. apply String.eqb_neq in Hk.
        rewrite String.eqb_sym, Hk. now apply IH2.
Qed.

Section Scan.

Variable image : Type.
Variable path_exists : string -> bool.
Variable imread : string -> option image.
Variable dimensions : image -> Z * Z.
Variable _detect_input_fields : image -> option (list input_field).
Variable parse : string -> string -> html_analysis.

Local Abbreviation analyze :=
  (XSSDetector.analyze image path_exists imread dimensions
     _detect_input_fields parse).

(** X23. Every record that the synthesizer produces for a page
    carries the URL of that page and the path of its screenshot,
    whichever pass made it; so the findings of [XSSDetector.analyze]
    name the page that was given, and no other. *)
Theorem records_carry_the_page :
  (forall url visual_analysis html_analysis script_analysis
      screenshot_path,
      Forall (fun v => XSSDetector.url v = url
                       /\ screenshot v = screenshot_path)
        (produced (_correlate_analyses url visual_analysis html_analysis
                     script_analysis screenshot_path)))
  /\ (forall page : page_data,
         Forall (fun v => XSSDetector.url v = page_url page
                          /\ screenshot v = page_screenshot_path page)
           (analyze page)).
Proof.
  split.
  - apply correlated_records_of_page.
  - intros page. unfold XSSDetector.analyze.
    apply correlated_records_of_page.
Qed.

Lemma analyze_graded (page : page_data) : Forall graded (analyze page).
Proof. unfold XSSDetector.analyze. apply XSSDetectorProps.correlate_graded. Qed.

Variable world : Type.
Variable time : Type.
Variable load :
  string -> world ->
  world * option (string * list script * list string * option string * time).
Variable netloc : string -> WebCrawler.try string.
Variable _init_driver : world -> world * WebCrawler.try unit.
Variable _close_driver : world -> world * WebCrawler.try unit.

(** X24. From the crawl to the data of the report: when [crawl]
    returns pages, the findings that [main] collects of them are all
    of severity [Alto] or [Medio], and in the data that [generate]
    prepares of them the total does not exceed their number, no two
    entries have the same URL, type and description, every finding is
    represented by an entry with its URL, type and description, every
    analyzed URL is the URL of a crawled page and lies on the domain of
    the start URL, and the counters of the severities other than
    [Alto] and [Medio] are zero while these two add up to the
    total. *)
Theorem scan_report_is_consistent :
  forall (start_url : string) (depth : Z) (visited : gset string)
    (w : world) (now : string),
    match WebCrawler.crawl world time load netloc _init_driver
            _close_driver start_url depth visited w with
    | (_, WebCrawler.Raised _) => True
    | (_, WebCrawler.Fine pages) =>
        let results := results_of page_data analyze (map page_of pages) in
        let report := report_data_of now results in
        Forall graded results
        /\ rd_total_vulnerabilities report <= List.length results
        /\ NoDup (map clean_key (rd_vulnerabilities report))
        /\ (forall v, v ∈ results ->
                      exists c, c ∈ rd_vulnerabilities report
                                /\ clean_key c = key v)
        /\ (forall u, u ∈ rd_urls_analyzed report ->
                      netloc u = netloc start_url
                      /\ exists p, p ∈ pages /\ WebCrawler.pd_url p = u)
        /\ (forall k, k <> Alto -> k <> Medio ->
                      count_of k (rd_vulnerabilities_by_severity report) = 0)
        /\ count_of Alto (rd_vulnerabilities_by_severity report)
           + count_of Medio (rd_vulnerabilities_by_severity report)
           = rd_total_vulnerabilities report
    end.
Proof.
  intros start_url depth visited w now.
  destruct (WebCrawler.crawl world time load netloc _init_driver
              _close_driver start_url depth visited w)
    as [after [pages|e]] eqn:Ec; [|exact I].
  destruct (WebCrawlerProps.crawl_fine_pages _ _ _ _ _ _ _ _ _ _ _ _ Ec)
    as (_ & Hdom & _ & _).
  cbv zeta. unfold results_of, report_data_of.
  rewrite (results_of_concat analyze (map page_of pages) []).
  cbn [app].
  set (results := List.concat (map analyze (map page_of pages))).
  assert (Hres : forall v, v ∈ results ->
            exists p, p ∈ pages /\ v ∈ analyze (page_of p)).
  { intros v Hv. apply list_elem_of_In, in_concat in Hv as (l & Hl & Hv).
    rewrite map_map in Hl. apply in_map_iff in Hl as (p & <- & Hp).
    exists p. split; now apply list_elem_of_In. }
  assert (Hgr : Forall graded results).
  { apply Forall_forall. intros v Hv.
    destruct (Hres v Hv) as (p & _ & Hin).
    pose proof (analyze_graded (page_of p)) as Hg.
    rewrite Forall_forall in Hg. now apply Hg. }
  set (unique := _deduplicate_vulnerabilities results).
  assert (Hsub : sublist unique results)
    by apply ReportGeneratorProps.dedup_loop_sublist.
  assert (Hgu : Forall graded unique).
  { apply Forall_forall. intros v Hv. rewrite Forall_forall in Hgr.
    apply Hgr. now apply (elem_of_sublist unique). }
  unfold _prepare_report_data, enumerate.
  set (r0 := {| rd_timestamp := now;
                rd_total_vulnerabilities := List.length unique;
                rd_urls_analyzed := ∅;
                rd_vulnerabilities_by_type := [];
                rd_vulnerabilities_by_severity := [];
                rd_vulnerabilities_by_url := [];
                rd_vulnerabilities := [] |}).
  set (ivs := combine (seq 0 (List.length unique)) unique).
  destruct (ReportDataProps.fold_prepare_step ivs r0)
    as (_ & Hn & Hv & Hu & _ & _ & _ & _ & Hse).
  cbv zeta in *.
  assert (Hsnd : map snd ivs = unique) by apply ReportDataProps.snd_enumerate.
  assert (Hkeys : map clean_key
                    (rd_vulnerabilities (fold_left prepare_step ivs r0))
                  = map key unique).
  { rewrite Hv. cbn [rd_vulnerabilities r0 app].
    rewrite map_map, <- Hsnd, map_map. reflexivity. }
  split; [exact Hgr|].
  split; [rewrite Hn; cbn [rd_total_vulnerabilities r0];
          now apply sublist_length|].
  split; [rewrite Hkeys; apply ReportGeneratorProps.dedup_loop_keys|].
  split.
  { intros v Hin.
    destruct (ReportGeneratorProps.deduplicate_keys results)
      as [_ Hrep].
    destruct (Hrep v Hin) as (v' & Hv' & Hk).
    assert (Hk' : key v ∈ map clean_key
                    (rd_vulnerabilities (fold_left prepare_step ivs r0))).
    { rewrite Hkeys, <- Hk. apply list_elem_of_fmap. now exists v'. }
    apply list_elem_of_fmap in Hk' as (c & Hc & Hin').
    exists c. now split. }
  split.
  { intros u Hin. rewrite Hu in Hin. cbn [rd_urls_analyzed r0] in Hin.
    rewrite union_empty_r_L, elem_of_list_to_set in Hin.
    apply list_elem_of_fmap in Hin as ([i v] & -> & Hiv). cbn [snd].
    assert (Hvu : v ∈ unique).
    { rewrite <- Hsnd. apply list_elem_of_fmap. now exists (i, v). }
    apply (elem_of_sublist unique results) in Hvu; [|exact Hsub].
    destruct (Hres v Hvu) as (p & Hp & Hin).
    pose proof (correlated_records_of_page (page_url (page_of p))) as Hc.
    assert (Hurl : XSSDetector.url v = WebCrawler.pd_url p).
    { unfold XSSDetector.analyze in Hin.
      specialize (Hc (visual_of image path_exists imread dimensions
                        _detect_input_fields
                        (page_screenshot_path (page_of p)))
                     (parse (page_html (page_of p)) (page_url (page_of p)))
                     (ScriptAnalyzer.analyze (page_scripts (page_of p)))
                     (page_screenshot_path (page_of p))).
      rewrite Forall_forall in Hc. now destruct (Hc v Hin). }
    rewrite Hurl. rewrite Forall_forall in Hdom.
    destruct (Hdom p Hp) as [_ Hd]. split; [exact Hd|]. now exists p. }
  destruct (occurrences_graded unique Hgu) as [Hsum Hzero].
  split.
  { intros k Hk1 Hk2. rewrite Hse, Hsnd.
    cbn [rd_vulnerabilities_by_severity r0 count_of].
    now rewrite Hzero. }
  rewrite !Hse, Hsnd, Hn.
  cbn [rd_vulnerabilities_by_severity rd_total_vulnerabilities r0 count_of].
  lia.
Qed.

End Scan.

End PipelineProps.
